(** * Laforge core: identity, hashing, merge and transport workflow

    A shallow embedding of the Go sources of the [core] package
    (metadata.go, network.go, dns_record.go, command.go, remote_file.go,
    provisioning_step.go, provisioned_network.go, connection.go) together
    with the properties of the design document that can be settled on it.

    Conventions
    - Go [string]s are byte strings: Rocq [string].
    - [uint64] is a [Z] kept in the range [0, 2^64) by [U64.wrap].
    - Pointers are [option loc] ([None] is [nil]); pointees live in a
      store [gmap loc Obj], so that struct copies share their pointees.
    - A call that can hit a nil dereference, an explicit [panic] or
      [log.Fatal] returns an [outcome]. *)

From Stdlib Require Import ZArith List String Ascii Lia Bool HexString.
From stdpp Require Import base option list strings gmap pretty.

Open Scope Z_scope.
Open Scope string_scope.

(* ===================================================================== *)
(** ** Machine integers *)
(* ===================================================================== *)

Module U64.

Definition modulus : Z := 2 ^ 64.

Definition wrap (z : Z) : Z := z mod modulus.

Definition add (a b : Z) : Z := wrap (a + b).
Definition mul (a b : Z) : Z := wrap (a * b).
Definition neg (a : Z) : Z := wrap (- a).
Definition xor (a b : Z) : Z := Z.lxor a b.
Definition shr (a : Z) (n : Z) : Z := Z.shiftr a n.

(** [bits.RotateLeft64] *)
Definition rol (a : Z) (r : Z) : Z :=
  wrap (Z.lor (Z.shiftl a r) (Z.shiftr a (64 - r))).

End U64.

(* ===================================================================== *)
(** ** github.com/cespare/xxhash: the 64-bit XXH64 digest, seed 0 *)
(* ===================================================================== *)

Module xxhash.

Definition prime1 : Z := 11400714785074694791.
Definition prime2 : Z := 14029467366897019727.
Definition prime3 : Z := 1609587929392839161.
Definition prime4 : Z := 9650029242287828579.
Definition prime5 : Z := 2870177450012600261.

(** Little-endian read of a byte slice ([u64] on 8 bytes, [u32] on 4). *)
Definition le (bs : list Z) : Z :=
  fold_right (fun b acc => b + 256 * acc) 0 bs.

Definition round (acc input : Z) : Z :=
  let acc := U64.add acc (U64.mul input prime2) in
  let acc := U64.rol acc 31 in
  U64.mul acc prime1.

Definition mergeRound (acc val : Z) : Z :=
  let val := round 0 val in
  let acc := U64.xor acc val in
  U64.add (U64.mul acc prime1) prime4.

Record lanes := { v1 : Z; v2 : Z; v3 : Z; v4 : Z }.

(** The [for len(b) >= 32] loop: [n] full 32-byte stripes are consumed. *)
Fixpoint stripes (n : nat) (b : list Z) (v : lanes) : lanes * list Z :=
  match n with
  | O => (v, b)
  | S n' =>
      let v' := {| v1 := round (v1 v) (le (take 8 b));
                   v2 := round (v2 v) (le (take 8 (drop 8 b)));
                   v3 := round (v3 v) (le (take 8 (drop 16 b)));
                   v4 := round (v4 v) (le (take 8 (drop 24 b))) |} in
      stripes n' (drop 32 b) v'
  end.

(** The [for ; i+8 <= end; i += 8] loop. *)
Fixpoint words (n : nat) (b : list Z) (h : Z) : Z * list Z :=
  match n with
  | O => (h, b)
  | S n' =>
      let k1 := round 0 (le (take 8 b)) in
      let h := U64.xor h k1 in
      let h := U64.add (U64.mul (U64.rol h 27) prime1) prime4 in
      words n' (drop 8 b) h
  end.

(** The trailing [for ; i < end; i++] loop. *)
Fixpoint tail (b : list Z) (h : Z) : Z :=
  match b with
  | [] => h
  | x :: b' =>
      let h := U64.xor h (U64.mul x prime5) in
      tail b' (U64.mul (U64.rol h 11) prime1)
  end.

Definition avalanche (h : Z) : Z :=
  let h := U64.xor h (U64.shr h 33) in
  let h := U64.mul h prime2 in
  let h := U64.xor h (U64.shr h 29) in
  let h := U64.mul h prime3 in
  U64.xor h (U64.shr h 32).

Definition Sum64 (b : list Z) : Z :=
  let n := length b in
  let '(h, b) :=
    if (32 <=? n)%nat then
      let v0 := {| v1 := U64.add prime1 prime2; v2 := prime2;
                   v3 := 0; v4 := U64.neg prime1 |} in
      let '(v, b') := stripes (n / 32) b v0 in
      let h := U64.add (U64.add (U64.rol (v1 v) 1) (U64.rol (v2 v) 7))
                       (U64.add (U64.rol (v3 v) 12) (U64.rol (v4 v) 18)) in
      let h := mergeRound h (v1 v) in
      let h := mergeRound h (v2 v) in
      let h := mergeRound h (v3 v) in
      let h := mergeRound h (v4 v) in
      (h, b')
    else (prime5, b) in
  let h := U64.add h (Z.of_nat n) in
  let '(h, b) := words (length b / 8) b h in
  let '(h, b) :=
    if (4 <=? length b)%nat then
      let h := U64.xor h (U64.mul (le (take 4 b)) prime1) in
      (U64.add (U64.mul (U64.rol h 23) prime2) prime3, drop 4 b)
    else (h, b) in
  avalanche (tail b h).

Definition bytes_of_string (s : string) : list Z :=
  map (fun a => Z.of_N (N_of_ascii a)) (list_ascii_of_string s).

Definition Sum64String (s : string) : Z := Sum64 (bytes_of_string s).

End xxhash.

(* ===================================================================== *)
(** ** Go standard library: [strings], [path], [fmt] *)
(* ===================================================================== *)

Definition slash : ascii := "/"%char.

Definition is_slash (a : ascii) : bool := Ascii.eqb a slash.

Module strings.

(** [strings.Split(s, "/")]: always at least one element. *)
Fixpoint Split (s : string) : list string :=
  match s with
  | EmptyString => [EmptyString]
  | String a s' =>
      if is_slash a then EmptyString :: Split s'
      else match Split s' with
           | [] => [String a EmptyString]
           | x :: xs => String a x :: xs
           end
  end.

(** [strings.Join(elems, sep)] *)
Fixpoint Join (elems : list string) (sep : string) : string :=
  match elems with
  | [] => ""
  | [x] => x
  | x :: xs => x +:+ sep +:+ Join xs sep
  end.

Definition HasSlash (s : string) : bool :=
  existsb is_slash (list_ascii_of_string s).

End strings.

Module path.

(** [path.IsAbs] *)
Definition IsAbs (p : string) : bool :=
  match p with
  | String a _ => is_slash a
  | EmptyString => false
  end.

(** One step of [Clean]'s scan, on the stack of elements kept so far
    (most recent first).  An element [".."] is on the stack only when
    it could not be cancelled, so the top can be popped exactly when it
    is not [".."]. *)
Definition clean_step (rooted : bool) (stack : list string) (elem : string)
  : list string :=
  if String.eqb elem "" then stack
  else if String.eqb elem "." then stack
  else if String.eqb elem ".." then
    match stack with
    | top :: below =>
        if String.eqb top ".." then elem :: stack else below
    | [] => if rooted then [] else [elem]
    end
  else elem :: stack.

(** [path.Clean] *)
Definition Clean (p : string) : string :=
  if String.eqb p "" then "."
  else
    let rooted := IsAbs p in
    let kept := rev (fold_left (clean_step rooted) (strings.Split p) []) in
    if rooted then "/" +:+ strings.Join kept "/"
    else match kept with
         | [] => "."
         | _ => strings.Join kept "/"
         end.

(** [path.Split]: the directory keeps its final slash. *)
Fixpoint Split (p : string) : string * string :=
  match p with
  | EmptyString => ("", "")
  | String a p' =>
      let '(d, f) := Split p' in
      if is_slash a then (String a d, f)
      else match d with
           | EmptyString => ("", String a f)
           | _ => (String a d, f)
           end
  end.

(** [path.Dir] *)
Definition Dir (p : string) : string := Clean (fst (Split p)).

(** Removal of the trailing slashes, the first loop of [Base]. *)
Fixpoint strip_slashes (p : string) : string :=
  match p with
  | EmptyString => ""
  | String a p' =>
      let r := strip_slashes p' in
      if is_slash a && String.eqb r "" then "" else String a r
  end.

(** [path.Base] *)
Definition Base (p : string) : string :=
  if String.eqb p "" then "."
  else
    let q := strip_slashes p in
    if String.eqb q "" then "/" else snd (Split q).

(** [path.Join] *)
Fixpoint Join (elem : list string) : string :=
  match elem with
  | [] => ""
  | e :: rest =>
      if String.eqb e "" then Join rest
      else Clean (strings.Join elem "/")
  end.

End path.

Module fmt.

(** The [%v] renderings that the hash preimages use. *)
Definition bool_v (b : bool) : string := if b then "true" else "false".

Definition int_v (z : Z) : string := pretty z.

Definition uint64_v (z : Z) : string := pretty z.

(** [%x] of an unsigned integer. *)
Definition uint64_x (z : Z) : string :=
  match z with
  | Zpos p => HexString.Raw.of_pos p ""
  | _ => "0"
  end.

(** [%v] of a [[]string]: the elements between brackets, space separated. *)
Definition strings_v (l : list string) : string :=
  "[" +:+ strings.Join l " " +:+ "]".

Fixpoint insert_sorted (kv : string * string) (l : list (string * string))
  : list (string * string) :=
  match l with
  | [] => [kv]
  | kv' :: l' =>
      if String.leb (fst kv) (fst kv') then kv :: l
      else kv' :: insert_sorted kv l'
  end.

Definition sort_by_key (l : list (string * string)) : list (string * string) :=
  foldr insert_sorted [] l.

(** [%v] of a [map[string]string]: [map[k:v k:v]], keys in increasing
    order (what [fmt] prints since Go 1.12). *)
Definition map_v (m : gmap string string) : string :=
  "map[" +:+
  strings.Join (map (fun kv => fst kv +:+ ":" +:+ snd kv)
                    (sort_by_key (map_to_list m))) " "
  +:+ "]".

End fmt.

(* ===================================================================== *)
(** ** Errors and outcomes *)
(* ===================================================================== *)

(** [ssh.Waitmsg] *)
Record Waitmsg := {
  Waitmsg_status : Z;
  Waitmsg_signal : string;
  Waitmsg_msg : string;
  Waitmsg_lang : string;
}.

(** Go [error] values.  Formatted errors keep their format and arguments
    apart instead of a rendered text. *)
Inductive error : Type :=
| errorString (text : string)                       (* errors.New *)
| Errorf (format : string) (args : list string)     (* fmt.Errorf *)
| ErrorfV (format : string) (args : list string) (inner : error)
                                   (* fmt.Errorf, last verb an error *)
| withMessage (cause : error) (format : string) (args : list string)
                                                    (* errors.Wrapf *)
| PathError (op : string) (name : string) (reason : string)
                                                    (* *os.PathError *)
| ExitError (w : Waitmsg)                           (* *ssh.ExitError *)
| TimeoutExtension (inner : error).

(** Modelled from the spec: [NewTimeoutExtension] is declared outside the
    files at hand; a step error is re-signaled as a distinguished
    timeout-extension variant rather than a bare error. *)
Definition NewTimeoutExtension (e : error) : error := TimeoutExtension e.

Module errors.

Definition New (text : string) : error := errorString text.

(** [errors.Wrapf] on a non-nil error. *)
Definition Wrapf (e : error) (format : string) (args : list string) : error :=
  withMessage e format args.

(** [errors.Cause] *)
Fixpoint Cause (e : error) : error :=
  match e with
  | withMessage c _ _ => Cause c
  | _ => e
  end.

End errors.

(** How a call ends: it returns, it panics, or the process exits
    ([log.Fatal]). *)
Inductive outcome (A : Type) : Type :=
| Returned (a : A)
| Panicked (reason : string)
| Exited (code : Z).

Arguments Returned {A} a.
Arguments Panicked {A} reason.
Arguments Exited {A} code.

Definition nil_dereference : string :=
  "runtime error: invalid memory address or nil pointer dereference".

Definition index_out_of_range : string :=
  "runtime error: index out of range".

Definition returns {A} (o : outcome A) : Prop := exists a, o = Returned a.

(* ===================================================================== *)
(** ** metadata.go: path validation and classification *)
(* ===================================================================== *)

Definition ErrPathEndsInSlash : error :=
  errors.New "path ends in a trailing slash".

Definition ErrPathContainsInvalidChars : error :=
  errors.New "path contains invalid characters".

Definition ErrPathContainsDuplicateSlash : error :=
  errors.New "path contains consecutive slash characters".

Module regexp.

Definition in_range (lo hi a : ascii) : bool :=
  (N_of_ascii lo <=? N_of_ascii a)%N && (N_of_ascii a <=? N_of_ascii hi)%N.

(** [[a-z0-9]] *)
Definition lower_alnum (a : ascii) : bool :=
  in_range "a" "z" a || in_range "0" "9" a.

(** [[a-z0-9\-\/]] *)
Definition path_char (a : ascii) : bool :=
  lower_alnum a || Ascii.eqb a "-" || is_slash a.

(** [^\/[a-z0-9\-\/]{3,}[a-z0-9]$]: a slash, then at least three
    characters of the class, then one last lowercase alphanumeric,
    and nothing else. *)
Definition genericPathRegexp (p : string) : bool :=
  match p with
  | String a rest =>
      is_slash a &&
      match rev (list_ascii_of_string rest) with
      | last :: body =>
          lower_alnum last && (3 <=? length body)%nat && forallb path_char body
      | [] => false
      end
  | EmptyString => false
  end.

(** [\/\/], unanchored: two slashes in a row anywhere. *)
Fixpoint consecutiveSlashRegexp (p : string) : bool :=
  match p with
  | String a ((String b _) as p') =>
      (is_slash a && is_slash b) || consecutiveSlashRegexp p'
  | _ => false
  end.

End regexp.

(** [ValidateGenericPath]; [None] is the nil error. *)
Definition ValidateGenericPath (p : string) : option error :=
  if negb (regexp.genericPathRegexp p) then Some ErrPathContainsInvalidChars
  else if regexp.consecutiveSlashRegexp p then Some ErrPathContainsDuplicateSlash
  else None.

(** [type LFType string] *)
Definition LFType : Type := string.

Definition LFTypeCompetition : LFType := "competition".
Definition LFTypeNetwork : LFType := "network".
Definition LFTypeHost : LFType := "host".
Definition LFTypeRemoteFile : LFType := "remote_file".
Definition LFTypeCommand : LFType := "command".
Definition LFTypeDNSRecord : LFType := "dns_record".
Definition LFTypeScript : LFType := "script".
Definition LFTypeEnvironment : LFType := "environment".
Definition LFTypeBuild : LFType := "build".
Definition LFTypeTeam : LFType := "team".
Definition LFTypeProvisionedNetwork : LFType := "provisioned_network".
Definition LFTypeProvisionedHost : LFType := "provisioned_host".
Definition LFTypeConnection : LFType := "connection".
Definition LFTypeProvisioningStep : LFType := "provisioning_step".
Definition LFTypeUnknown : LFType := "unknown".

(** [pelms[i]]: an index past the end panics. *)
Definition index (pelms : list string) (i : nat) : outcome string :=
  match pelms !! i with
  | Some s => Returned s
  | None => Panicked index_out_of_range
  end.

(** [TypeByPath] *)
Definition TypeByPath (p : string) : outcome LFType :=
  if negb (path.IsAbs p) then Returned LFTypeCompetition
  else
    let pelms := strings.Split p in
    match index pelms 1 with
    | Panicked r => Panicked r
    | Exited c => Exited c
    | Returned top =>
        Returned (
        if String.eqb top "scripts" then LFTypeScript
        else if String.eqb top "networks" then LFTypeNetwork
        else if String.eqb top "hosts" then LFTypeHost
        else if String.eqb top "commands" then LFTypeCommand
        else if String.eqb top "dns-records" then LFTypeDNSRecord
        else if String.eqb top "files" then LFTypeRemoteFile
        else if String.eqb (path.Base (path.Dir p)) "envs" then LFTypeEnvironment
        else if String.eqb (path.Base (path.Dir (path.Dir p))) "envs" then LFTypeBuild
        else if String.eqb (path.Base (path.Dir p)) "teams" then LFTypeTeam
        else if String.eqb (path.Base (path.Dir p)) "networks" && String.eqb top "envs"
             then LFTypeProvisionedNetwork
        else if String.eqb (path.Base (path.Dir p)) "hosts" && String.eqb top "envs"
             then LFTypeProvisionedHost
        else if String.eqb (path.Base p) "conn"
                && String.eqb (path.Base (path.Dir (path.Dir p))) "hosts"
             then LFTypeConnection
        else if String.eqb (path.Base (path.Dir p)) "steps" && String.eqb top "envs"
             then LFTypeProvisioningStep
        else LFTypeUnknown)
    end.

(** [IsGlobalType]: the [switch] on the classification. *)
Definition IsGlobalType (p : string) : outcome bool :=
  match TypeByPath p with
  | Panicked r => Panicked r
  | Exited c => Exited c
  | Returned t =>
      Returned (
      if String.eqb t LFTypeCompetition then true
      else if String.eqb t LFTypeCommand then true
      else if String.eqb t LFTypeNetwork then true
      else if String.eqb t LFTypeHost then true
      else if String.eqb t LFTypeDNSRecord then true
      else if String.eqb t LFTypeRemoteFile then true
      else if String.eqb t LFTypeScript then true
      else if String.eqb t LFTypeEnvironment then false
      else if String.eqb t LFTypeTeam then false
      else if String.eqb t LFTypeProvisionedNetwork then false
      else if String.eqb t LFTypeProvisionedHost then false
      else if String.eqb t LFTypeProvisioningStep then false
      else if String.eqb t LFTypeUnknown then false
      else false)
  end.

(** [GetTeamIDFromPath] *)
Definition GetTeamIDFromPath (p : string) : string * option error :=
  if negb (path.IsAbs p) then
    ("", Some (errors.New "not a valid absolute path ID schema"))
  else
    let pelms := strings.Split p in
    if (length pelms <? 6)%nat then
      ("", Some (errors.New
         "path does not meet minimum expected structure for team identification"))
    else if negb (String.eqb (nth 1 pelms "") "envs") then
      ("", Some (errors.New "path is not rooted inside an environment"))
    else (strings.Join (take 6 pelms) "/", None).

(* ===================================================================== *)
(** ** The object model *)
(* ===================================================================== *)

Definition loc : Type := nat.

(** A Go pointer: [None] is [nil]. *)
Abbreviation ptr := (option loc).

(** The pointer types that implement the package's interfaces
    ([Mergeable], [Dependency], [Provisioner]). *)
Inductive Kind : Type :=
| KNetwork | KDNSRecord | KCommand | KRemoteFile | KScript
| KProvisioningStep | KProvisionedNetwork | KConnection
| KHost | KTeam | KProvisionedHost | KBuild | KEnvironment | KCompetition.

#[global] Instance Kind_eq_dec : EqDecision Kind.
Proof. solve_decision. Defined.

(** An interface value: nil, or a dynamic type with its pointer (which may
    itself be a nil pointer). *)
Inductive iface : Type :=
| inil
| iptr (k : Kind) (p : ptr).

(** [%T] of an interface value. *)
Definition typeName (m : iface) : string :=
  match m with
  | inil => "<nil>"
  | iptr KNetwork _ => "*core.Network"
  | iptr KDNSRecord _ => "*core.DNSRecord"
  | iptr KCommand _ => "*core.Command"
  | iptr KRemoteFile _ => "*core.RemoteFile"
  | iptr KScript _ => "*core.Script"
  | iptr KProvisioningStep _ => "*core.ProvisioningStep"
  | iptr KProvisionedNetwork _ => "*core.ProvisionedNetwork"
  | iptr KConnection _ => "*core.Connection"
  | iptr KHost _ => "*core.Host"
  | iptr KTeam _ => "*core.Team"
  | iptr KProvisionedHost _ => "*core.ProvisionedHost"
  | iptr KBuild _ => "*core.Build"
  | iptr KEnvironment _ => "*core.Environment"
  | iptr KCompetition _ => "*core.Competition"
  end.

(** [CallFile] and [Caller], as [RemoteFile.ResolveSource] uses them. *)
Record CallFile := { CallerFile : string; CallerDir : string }.

Definition Caller : Type := list CallFile.

(** [OnConflict], with the two fields the defaults of [GetOnConflict] set. *)
Record OnConflict := { Do : string; Append : bool }.

(** [IO], with the three fields [Command.Hash] reads. *)
Record IO := { IO_Stdin : string; IO_Stdout : string; IO_Stderr : string }.

(** The [Status] value of a provisioned network.  Its declaration is
    outside the files at hand: an uninterpreted token. *)
Record Status := { Status_token : string }.

Record Network := {
  Network_ID : string;
  Network_Name : string;
  Network_CIDR : string;
  Network_VDIVisible : bool;
  Network_Vars : gmap string string;
  Network_Tags : gmap string string;
  Network_OnConflict : ptr;
  Network_Caller : Caller;
}.

Record DNSRecord := {
  DNSRecord_ID : string;
  DNSRecord_Name : string;
  DNSRecord_Values : list string;
  DNSRecord_Type : string;
  DNSRecord_Zone : string;
  DNSRecord_Vars : gmap string string;
  DNSRecord_Tags : gmap string string;
  DNSRecord_Disabled : bool;
  DNSRecord_OnConflict : ptr;
  DNSRecord_Caller : Caller;
}.

Record Command := {
  Command_ID : string;
  Command_Name : string;
  Command_Description : string;
  Command_Program : string;
  Command_Args : list string;
  Command_IgnoreErrors : bool;
  Command_Cooldown : Z;
  Command_IO : ptr;
  Command_Disabled : bool;
  Command_Vars : gmap string string;
  Command_Tags : gmap string string;
  Command_OnConflict : ptr;
  Command_Maintainer : ptr;
  Command_Caller : Caller;
}.

Record RemoteFile := {
  RemoteFile_ID : string;
  RemoteFile_SourceType : string;
  RemoteFile_Source : string;
  RemoteFile_Destination : string;
  RemoteFile_Vars : gmap string string;
  RemoteFile_Tags : gmap string string;
  RemoteFile_Template : bool;
  RemoteFile_Perms : string;
  RemoteFile_Disabled : bool;
  RemoteFile_OnConflict : ptr;
  RemoteFile_MD5 : string;
  RemoteFile_Caller : Caller;
  RemoteFile_AbsPath : string;
  RemoteFile_Ext : string;
}.

Record ProvisioningStep := {
  ProvisioningStep_ID : string;
  ProvisioningStep_ProvisionerID : string;
  ProvisioningStep_ProvisionerType : string;
  ProvisioningStep_StepNumber : Z;
  ProvisioningStep_Status : string;
  ProvisioningStep_ProvisionedHost : ptr;
  ProvisioningStep_ProvisionedNetwork : ptr;
  ProvisioningStep_Host : ptr;
  ProvisioningStep_Network : ptr;
  ProvisioningStep_Team : ptr;
  ProvisioningStep_Build : ptr;
  ProvisioningStep_Environment : ptr;
  ProvisioningStep_Competition : ptr;
  ProvisioningStep_Provisioner : iface;
  ProvisioningStep_Script : ptr;
  ProvisioningStep_Command : ptr;
  ProvisioningStep_RemoteFile : ptr;
  ProvisioningStep_DNSRecord : ptr;
  ProvisioningStep_OnConflict : ptr;
  ProvisioningStep_Caller : Caller;
  ProvisioningStep_Dir : string;
}.

Record ProvisionedNetwork := {
  ProvisionedNetwork_ID : string;
  ProvisionedNetwork_Name : string;
  ProvisionedNetwork_CIDR : string;
  ProvisionedNetwork_NetworkID : string;
  ProvisionedNetwork_ProvisionedHosts : gmap string loc;
  ProvisionedNetwork_Status : Status;
  ProvisionedNetwork_Network : ptr;
  ProvisionedNetwork_Team : ptr;
  ProvisionedNetwork_Build : ptr;
  ProvisionedNetwork_Environment : ptr;
  ProvisionedNetwork_Competition : ptr;
  ProvisionedNetwork_OnConflict : ptr;
  ProvisionedNetwork_Caller : Caller;
  ProvisionedNetwork_Dir : string;
}.

Record Connection := {
  Connection_ID : string;
  Connection_Active : bool;
  Connection_LocalAddr : string;
  Connection_RemoteAddr : string;
  Connection_ResourceName : string;
  Connection_SSHAuthConfig : ptr;
  Connection_WinRMAuthConfig : ptr;
  Connection_Revision : Z;
  Connection_OnConflict : ptr;
  Connection_Competition : ptr;
  Connection_Environment : ptr;
  Connection_Build : ptr;
  Connection_Team : ptr;
  Connection_Network : ptr;
  Connection_Host : ptr;
  Connection_ProvisionedHost : ptr;
  Connection_ProvisionedNetwork : ptr;
  Connection_Caller : Caller;
}.

(** Struct types declared outside the files at hand, with the fields that
    the code here reads through a pointer to them. *)
Record Build := { Build_ID : string }.
Record Team := { Team_ID : string }.
Record Host := { Host_ID : string }.
Record Script := { Script_ID : string }.
Record ProvisionedHost := { ProvisionedHost_ID : string; ProvisionedHost_Host : ptr }.

Record MetaResource := {
  MetaResource_ID : string;
  MetaResource_PathFromBase : string;
  MetaResource_Basename : string;
  MetaResource_ParentIDs : list string;
  MetaResource_IsDir : bool;
  MetaResource_CreatedAt : Z;
  MetaResource_ModifiedAt : Z;
  MetaResource_Checksum : Z;
  MetaResource_Size : Z;
}.

Record Metadata := {
  Metadata_Dependency : iface;
  Metadata_ID : string;
  Metadata_ObjectType : LFType;
  Metadata_Created : bool;
  Metadata_Tainted : bool;
  Metadata_Addition : bool;
  Metadata_Checksum : Z;
  Metadata_CreatedAt : Z;
  Metadata_ModifiedAt : Z;
  Metadata_Resources : list MetaResource;
}.

(** What a store cell holds. *)
Inductive Obj : Type :=
| ONetwork (v : Network)
| ODNSRecord (v : DNSRecord)
| OCommand (v : Command)
| ORemoteFile (v : RemoteFile)
| OProvisioningStep (v : ProvisioningStep)
| OProvisionedNetwork (v : ProvisionedNetwork)
| OConnection (v : Connection)
| OBuild (v : Build)
| OTeam (v : Team)
| OHost (v : Host)
| OScript (v : Script)
| OProvisionedHost (v : ProvisionedHost)
| OMetadata (v : Metadata)
| OOnConflict (v : OnConflict)
| OIO (v : IO).

(** A local file, as [os.Stat], [os.Open] and reads see it.  A path absent
    from the file table does not exist. *)
Inductive File : Type :=
| Regular (content : list Z)
| Directory
| Unopenable (reason : string).

(** The three timeout-bounded steps of the upload-execute-delete
    workflow. *)
Inductive Step : Type := StepUpload | StepExecute | StepDelete.

(** What the run leaves behind, in order. *)
Inductive Event : Type :=
| EvStep (step : Step)
| EvPrintf (format : string) (args : list string) (err : error)
| EvLog (level : string) (format : string) (args : list string)
| EvLogErr (level : string) (format : string) (args : list string) (err : error)
| EvHashCall (d : iface)
| EvSSHConnect
| EvSSHDisconnect
| EvSFTPUpload (src dst : string)
| EvSSHStart (command : string)
| EvSFTPDelete (remotefile : string)
| EvWinRMCopy (src dst : string)
| EvWinRMExecute (command : string)
| EvSleep (seconds : Z)
| EvClose (writer : string).

(** The answers of the remote side: every client operation of the SSH and
    WinRM clients (declared outside the files at hand) either fails with an
    error or succeeds. *)
Record Remote := {
  NewSSHClient : option error;
  ssh_Connect : option error;
  ssh_UploadScriptV2 : string -> string -> option error;
  ssh_Start : string -> option error;
  ssh_Wait : string -> option error;
  ssh_DeleteScriptV2 : string -> option error;
  winrmcp_New : option error;
  winrmcp_Copy : string -> string -> option error;
  winrm_SetConfig : option error;
  winrm_ExecuteNonInteractive : string -> option error;
  winrm_Wait : string -> option error;
}.

Record State := {
  heap : gmap loc Obj;
  files : gmap string File;
  remote : Remote;
  trace : list Event;
}.

Definition with_heap (h : gmap loc Obj) (s : State) : State :=
  {| heap := h; files := files s; remote := remote s; trace := trace s |}.

Definition with_trace (t : list Event) (s : State) : State :=
  {| heap := heap s; files := files s; remote := remote s; trace := t |}.

(** What is declared in files of the package that are not at hand. *)
Class Externals := {
  (** the sentinel returned (wrapped) by every [Swap] *)
  ErrSwapTypeMismatch : error;
  (** [HashConfigMap], by the [%v] text of its result *)
  HashConfigMap : gmap string string -> string;
  (** [Hash()] of [Script], [Team], [Host], ...: from the store, the
      local files and the receiver *)
  foreign_Hash : Kind -> gmap loc Obj -> gmap string File -> ptr -> outcome Z;
  (** [Hash()] of the two auth configurations and of [Status] *)
  SSHAuthConfig_Hash : gmap loc Obj -> ptr -> outcome Z;
  WinRMAuthConfig_Hash : gmap loc Obj -> ptr -> outcome Z;
  Status_Hash : Status -> Z;
  (** [PerformInTimeout]: from the timeout and what the step sent on its
      channel to what the caller gets back *)
  PerformInTimeout : Z -> option error -> option error;
  (** [crypto/md5], rendered with [%x] *)
  md5_hex : list Z -> string;
}.

(* ===================================================================== *)
(** ** The state monad of the embedding *)
(* ===================================================================== *)

Definition M (A : Type) : Type := State -> outcome (A * State).

#[global] Instance M_ret : MRet M := fun A a s => Returned (a, s).

#[global] Instance M_bind : MBind M := fun A B k m s =>
  match m s with
  | Returned (a, s') => k a s'
  | Panicked r => Panicked r
  | Exited c => Exited c
  end.

Definition ret {A} (a : A) : M A := mret a.

Definition panic {A} (reason : string) : M A := fun _ => Panicked reason.

Definition exit {A} (code : Z) : M A := fun _ => Exited code.

Definition get : M State := fun s => Returned (s, s).

Definition emit (e : Event) : M unit :=
  fun s => Returned (tt, with_trace (trace s ++ [e]) s).

Definition lift {A} (o : outcome A) : M A :=
  fun s =>
    match o with
    | Returned a => Returned (a, s)
    | Panicked r => Panicked r
    | Exited c => Exited c
    end.

(** The value a run returns, and the state it leaves. *)
Definition value {A} (o : outcome (A * State)) : outcome A :=
  match o with
  | Returned (a, _) => Returned a
  | Panicked r => Panicked r
  | Exited c => Exited c
  end.

Definition final {A} (o : outcome (A * State)) : option State :=
  match o with
  | Returned (_, s) => Some s
  | _ => None
  end.

(** [*p]: a nil pointer panics.  A pointer outside the store does not
    arise from Go code; it is made to panic as well. *)
Definition load (p : ptr) : M Obj :=
  fun s =>
    match p with
    | None => Panicked nil_dereference
    | Some l =>
        match heap s !! l with
        | Some o => Returned (o, s)
        | None => Panicked "dangling pointer"
        end
    end.

(** [*p = o] *)
Definition store (p : ptr) (o : Obj) : M unit :=
  fun s =>
    match p with
    | None => Panicked nil_dereference
    | Some l =>
        match heap s !! l with
        | Some _ => Returned (tt, with_heap (<[l := o]> (heap s)) s)
        | None => Panicked "dangling pointer"
        end
    end.

Definition ill_typed {A} : M A := panic "ill-typed store".

Definition load_Network (p : ptr) : M Network :=
  o ← load p ; match o with ONetwork v => ret v | _ => ill_typed end.
Definition load_DNSRecord (p : ptr) : M DNSRecord :=
  o ← load p ; match o with ODNSRecord v => ret v | _ => ill_typed end.
Definition load_Command (p : ptr) : M Command :=
  o ← load p ; match o with OCommand v => ret v | _ => ill_typed end.
Definition load_RemoteFile (p : ptr) : M RemoteFile :=
  o ← load p ; match o with ORemoteFile v => ret v | _ => ill_typed end.
Definition load_ProvisioningStep (p : ptr) : M ProvisioningStep :=
  o ← load p ; match o with OProvisioningStep v => ret v | _ => ill_typed end.
Definition load_ProvisionedNetwork (p : ptr) : M ProvisionedNetwork :=
  o ← load p ; match o with OProvisionedNetwork v => ret v | _ => ill_typed end.
Definition load_Connection (p : ptr) : M Connection :=
  o ← load p ; match o with OConnection v => ret v | _ => ill_typed end.
Definition load_Build (p : ptr) : M Build :=
  o ← load p ; match o with OBuild v => ret v | _ => ill_typed end.
Definition load_Team (p : ptr) : M Team :=
  o ← load p ; match o with OTeam v => ret v | _ => ill_typed end.
Definition load_Host (p : ptr) : M Host :=
  o ← load p ; match o with OHost v => ret v | _ => ill_typed end.
Definition load_Script (p : ptr) : M Script :=
  o ← load p ; match o with OScript v => ret v | _ => ill_typed end.
Definition load_ProvisionedHost (p : ptr) : M ProvisionedHost :=
  o ← load p ; match o with OProvisionedHost v => ret v | _ => ill_typed end.
Definition load_Metadata (p : ptr) : M Metadata :=
  o ← load p ; match o with OMetadata v => ret v | _ => ill_typed end.
Definition load_IO (p : ptr) : M IO :=
  o ← load p ; match o with OIO v => ret v | _ => ill_typed end.
Definition load_OnConflict (p : ptr) : M OnConflict :=
  o ← load p ; match o with OOnConflict v => ret v | _ => ill_typed end.

(* ===================================================================== *)
(** ** Field assignments *)
(* ===================================================================== *)

(** The two fields that carry identity and provenance, all others kept. *)
Definition Network_relabel (id : string) (ca : Caller) (v : Network) : Network :=
  {| Network_ID := id; Network_Name := Network_Name v;
     Network_CIDR := Network_CIDR v; Network_VDIVisible := Network_VDIVisible v;
     Network_Vars := Network_Vars v; Network_Tags := Network_Tags v;
     Network_OnConflict := Network_OnConflict v; Network_Caller := ca |}.

Definition DNSRecord_relabel (id : string) (ca : Caller) (v : DNSRecord) : DNSRecord :=
  {| DNSRecord_ID := id; DNSRecord_Name := DNSRecord_Name v;
     DNSRecord_Values := DNSRecord_Values v; DNSRecord_Type := DNSRecord_Type v;
     DNSRecord_Zone := DNSRecord_Zone v; DNSRecord_Vars := DNSRecord_Vars v;
     DNSRecord_Tags := DNSRecord_Tags v; DNSRecord_Disabled := DNSRecord_Disabled v;
     DNSRecord_OnConflict := DNSRecord_OnConflict v; DNSRecord_Caller := ca |}.

Definition Command_relabel (id : string) (ca : Caller) (v : Command) : Command :=
  {| Command_ID := id; Command_Name := Command_Name v;
     Command_Description := Command_Description v;
     Command_Program := Command_Program v; Command_Args := Command_Args v;
     Command_IgnoreErrors := Command_IgnoreErrors v;
     Command_Cooldown := Command_Cooldown v; Command_IO := Command_IO v;
     Command_Disabled := Command_Disabled v; Command_Vars := Command_Vars v;
     Command_Tags := Command_Tags v; Command_OnConflict := Command_OnConflict v;
     Command_Maintainer := Command_Maintainer v; Command_Caller := ca |}.

Definition RemoteFile_relabel (id : string) (ca : Caller) (v : RemoteFile) : RemoteFile :=
  {| RemoteFile_ID := id; RemoteFile_SourceType := RemoteFile_SourceType v;
     RemoteFile_Source := RemoteFile_Source v;
     RemoteFile_Destination := RemoteFile_Destination v;
     RemoteFile_Vars := RemoteFile_Vars v; RemoteFile_Tags := RemoteFile_Tags v;
     RemoteFile_Template := RemoteFile_Template v;
     RemoteFile_Perms := RemoteFile_Perms v;
     RemoteFile_Disabled := RemoteFile_Disabled v;
     RemoteFile_OnConflict := RemoteFile_OnConflict v;
     RemoteFile_MD5 := RemoteFile_MD5 v; RemoteFile_Caller := ca;
     RemoteFile_AbsPath := RemoteFile_AbsPath v; RemoteFile_Ext := RemoteFile_Ext v |}.

(** [r.AbsPath = a] *)
Definition RemoteFile_set_AbsPath (a : string) (v : RemoteFile) : RemoteFile :=
  {| RemoteFile_ID := RemoteFile_ID v; RemoteFile_SourceType := RemoteFile_SourceType v;
     RemoteFile_Source := RemoteFile_Source v;
     RemoteFile_Destination := RemoteFile_Destination v;
     RemoteFile_Vars := RemoteFile_Vars v; RemoteFile_Tags := RemoteFile_Tags v;
     RemoteFile_Template := RemoteFile_Template v;
     RemoteFile_Perms := RemoteFile_Perms v;
     RemoteFile_Disabled := RemoteFile_Disabled v;
     RemoteFile_OnConflict := RemoteFile_OnConflict v;
     RemoteFile_MD5 := RemoteFile_MD5 v; RemoteFile_Caller := RemoteFile_Caller v;
     RemoteFile_AbsPath := a; RemoteFile_Ext := RemoteFile_Ext v |}.

(** The assignments of [ProvisioningStep.SetID]: the path, and the typed
    view of the provisioner. *)
Definition ProvisioningStep_assign
    (id : string) (ca : Caller) (script command remotefile dnsrecord : ptr)
    (v : ProvisioningStep) : ProvisioningStep :=
  {| ProvisioningStep_ID := id;
     ProvisioningStep_ProvisionerID := ProvisioningStep_ProvisionerID v;
     ProvisioningStep_ProvisionerType := ProvisioningStep_ProvisionerType v;
     ProvisioningStep_StepNumber := ProvisioningStep_StepNumber v;
     ProvisioningStep_Status := ProvisioningStep_Status v;
     ProvisioningStep_ProvisionedHost := ProvisioningStep_ProvisionedHost v;
     ProvisioningStep_ProvisionedNetwork := ProvisioningStep_ProvisionedNetwork v;
     ProvisioningStep_Host := ProvisioningStep_Host v;
     ProvisioningStep_Network := ProvisioningStep_Network v;
     ProvisioningStep_Team := ProvisioningStep_Team v;
     ProvisioningStep_Build := ProvisioningStep_Build v;
     ProvisioningStep_Environment := ProvisioningStep_Environment v;
     ProvisioningStep_Competition := ProvisioningStep_Competition v;
     ProvisioningStep_Provisioner := ProvisioningStep_Provisioner v;
     ProvisioningStep_Script := script;
     ProvisioningStep_Command := command;
     ProvisioningStep_RemoteFile := remotefile;
     ProvisioningStep_DNSRecord := dnsrecord;
     ProvisioningStep_OnConflict := ProvisioningStep_OnConflict v;
     ProvisioningStep_Caller := ca;
     ProvisioningStep_Dir := ProvisioningStep_Dir v |}.

Definition ProvisioningStep_relabel (id : string) (ca : Caller) (v : ProvisioningStep)
  : ProvisioningStep :=
  ProvisioningStep_assign id ca
    (ProvisioningStep_Script v) (ProvisioningStep_Command v)
    (ProvisioningStep_RemoteFile v) (ProvisioningStep_DNSRecord v) v.

Definition ProvisioningStep_set_ID (id : string) (v : ProvisioningStep) : ProvisioningStep :=
  ProvisioningStep_relabel id (ProvisioningStep_Caller v) v.

Definition ProvisioningStep_set_Script (p : ptr) (v : ProvisioningStep) :=
  ProvisioningStep_assign (ProvisioningStep_ID v) (ProvisioningStep_Caller v)
    p (ProvisioningStep_Command v) (ProvisioningStep_RemoteFile v)
    (ProvisioningStep_DNSRecord v) v.

Definition ProvisioningStep_set_Command (p : ptr) (v : ProvisioningStep) :=
  ProvisioningStep_assign (ProvisioningStep_ID v) (ProvisioningStep_Caller v)
    (ProvisioningStep_Script v) p (ProvisioningStep_RemoteFile v)
    (ProvisioningStep_DNSRecord v) v.

Definition ProvisioningStep_set_RemoteFile (p : ptr) (v : ProvisioningStep) :=
  ProvisioningStep_assign (ProvisioningStep_ID v) (ProvisioningStep_Caller v)
    (ProvisioningStep_Script v) (ProvisioningStep_Command v) p
    (ProvisioningStep_DNSRecord v) v.

Definition ProvisioningStep_set_DNSRecord (p : ptr) (v : ProvisioningStep) :=
  ProvisioningStep_assign (ProvisioningStep_ID v) (ProvisioningStep_Caller v)
    (ProvisioningStep_Script v) (ProvisioningStep_Command v)
    (ProvisioningStep_RemoteFile v) p v.

(** The assignments of [ProvisionedNetwork.SetID]. *)
Definition ProvisionedNetwork_assign
    (id : string) (ca : Caller) (networkid : string)
    (v : ProvisionedNetwork) : ProvisionedNetwork :=
  {| ProvisionedNetwork_ID := id;
     ProvisionedNetwork_Name := ProvisionedNetwork_Name v;
     ProvisionedNetwork_CIDR := ProvisionedNetwork_CIDR v;
     ProvisionedNetwork_NetworkID := networkid;
     ProvisionedNetwork_ProvisionedHosts := ProvisionedNetwork_ProvisionedHosts v;
     ProvisionedNetwork_Status := ProvisionedNetwork_Status v;
     ProvisionedNetwork_Network := ProvisionedNetwork_Network v;
     ProvisionedNetwork_Team := ProvisionedNetwork_Team v;
     ProvisionedNetwork_Build := ProvisionedNetwork_Build v;
     ProvisionedNetwork_Environment := ProvisionedNetwork_Environment v;
     ProvisionedNetwork_Competition := ProvisionedNetwork_Competition v;
     ProvisionedNetwork_OnConflict := ProvisionedNetwork_OnConflict v;
     ProvisionedNetwork_Caller := ca;
     ProvisionedNetwork_Dir := ProvisionedNetwork_Dir v |}.

Definition ProvisionedNetwork_relabel (id : string) (ca : Caller) (v : ProvisionedNetwork) :=
  ProvisionedNetwork_assign id ca (ProvisionedNetwork_NetworkID v) v.

Definition ProvisionedNetwork_set_ID (id : string) (v : ProvisionedNetwork) :=
  ProvisionedNetwork_relabel id (ProvisionedNetwork_Caller v) v.

Definition ProvisionedNetwork_set_NetworkID (nid : string) (v : ProvisionedNetwork) :=
  ProvisionedNetwork_assign (ProvisionedNetwork_ID v) (ProvisionedNetwork_Caller v) nid v.

Definition Connection_relabel (id : string) (ca : Caller) (v : Connection) : Connection :=
  {| Connection_ID := id; Connection_Active := Connection_Active v;
     Connection_LocalAddr := Connection_LocalAddr v;
     Connection_RemoteAddr := Connection_RemoteAddr v;
     Connection_ResourceName := Connection_ResourceName v;
     Connection_SSHAuthConfig := Connection_SSHAuthConfig v;
     Connection_WinRMAuthConfig := Connection_WinRMAuthConfig v;
     Connection_Revision := Connection_Revision v;
     Connection_OnConflict := Connection_OnConflict v;
     Connection_Competition := Connection_Competition v;
     Connection_Environment := Connection_Environment v;
     Connection_Build := Connection_Build v;
     Connection_Team := Connection_Team v;
     Connection_Network := Connection_Network v;
     Connection_Host := Connection_Host v;
     Connection_ProvisionedHost := Connection_ProvisionedHost v;
     Connection_ProvisionedNetwork := Connection_ProvisionedNetwork v;
     Connection_Caller := ca |}.

Definition Connection_set_ID (id : string) (v : Connection) : Connection :=
  Connection_relabel id (Connection_Caller v) v.

(** [m.Checksum = c] *)
Definition Metadata_set_Checksum (c : Z) (v : Metadata) : Metadata :=
  {| Metadata_Dependency := Metadata_Dependency v; Metadata_ID := Metadata_ID v;
     Metadata_ObjectType := Metadata_ObjectType v;
     Metadata_Created := Metadata_Created v; Metadata_Tainted := Metadata_Tainted v;
     Metadata_Addition := Metadata_Addition v; Metadata_Checksum := c;
     Metadata_CreatedAt := Metadata_CreatedAt v;
     Metadata_ModifiedAt := Metadata_ModifiedAt v;
     Metadata_Resources := Metadata_Resources v |}.

(* ===================================================================== *)
(** ** The local file system *)
(* ===================================================================== *)

Definition no_such_file : string := "no such file or directory".
Definition is_a_directory : string := "is a directory".

(** [ioutil.ReadFile] *)
Definition ReadFile (name : string) : M (list Z * option error) :=
  s ← get;
  ret (match files s !! name with
       | Some (Regular content) => (content, None)
       | Some Directory => ([], Some (PathError "read" name is_a_directory))
       | Some (Unopenable reason) => ([], Some (PathError "open" name reason))
       | None => ([], Some (PathError "open" name no_such_file))
       end).

(** [os.Stat]: whether the path is a directory, or the error. *)
Definition Stat (name : string) : M (bool * option error) :=
  s ← get;
  ret (match files s !! name with
       | Some Directory => (true, None)
       | Some _ => (false, None)
       | None => (false, Some (PathError "stat" name no_such_file))
       end).

(** [os.Open]: the file behind the handle, or the error. *)
Definition Open (name : string) : M (option File * option error) :=
  s ← get;
  ret (match files s !! name with
       | Some (Unopenable reason) => (None, Some (PathError "open" name reason))
       | Some f => (Some f, None)
       | None => (None, Some (PathError "open" name no_such_file))
       end).

(** [io.Copy] from an open file into a digest: the bytes read, or the
    error of the read. *)
Definition Copy (name : string) (f : option File) : list Z * option error :=
  match f with
  | Some (Regular content) => (content, None)
  | _ => ([], Some (PathError "read" name is_a_directory))
  end.

(* ===================================================================== *)
(** ** Methods *)
(* ===================================================================== *)

Section Methods.

Context `{Externals}.

(** *** network.go *)

Definition Network_Hash (n : ptr) : M Z :=
  v ← load_Network n;
  ret (xxhash.Sum64String
         ("name=" +:+ Network_Name v +:+
          " cidr=" +:+ Network_CIDR v +:+
          " vdivisible=" +:+ fmt.bool_v (Network_VDIVisible v) +:+
          " vars=" +:+ HashConfigMap (Network_Vars v))).

Definition Network_Path (n : ptr) : M string :=
  v ← load_Network n; ret (Network_ID v).

Definition Network_Base (n : ptr) : M string :=
  v ← load_Network n; ret (path.Base (Network_ID v)).

Definition Network_LaforgeID (n : ptr) : M string :=
  v ← load_Network n; ret (Network_ID v).

Definition Network_ParentLaforgeID (n : ptr) : M string := Network_Path n.

(** *** dns_record.go *)

Definition DNSRecord_Hash (r : ptr) : M Z :=
  v ← load_DNSRecord r;
  ret (xxhash.Sum64String
         ("name=" +:+ DNSRecord_Name v +:+
          " values=" +:+ fmt.strings_v (DNSRecord_Values v) +:+
          " type=" +:+ DNSRecord_Type v +:+
          " zone=" +:+ DNSRecord_Zone v +:+
          " vars=" +:+ fmt.map_v (DNSRecord_Vars v) +:+
          " disabled=" +:+ fmt.bool_v (DNSRecord_Disabled v))).

Definition DNSRecord_Path (r : ptr) : M string :=
  v ← load_DNSRecord r; ret (DNSRecord_ID v).

Definition DNSRecord_Base (r : ptr) : M string :=
  v ← load_DNSRecord r; ret (path.Base (DNSRecord_ID v)).

(** *** command.go *)

Definition Command_Hash (c : ptr) : M Z :=
  v ← load_Command c;
  iostr ← match Command_IO v with
          | None => ret "n/a"
          | io => (w ← load_IO io;
                   ret (IO_Stderr w +:+ IO_Stdin w +:+ IO_Stdout w))
          end;
  ret (xxhash.Sum64String
         ("program=" +:+ Command_Program v +:+
          " args=" +:+ strings.Join (Command_Args v) "," +:+
          " ignoreerrors=" +:+ fmt.bool_v (Command_IgnoreErrors v) +:+
          " cooldown=" +:+ fmt.int_v (Command_Cooldown v) +:+
          " io=" +:+ iostr +:+
          " disabled=" +:+ fmt.bool_v (Command_Disabled v) +:+
          " vars=" +:+ fmt.map_v (Command_Vars v))).

Definition Command_Path (c : ptr) : M string :=
  v ← load_Command c; ret (Command_ID v).

Definition Command_Base (c : ptr) : M string :=
  v ← load_Command c; ret (path.Base (Command_ID v)).

(** *** remote_file.go *)

Definition RemoteFile_Path (r : ptr) : M string :=
  v ← load_RemoteFile r; ret (RemoteFile_ID v).

Definition RemoteFile_Base (r : ptr) : M string :=
  v ← load_RemoteFile r; ret (path.Base (RemoteFile_ID v)).

Definition RemoteFile_ResourceHash (r : ptr) : M Z :=
  v ← load_RemoteFile r;
  '(dep, err) ← ReadFile (RemoteFile_AbsPath v);
  match err with
  | Some e =>
      (id ← RemoteFile_Path r;
       emit (EvPrintf "dependency error for %s: %s could not be read: %v"
                      [id; RemoteFile_AbsPath v] e) ;;
       ret 666)
  | None => ret (xxhash.Sum64 dep)
  end.

Definition RemoteFile_Hash (r : ptr) : M Z :=
  v ← load_RemoteFile r;
  source ← RemoteFile_ResourceHash r;
  ret (xxhash.Sum64String
         ("sourcetype=" +:+ RemoteFile_SourceType v +:+
          " destination=" +:+ RemoteFile_Destination v +:+
          " vars=" +:+ fmt.map_v (RemoteFile_Vars v) +:+
          " template=" +:+ fmt.bool_v (RemoteFile_Template v) +:+
          " perms=" +:+ RemoteFile_Perms v +:+
          " disabled=" +:+ fmt.bool_v (RemoteFile_Disabled v) +:+
          " source=" +:+ fmt.uint64_v source)).

(** [MD5Sum]: the error of [os.Open] is returned, the error of the copy
    goes to [log.Fatal]. *)
Definition RemoteFile_MD5Sum (r : ptr) : M (string * option error) :=
  v ← load_RemoteFile r;
  '(f, err) ← Open (RemoteFile_AbsPath v);
  match err with
  | Some e => ret ("", Some e)
  | None =>
      let '(content, err) := Copy (RemoteFile_AbsPath v) f in
      match err with
      | Some e => (emit (EvLogErr "fatal" "%v" [] e) ;; exit 1)
      | None => ret (md5_hex content, None)
      end
  end.

(** *** The [Provisioner] interface *)

Definition Provisioner_Hash (v : iface) : M Z :=
  match v with
  | iptr KCommand p => Command_Hash p
  | iptr KDNSRecord p => DNSRecord_Hash p
  | iptr KRemoteFile p => RemoteFile_Hash p
  | iptr KScript p => (s ← get; lift (foreign_Hash KScript (heap s) (files s) p))
  | iptr _ _ => ill_typed
  | inil => panic nil_dereference
  end.

Definition Provisioner_Base (v : iface) : M string :=
  match v with
  | iptr KCommand p => Command_Base p
  | iptr KDNSRecord p => DNSRecord_Base p
  | iptr KRemoteFile p => RemoteFile_Base p
  | iptr KScript p => (w ← load_Script p; ret (path.Base (Script_ID w)))
  | iptr _ _ => ill_typed
  | inil => panic nil_dereference
  end.

(** *** provisioning_step.go *)

Definition ProvisioningStep_Hash (p : ptr) : M Z :=
  v ← load_ProvisioningStep p;
  phash ← Provisioner_Hash (ProvisioningStep_Provisioner v);
  ret (xxhash.Sum64String
         ("pid=" +:+ ProvisioningStep_ProvisionerID v +:+
          " ptype=" +:+ ProvisioningStep_ProvisionerType v +:+
          " phash=" +:+ fmt.uint64_v phash +:+
          " snum=" +:+ fmt.int_v (ProvisioningStep_StepNumber v))).

Definition ProvisioningStep_Path (p : ptr) : M string :=
  v ← load_ProvisioningStep p; ret (ProvisioningStep_ID v).

Definition ProvisioningStep_LaforgeID (p : ptr) : M string :=
  v ← load_ProvisioningStep p; ret (ProvisioningStep_ID v).

Definition ProvisioningStep_ParentLaforgeID (p : ptr) : M string :=
  id ← ProvisioningStep_LaforgeID p;
  ret (path.Dir (path.Dir id)).

Definition ProvisionedHost_Path (p : ptr) : M string :=
  v ← load_ProvisionedHost p; ret (ProvisionedHost_ID v).

(** The first statement of [SetID]: the path, when there is none yet. *)
Definition ProvisioningStep_assign_ID (p : ptr) : M unit :=
  v ← load_ProvisioningStep p;
  if String.eqb (ProvisioningStep_ID v) "" then
    host ← ProvisionedHost_Path (ProvisioningStep_ProvisionedHost v);
    base ← Provisioner_Base (ProvisioningStep_Provisioner v);
    v ← load_ProvisioningStep p;
    store p (OProvisioningStep
               (ProvisioningStep_set_ID
                  (path.Join [host; "steps";
                              fmt.int_v (ProvisioningStep_StepNumber v)
                              +:+ "-" +:+ base]) v))
  else ret tt.

(** The second statement of [SetID]: the type switch; a provisioner of
    none of the four types assigns nothing. *)
Definition ProvisioningStep_assign_provisioner (p : ptr) : M unit :=
  v ← load_ProvisioningStep p;
  match ProvisioningStep_Provisioner v with
  | iptr KCommand q => store p (OProvisioningStep (ProvisioningStep_set_Command q v))
  | iptr KDNSRecord q => store p (OProvisioningStep (ProvisioningStep_set_DNSRecord q v))
  | iptr KRemoteFile q => store p (OProvisioningStep (ProvisioningStep_set_RemoteFile q v))
  | iptr KScript q => store p (OProvisioningStep (ProvisioningStep_set_Script q v))
  | _ => ret tt
  end.

Definition ProvisioningStep_SetID (p : ptr) : M string :=
  ProvisioningStep_assign_ID p ;;
  ProvisioningStep_assign_provisioner p ;;
  v ← load_ProvisioningStep p;
  ret (ProvisioningStep_ID v).

(** *** provisioned_network.go *)

Definition Team_Path (t : ptr) : M string :=
  v ← load_Team t; ret (Team_ID v).

Definition ProvisionedNetwork_Hash (p : ptr) : M Z :=
  v ← load_ProvisionedNetwork p;
  net ← Network_Hash (ProvisionedNetwork_Network v);
  s ← get;
  team ← lift (foreign_Hash KTeam (heap s) (files s) (ProvisionedNetwork_Team v));
  ret (xxhash.Sum64String
         ("name=" +:+ ProvisionedNetwork_Name v +:+
          " cidr=" +:+ ProvisionedNetwork_CIDR v +:+
          " net=" +:+ fmt.uint64_v net +:+
          " team=" +:+ fmt.uint64_v team +:+
          " status=" +:+ fmt.uint64_v (Status_Hash (ProvisionedNetwork_Status v)))).

Definition ProvisionedNetwork_Path (p : ptr) : M string :=
  v ← load_ProvisionedNetwork p; ret (ProvisionedNetwork_ID v).

Definition ProvisionedNetwork_LaforgeID (p : ptr) : M string :=
  v ← load_ProvisionedNetwork p; ret (ProvisionedNetwork_ID v).

Definition ProvisionedNetwork_ParentLaforgeID (p : ptr) : M string :=
  id ← ProvisionedNetwork_LaforgeID p;
  ret (path.Dir (path.Dir id)).

(** The first statement of [SetID]: the path, when there is none yet. *)
Definition ProvisionedNetwork_assign_ID (p : ptr) : M unit :=
  v ← load_ProvisionedNetwork p;
  if String.eqb (ProvisionedNetwork_ID v) "" then
    team ← Team_Path (ProvisionedNetwork_Team v);
    base ← Network_Base (ProvisionedNetwork_Network v);
    v ← load_ProvisionedNetwork p;
    store p (OProvisionedNetwork
               (ProvisionedNetwork_set_ID (path.Join [team; "networks"; base]) v))
  else ret tt.

(** The second statement of [SetID]: the path of the network, when
    there is none yet. *)
Definition ProvisionedNetwork_assign_NetworkID (p : ptr) : M unit :=
  v ← load_ProvisionedNetwork p;
  if String.eqb (ProvisionedNetwork_NetworkID v) "" then
    nid ← Network_Path (ProvisionedNetwork_Network v);
    v ← load_ProvisionedNetwork p;
    store p (OProvisionedNetwork (ProvisionedNetwork_set_NetworkID nid v))
  else ret tt.

Definition ProvisionedNetwork_SetID (p : ptr) : M string :=
  ProvisionedNetwork_assign_ID p ;;
  ProvisionedNetwork_assign_NetworkID p ;;
  v ← load_ProvisionedNetwork p;
  ret (ProvisionedNetwork_ID v).

(** *** connection.go *)

Definition Connection_IsSSH (c : ptr) : M bool :=
  v ← load_Connection c;
  ret (bool_decide (Connection_SSHAuthConfig v ≠ None)).

Definition Connection_IsWinRM (c : ptr) : M bool :=
  v ← load_Connection c;
  ret (bool_decide (Connection_WinRMAuthConfig v ≠ None)).

Definition Connection_Hash (c : ptr) : M Z :=
  winrm ← Connection_IsWinRM c;
  wrmc ← (if winrm : bool then
            v ← load_Connection c;
            s ← get; lift (WinRMAuthConfig_Hash (heap s) (Connection_WinRMAuthConfig v))
          else ret 666);
  ssh ← Connection_IsSSH c;
  sshc ← (if ssh : bool then
            v ← load_Connection c;
            s ← get; lift (SSHAuthConfig_Hash (heap s) (Connection_SSHAuthConfig v))
          else ret 666);
  v ← load_Connection c;
  ret (xxhash.Sum64String
         ("id=" +:+ Connection_ID v +:+
          " localaddr=" +:+ Connection_LocalAddr v +:+
          " rmaddr=" +:+ Connection_RemoteAddr v +:+
          " rname=" +:+ Connection_ResourceName v +:+
          " sshc=" +:+ fmt.uint64_v sshc +:+
          " wrmc=" +:+ fmt.uint64_v wrmc)).

Definition Connection_Path (c : ptr) : M string :=
  v ← load_Connection c; ret (Connection_ID v).

Definition Connection_ParentLaforgeID (c : ptr) : M string :=
  id ← Connection_Path c; ret (path.Dir id).

Definition ProvisionedHost_LaforgeID (p : ptr) : M string :=
  v ← load_ProvisionedHost p; ret (ProvisionedHost_ID v).

Definition Connection_SetID (c : ptr) : M string :=
  v ← load_Connection c;
  (if String.eqb (Connection_ID v) "" then
     host ← ProvisionedHost_LaforgeID (Connection_ProvisionedHost v);
     v ← load_Connection c;
     store c (OConnection (Connection_set_ID (path.Join [host; "conn"]) v))
   else ret tt) ;;
  v ← load_Connection c;
  ret (Connection_ID v).

End Methods.


Section Merge.

Context `{Externals}.

(** *** The seven [Swap] methods: a type assertion on the argument, then
    the assignment of the pointee of the argument to the pointee of the
    receiver. *)

Definition mismatch (receiver m : iface) : option error :=
  Some (errors.Wrapf ErrSwapTypeMismatch "expected %T, got %T"
          [typeName receiver; typeName m]).

Definition Network_Swap (n : ptr) (m : iface) : M (option error) :=
  match m with
  | iptr KNetwork rawVal =>
      v ← load_Network rawVal;
      _ ← load_Network n;
      store n (ONetwork v) ;;
      ret None
  | _ => ret (mismatch (iptr KNetwork n) m)
  end.

Definition DNSRecord_Swap (r : ptr) (m : iface) : M (option error) :=
  match m with
  | iptr KDNSRecord rawVal =>
      v ← load_DNSRecord rawVal;
      _ ← load_DNSRecord r;
      store r (ODNSRecord v) ;;
      ret None
  | _ => ret (mismatch (iptr KDNSRecord r) m)
  end.

Definition Command_Swap (c : ptr) (m : iface) : M (option error) :=
  match m with
  | iptr KCommand rawVal =>
      v ← load_Command rawVal;
      _ ← load_Command c;
      store c (OCommand v) ;;
      ret None
  | _ => ret (mismatch (iptr KCommand c) m)
  end.

Definition RemoteFile_Swap (r : ptr) (m : iface) : M (option error) :=
  match m with
  | iptr KRemoteFile rawVal =>
      v ← load_RemoteFile rawVal;
      _ ← load_RemoteFile r;
      store r (ORemoteFile v) ;;
      ret None
  | _ => ret (mismatch (iptr KRemoteFile r) m)
  end.

Definition ProvisioningStep_Swap (p : ptr) (m : iface) : M (option error) :=
  match m with
  | iptr KProvisioningStep rawVal =>
      v ← load_ProvisioningStep rawVal;
      _ ← load_ProvisioningStep p;
      store p (OProvisioningStep v) ;;
      ret None
  | _ => ret (mismatch (iptr KProvisioningStep p) m)
  end.

Definition ProvisionedNetwork_Swap (p : ptr) (m : iface) : M (option error) :=
  match m with
  | iptr KProvisionedNetwork rawVal =>
      v ← load_ProvisionedNetwork rawVal;
      _ ← load_ProvisionedNetwork p;
      store p (OProvisionedNetwork v) ;;
      ret None
  | _ => ret (mismatch (iptr KProvisionedNetwork p) m)
  end.

Definition Connection_Swap (c : ptr) (m : iface) : M (option error) :=
  match m with
  | iptr KConnection rawVal =>
      v ← load_Connection rawVal;
      _ ← load_Connection c;
      store c (OConnection v) ;;
      ret None
  | _ => ret (mismatch (iptr KConnection c) m)
  end.

(** The kinds whose [Swap] is in the files at hand. *)
Definition mergeable (k : Kind) : bool :=
  match k with
  | KNetwork | KDNSRecord | KCommand | KRemoteFile
  | KProvisioningStep | KProvisionedNetwork | KConnection => true
  | _ => false
  end.

(** [Swap] through the [Mergeable] interface: the method of the
    receiver's dynamic type. *)
Definition Swap (k : Kind) (receiver : ptr) (m : iface) : M (option error) :=
  match k with
  | KNetwork => Network_Swap receiver m
  | KDNSRecord => DNSRecord_Swap receiver m
  | KCommand => Command_Swap receiver m
  | KRemoteFile => RemoteFile_Swap receiver m
  | KProvisioningStep => ProvisioningStep_Swap receiver m
  | KProvisionedNetwork => ProvisionedNetwork_Swap receiver m
  | KConnection => Connection_Swap receiver m
  | _ => ill_typed
  end.

(** *** [Hash()] through an interface: the method of the dynamic type. *)
Definition Hash (k : Kind) (receiver : ptr) : M Z :=
  match k with
  | KNetwork => Network_Hash receiver
  | KDNSRecord => DNSRecord_Hash receiver
  | KCommand => Command_Hash receiver
  | KRemoteFile => RemoteFile_Hash receiver
  | KProvisioningStep => ProvisioningStep_Hash receiver
  | KProvisionedNetwork => ProvisionedNetwork_Hash receiver
  | KConnection => Connection_Hash receiver
  | _ => (s ← get; lift (foreign_Hash k (heap s) (files s) receiver))
  end.

(** [m.Dependency.Hash()].  The call is recorded before it is
    dispatched. *)
Definition Dependency_Hash (d : iface) : M Z :=
  match d with
  | inil => panic nil_dereference
  | iptr k p => (emit (EvHashCall d) ;; Hash k p)
  end.

(** *** metadata.go: the checksum of a node *)

Definition Metadata_CalculateChecksum (m : ptr) : M unit :=
  v ← load_Metadata m;
  c ← Dependency_Hash (Metadata_Dependency v);
  v ← load_Metadata m;
  store m (OMetadata (Metadata_set_Checksum c v)).

Definition Metadata_Hash (m : ptr) : M Z :=
  v ← load_Metadata m;
  (if (Metadata_Checksum v =? 0)%Z then Metadata_CalculateChecksum m else ret tt) ;;
  v ← load_Metadata m;
  ret (Metadata_Checksum v).

Definition Metadata_GetChecksum (m : ptr) : M Z :=
  v ← load_Metadata m; ret (Metadata_Checksum v).

End Merge.

(** *** metadata.go: rendering *)

Definition dquote : string := String (ascii_of_nat 34) EmptyString.

Definition attr (name value : string) : string :=
  " " +:+ name +:+ "=" +:+ dquote +:+ value +:+ dquote.

Definition Metadata_Label (m : ptr) : M string :=
  v ← load_Metadata m;
  match Metadata_Dependency v with
  | inil => panic ("could not find dependency for " +:+ Metadata_ID v)
  | _ =>
      let font := "<font" +:+ attr "face" "Courier" +:+ attr "point-size" "11" +:+ ">" in
      let left := "<tr><td" +:+ attr "align" "left" +:+ ">" +:+ font in
      ret ("<table" +:+ attr "border" "0" +:+ attr "cellborder" "0"
             +:+ attr "cellspacing" "1" +:+ ">"
           +:+ "<tr><td" +:+ attr "align" "center" +:+ "><b>"
             +:+ Metadata_ID v +:+ "</b></td></tr>"
           +:+ left +:+ "type     = " +:+ Metadata_ObjectType v +:+ "</font></td></tr>"
           +:+ left +:+ "checksum = " +:+ fmt.uint64_x (Metadata_Checksum v)
             +:+ "</font></td></tr></table>")
  end.

Definition Metadata_TypeByPath (m : ptr) : M LFType :=
  v ← load_Metadata m; lift (TypeByPath (Metadata_ID v)).

Definition Metadata_IsGlobalType (m : ptr) : M bool :=
  v ← load_Metadata m; lift (IsGlobalType (Metadata_ID v)).

Definition Metadata_Shape (m : ptr) : M string :=
  g ← Metadata_IsGlobalType m;
  ret (if g : bool then "Mrecord" else "record").

(* ===================================================================== *)
(** ** connection.go: the remote execution transport *)
(* ===================================================================== *)

Definition with_files (f : gmap string File) (s : State) : State :=
  {| heap := heap s; files := f; remote := remote s; trace := trace s |}.

(** [os.OpenFile(name, O_APPEND|O_CREATE|O_WRONLY, 0644)]: a missing file
    is created empty. *)
Definition OpenFile (name : string) : M (option error) :=
  s ← get;
  match files s !! name with
  | Some (Regular _) => ret None
  | Some Directory => ret (Some (PathError "open" name is_a_directory))
  | Some (Unopenable reason) => ret (Some (PathError "open" name reason))
  | None => fun s => Returned (None, with_files (<[name := Regular []]> (files s)) s)
  end.

(** The renderers of github.com/juju/utils/filepath, for a plain file
    name: the directory, the separator of the platform, the name. *)
Module filepath.

(** [Ext]: the suffix from the last dot of the last element. *)
Fixpoint Ext (p : string) : string :=
  match p with
  | EmptyString => ""
  | String a p' =>
      let e := Ext p' in
      if negb (String.eqb e "") then e
      else if strings.HasSlash p' then ""
      else if Ascii.eqb a "." then p
      else ""
  end.

Definition unix_Join (dir name : string) : string := path.Join [dir; name].

Definition windows_Join (dir name : string) : string := dir +:+ "\" +:+ name.

End filepath.

(** [strings.Replace(s, old, "", -1)]: every occurrence of [old] is cut
    out, left to right; [skip] counts the bytes of the current occurrence
    still to drop. *)
Fixpoint cut_all (old : string) (skip : nat) (s : string) : string :=
  match s with
  | EmptyString => ""
  | String a s' =>
      match skip with
      | S k => cut_all old k s'
      | O =>
          if negb (String.eqb old "") && String.prefix old s
          then cut_all old (String.length old - 1) s'
          else String a (cut_all old 0 s')
      end
  end.

(** [Doer], by the two getters the workflow calls. *)
Record Doer := { Doer_Timeout : Z; Doer_TargetID : string }.

(** The writer has been closed. *)
Definition closes (writer : string) (e : Event) : bool :=
  match e with
  | EvClose w => String.eqb w writer
  | _ => false
  end.

Definition closed (writer : string) (s : State) : bool :=
  existsb (closes writer) (trace s).

(** How a call of [UploadExecuteAndDelete] ends: it hands what its body
    reached to the caller, or it never does and stays in its deferred
    function. *)
Inductive ending : Type :=
| Ended (o : outcome (option error * State))
| Blocked (o : outcome (option error * State)).

(** The deferred function of [UploadExecuteAndDelete], which runs when
    the body returns or panics: [<-stdoutdone], [<-stderrdone],
    [wg.Wait()].  Each of the two goroutines sends when its scanner is at
    the end of its pipe, which the pipe reaches when its writer is
    closed; the remote side's output is not part of the embedding, so
    that the scanners meet no line and no error on the way.  A panic of
    the body (a nil receiver, a nil host in a progress line) comes before
    an execute closure has run, when no writer is closed. *)
Definition deferred_join (o : outcome (option error * State)) : ending :=
  match o with
  | Returned (_, s) =>
      if closed "debugstdoutpw" s && closed "debugstderrpw" s
      then Ended o else Blocked o
  | Panicked _ => Blocked o
  | Exited _ => Ended o
  end.

Section Transport.

Context `{Externals}.

Definition remote_call (f : Remote -> option error) : M (option error) :=
  s ← get; ret (f (remote s)).

(** A step under [PerformInTimeout]: the step is entered (which is
    recorded), the closure runs and sends its verdict on the channel; the
    caller gets what the wrapper makes of it.  The closure is run to its
    end before the wrapper answers. *)
Definition bounded (step : Step) (timeout : Z) (closure : M (option error))
  : M (option error) :=
  emit (EvStep step) ;;
  sent ← closure;
  ret (PerformInTimeout timeout sent).

(** An SSH session: [NewSSHClient], [Connect], the operation, and the
    deferred [Disconnect] on every path after the connection. *)
Definition with_ssh_client (op : M (option error)) : M (option error) :=
  err ← remote_call NewSSHClient;
  match err with
  | Some e => ret (Some e)
  | None =>
      err ← remote_call ssh_Connect;
      match err with
      | Some e => ret (Some e)
      | None =>
          emit EvSSHConnect ;;
          err ← op;
          emit EvSSHDisconnect ;;
          ret err
      end
  end.

(** [UploadScriptSFTP] *)
Definition Connection_UploadScriptSFTP (c : ptr) (src dst : string) : M (option error) :=
  '(isdir, err) ← Stat src;
  match err with
  | Some e => ret (Some e)
  | None =>
      if isdir : bool then ret (Some (errors.New "script source cannot be a directory"))
      else
        _ ← load_Connection c;
        with_ssh_client
          (emit (EvSFTPUpload src dst) ;;
           remote_call (fun r => ssh_UploadScriptV2 r src dst))
  end.

(** [ExecuteCommandSSH] *)
Definition Connection_ExecuteCommandSSH (c : ptr) (command : string) : M (option error) :=
  _ ← load_Connection c;
  with_ssh_client
    (emit (EvSSHStart command) ;;
     err ← remote_call (fun r => ssh_Start r command);
     match err with
     | Some e => ret (Some e)
     | None => remote_call (fun r => ssh_Wait r command)
     end).

(** [DeleteScriptSFTP] *)
Definition Connection_DeleteScriptSFTP (c : ptr) (remotefile : string) : M (option error) :=
  _ ← load_Connection c;
  with_ssh_client
    (emit (EvSFTPDelete remotefile) ;;
     remote_call (fun r => ssh_DeleteScriptV2 r remotefile)).

(** [UploadWinRM] *)
Definition Connection_UploadWinRM (c : ptr) (src dst : string) : M (option error) :=
  v ← load_Connection c;
  match Connection_WinRMAuthConfig v with
  | None => panic nil_dereference
  | Some _ =>
      err ← remote_call winrmcp_New;
      match err with
      | Some e => ret (Some e)
      | None =>
          emit (EvWinRMCopy src dst) ;;
          remote_call (fun r => winrmcp_Copy r src dst)
      end
  end.

(** [ExecuteCommandWinRM] *)
Definition Connection_ExecuteCommandWinRM (c : ptr) (command : string) : M (option error) :=
  _ ← load_Connection c;
  err ← remote_call winrm_SetConfig;
  match err with
  | Some e => ret (Some e)
  | None =>
      emit (EvWinRMExecute command) ;;
      err ← remote_call (fun r => winrm_ExecuteNonInteractive r command);
      match err with
      | Some e => ret (Some e)
      | None => remote_call (fun r => winrm_Wait r command)
      end
  end.

(** [c.ProvisionedHost.Host.Base()], an argument of the progress lines. *)
Definition Connection_host_base (c : ptr) : M string :=
  v ← load_Connection c;
  ph ← load_ProvisionedHost (Connection_ProvisionedHost v);
  h ← load_Host (ProvisionedHost_Host ph);
  ret (path.Base (Host_ID h)).

(** [cli.Logger.Infof] of a completed step. *)
Definition log_complete (format : string) (c : ptr) (finalpath : string) : M unit :=
  base ← Connection_host_base c;
  v ← load_Connection c;
  emit (EvLog "info" format [base; Connection_RemoteAddr v; finalpath]).

(** [cli.Logger.Errorf] of a failed step. *)
Definition log_issue (format : string) (c : ptr) (e : error) : M unit :=
  id ← Connection_Path c;
  emit (EvLogErr "error" format [id] e).

(** The closure of a step whose error is re-signaled as a timeout
    extension. *)
Definition extended (format : string) (c : ptr) (op : M (option error))
  : M (option error) :=
  err ← op;
  match err with
  | Some e => (log_issue format c e ;; ret (Some (NewTimeoutExtension e)))
  | None => ret None
  end.

(** The closure of a step that writes to the two log files: they are
    opened first (and announced, in the execute steps), and a failure to
    open one is sent bare. *)
Definition logged (stderrfile stdoutfile : string) (announce : option string)
    (body : M (option error)) : M (option error) :=
  err ← OpenFile stderrfile;
  match err with
  | Some e => ret (Some e)
  | None =>
      match announce with
      | Some what => emit (EvLog "info" ("Logging " +:+ what +:+ "STDERR to %s") [stderrfile])
      | None => ret tt
      end ;;
      err ← OpenFile stdoutfile;
      match err with
      | Some e => ret (Some e)
      | None =>
          match announce with
          | Some what => emit (EvLog "info" ("Logging " +:+ what +:+ "STDOUT to %s") [stdoutfile])
          | None => ret tt
          end ;;
          body
      end
  end.

(** The deferred calls of an execute closure that close the writers of
    the two pipes, run when the closure returns, last registered first:
    [debugstderrpw.Close()], then [debugstdoutpw.Close()].  They are
    registered after both log files are open; no other place of the
    workflow closes a writer. *)
Definition closing (body : M (option error)) : M (option error) :=
  err ← body;
  emit (EvClose "debugstderrpw") ;;
  emit (EvClose "debugstdoutpw") ;;
  ret err.

(** The WinRM branch of [UploadExecuteAndDelete]. *)
Definition UploadExecuteAndDelete_winrm
    (c : ptr) (j : Doer) (scriptsrc filename stdoutfile stderrfile : string)
  : M (option error) :=
  let finalpath := filepath.windows_Join "C:" filename in
  err ← bounded StepUpload (Doer_Timeout j)
          (extended "%s Upload Connection Issue: %v" c
             (Connection_UploadWinRM c scriptsrc finalpath));
  match err with
  | Some e => (log_issue "%s Final Upload Issue: %v" c e ;; ret (Some e))
  | None =>
      log_complete "WinRM Upload Complete: %s (%s) -> %s" c finalpath ;;
      err ← bounded StepExecute (Doer_Timeout j)
              (logged stderrfile stdoutfile (Some "")
                 (closing
                    (extended "%s Execute Connection Issue: %v" c
                       (Connection_ExecuteCommandWinRM c finalpath))));
      match err with
      | Some e => (log_issue "%s Final Execute Issue: %v" c e ;; ret (Some e))
      | None =>
          log_complete "WinRM Execution Complete: %s (%s) -> %s" c finalpath ;;
          emit (EvSleep 4) ;;
          err ← bounded StepDelete (Doer_Timeout j)
                  (logged stderrfile stdoutfile None
                     (extended "%s Delete Script Connection Issue: %v" c
                        (Connection_ExecuteCommandWinRM c ("del " +:+ finalpath))));
          match err with
          | Some e => (log_issue "%s Final Delete Issue: %v" c e ;; ret (Some e))
          | None =>
              log_complete "WinRM Script Deleted: %s (%s) -> %s" c finalpath ;;
              ret None
          end
      end
  end.

(** The SSH branch after the upload step: the two nil guards, the execute
    step, the delete step. *)
Definition UploadExecuteAndDelete_ssh_execute
    (c : ptr) (j : Doer) (finalpath stdoutfile stderrfile : string)
  : M (option error) :=
  v ← load_Connection c;
  match Connection_ProvisionedHost v with
  | None => ret (Some (errors.New "provisioned host was nil"))
  | Some _ =>
      ph ← load_ProvisionedHost (Connection_ProvisionedHost v);
      match ProvisionedHost_Host ph with
      | None => ret (Some (errors.New "provisioned host's host was nil"))
      | Some _ =>
          log_complete "SFTP Upload Complete: %s (%s) -> %s" c finalpath ;;
          err ← bounded StepExecute (Doer_Timeout j)
                  (logged stderrfile stdoutfile (Some "script ")
                     (closing
                        (extended "%s Execute Script Connection Issue: %v" c
                           (Connection_ExecuteCommandSSH c finalpath))));
          match err with
          | Some e => (log_issue "%s Final Execute Issue: %v" c e ;; ret (Some e))
          | None =>
              log_complete "SSH Execution Complete: %s (%s) -> %s" c finalpath ;;
              err ← bounded StepDelete (Doer_Timeout j)
                      (extended "%s Delete Script Connection Issue: %v" c
                         (Connection_DeleteScriptSFTP c finalpath));
              match err with
              | Some e => (log_issue "%s Final Delete Issue: %v" c e ;; ret (Some e))
              | None =>
                  log_complete "SFTP Deletion Successful: %s (%s) -> %s" c finalpath ;;
                  ret None
              end
          end
      end
  end.

(** The upload step of the SSH branch. *)
Definition upload_step (c : ptr) (j : Doer) (scriptsrc finalpath : string)
  : M (option error) :=
  bounded StepUpload (Doer_Timeout j)
    (extended "%s Upload Script Connection Issue: %v" c
       (Connection_UploadScriptSFTP c scriptsrc finalpath)).

(** The SSH branch of [UploadExecuteAndDelete]: the upload step, and what
    its error is allowed to be. *)
Definition UploadExecuteAndDelete_ssh
    (c : ptr) (j : Doer) (scriptsrc filename stdoutfile stderrfile : string)
  : M (option error) :=
  let finalpath := filepath.unix_Join "/root" filename in
  err ← upload_step c j scriptsrc finalpath;
  match err with
  | Some (ExitError wmerr) =>
      if negb (String.eqb (Waitmsg_signal wmerr) "")
         || negb (String.eqb (Waitmsg_msg wmerr) "")
         || negb (Waitmsg_status wmerr =? 1)%Z
      then ret err
      else UploadExecuteAndDelete_ssh_execute c j finalpath stdoutfile stderrfile
  | Some _ => ret err
  | None => UploadExecuteAndDelete_ssh_execute c j finalpath stdoutfile stderrfile
  end.

(** The two [os.Stat] calls at the head of [UploadExecuteAndDelete]:
    the script, then the log directory. *)
Definition located (scriptsrc logdir : string) : M (option error) :=
  '(_, err) ← Stat scriptsrc;
  match err with
  | Some e => ret (Some (ErrorfV "problem locating file %s: %v" [scriptsrc] e))
  | None =>
      '(_, err) ← Stat logdir;
      match err with
      | Some e => ret (Some (ErrorfV "problem locating logdir %s: %v" [logdir] e))
      | None => ret None
      end
  end.

(** The body of [UploadExecuteAndDelete] from [c.IsWinRM()] on, up to
    its [return] statements. *)
Definition UploadExecuteAndDelete_body
    (c : ptr) (j : Doer) (scriptsrc tmpname logdir : string)
  : M (option error) :=
  let filename :=
    if negb (String.eqb tmpname "") then tmpname else path.Base scriptsrc in
  let logfilename := cut_all (filepath.Ext filename) 0 filename in
  let logprefix := filepath.unix_Join logdir logfilename in
  let stdoutfile := logprefix +:+ ".stdout.log" in
  let stderrfile := logprefix +:+ ".stderr.log" in
  winrm ← Connection_IsWinRM c;
  if winrm : bool
  then UploadExecuteAndDelete_winrm c j scriptsrc filename stdoutfile stderrfile
  else UploadExecuteAndDelete_ssh c j scriptsrc filename stdoutfile stderrfile.

(** [UploadExecuteAndDelete].  A failed [os.Stat] returns at once.  After
    them the two pipes are made, the two goroutines started and the
    deferred function registered, so that whatever the body reaches goes
    through [deferred_join]. *)
Definition Connection_UploadExecuteAndDelete
    (c : ptr) (j : Doer) (scriptsrc tmpname logdir : string) (s : State)
  : ending :=
  match located scriptsrc logdir s with
  | Returned (Some e, s') => Ended (Returned (Some e, s'))
  | Returned (None, s') =>
      deferred_join (UploadExecuteAndDelete_body c j scriptsrc tmpname logdir s')
  | Panicked reason => Ended (Panicked reason)
  | Exited code => Ended (Exited code)
  end.

End Transport.

Definition U64_in_range (z : Z) : Prop := 0 <= z < U64.modulus.

(* ===================================================================== *)
(** ** The method sets of the interfaces *)
(* ===================================================================== *)

(** The dynamic type under which a cell's content is reached. *)
Definition Obj_kind (o : Obj) : option Kind :=
  match o with
  | ONetwork _ => Some KNetwork
  | ODNSRecord _ => Some KDNSRecord
  | OCommand _ => Some KCommand
  | ORemoteFile _ => Some KRemoteFile
  | OProvisioningStep _ => Some KProvisioningStep
  | OProvisionedNetwork _ => Some KProvisionedNetwork
  | OConnection _ => Some KConnection
  | OBuild _ => Some KBuild
  | OTeam _ => Some KTeam
  | OHost _ => Some KHost
  | OScript _ => Some KScript
  | OProvisionedHost _ => Some KProvisionedHost
  | OMetadata _ | OOnConflict _ | OIO _ => None
  end.

(** The [ID] field of a cell's content. *)
Definition Obj_ID (o : Obj) : string :=
  match o with
  | ONetwork v => Network_ID v
  | ODNSRecord v => DNSRecord_ID v
  | OCommand v => Command_ID v
  | ORemoteFile v => RemoteFile_ID v
  | OProvisioningStep v => ProvisioningStep_ID v
  | OProvisionedNetwork v => ProvisionedNetwork_ID v
  | OConnection v => Connection_ID v
  | OBuild v => Build_ID v
  | OTeam v => Team_ID v
  | OHost v => Host_ID v
  | OScript v => Script_ID v
  | OProvisionedHost v => ProvisionedHost_ID v
  | OMetadata v => Metadata_ID v
  | OOnConflict _ | OIO _ => ""
  end.

(** The kinds whose [SetID] is in the files at hand. *)
Definition sets_ID (k : Kind) : bool :=
  match k with
  | KProvisionedNetwork | KProvisioningStep | KConnection => true
  | _ => false
  end.

(** [SetID], by the receiver's dynamic type. *)
Definition SetID (k : Kind) (receiver : ptr) : M string :=
  match k with
  | KProvisionedNetwork => ProvisionedNetwork_SetID receiver
  | KProvisioningStep => ProvisioningStep_SetID receiver
  | KConnection => Connection_SetID receiver
  | _ => ill_typed
  end.

(** [ParentLaforgeID], by the receiver's dynamic type. *)
Definition ParentLaforgeID (k : Kind) (receiver : ptr) : M string :=
  match k with
  | KProvisionedNetwork => ProvisionedNetwork_ParentLaforgeID receiver
  | KProvisioningStep => ProvisioningStep_ParentLaforgeID receiver
  | KConnection => Connection_ParentLaforgeID receiver
  | KNetwork => Network_ParentLaforgeID receiver
  | _ => ill_typed
  end.

(** Two cells of one kind that differ at most in [ID] and [Caller]. *)
Inductive relabelled : Obj -> Obj -> Prop :=
| relabelled_Network v id ca :
    relabelled (ONetwork v) (ONetwork (Network_relabel id ca v))
| relabelled_DNSRecord v id ca :
    relabelled (ODNSRecord v) (ODNSRecord (DNSRecord_relabel id ca v))
| relabelled_Command v id ca :
    relabelled (OCommand v) (OCommand (Command_relabel id ca v))
| relabelled_RemoteFile v id ca :
    relabelled (ORemoteFile v) (ORemoteFile (RemoteFile_relabel id ca v))
| relabelled_ProvisioningStep v id ca :
    relabelled (OProvisioningStep v) (OProvisioningStep (ProvisioningStep_relabel id ca v))
| relabelled_ProvisionedNetwork v id ca :
    relabelled (OProvisionedNetwork v)
               (OProvisionedNetwork (ProvisionedNetwork_relabel id ca v))
| relabelled_Connection v id ca :
    relabelled (OConnection v) (OConnection (Connection_relabel id ca v)).

(** What [RemoteFile.Hash] feeds to the digest, given the resource hash. *)
Definition RemoteFile_preimage (v : RemoteFile) (source : Z) : string :=
  "sourcetype=" +:+ RemoteFile_SourceType v +:+
  " destination=" +:+ RemoteFile_Destination v +:+
  " vars=" +:+ fmt.map_v (RemoteFile_Vars v) +:+
  " template=" +:+ fmt.bool_v (RemoteFile_Template v) +:+
  " perms=" +:+ RemoteFile_Perms v +:+
  " disabled=" +:+ fmt.bool_v (RemoteFile_Disabled v) +:+
  " source=" +:+ fmt.uint64_v source.

(** What the type switch of [ProvisioningStep.SetID] makes of a step. *)
Definition ProvisioningStep_typed (v : ProvisioningStep) : ProvisioningStep :=
  match ProvisioningStep_Provisioner v with
  | iptr KCommand q => ProvisioningStep_set_Command q v
  | iptr KDNSRecord q => ProvisioningStep_set_DNSRecord q v
  | iptr KRemoteFile q => ProvisioningStep_set_RemoteFile q v
  | iptr KScript q => ProvisioningStep_set_Script q v
  | _ => v
  end.

(** A computation that leaves the whole state as it is. *)
Definition readonly {A} (m : M A) : Prop :=
  forall s a s', m s = Returned (a, s') -> s' = s.

(** A computation that, on every state with the store [h], returns,
    keeps the store and only adds to the trace. *)
Definition steady {A} (h : gmap loc Obj) (m : M A) : Prop :=
  forall s, heap s = h ->
    exists a s' t, m s = Returned (a, s') /\ heap s' = h
                   /\ trace s' = (trace s ++ t)%list.

(** A computation that keeps the store and adds to the trace only events
    that satisfy [P]. *)
Definition emits_only {A} (P : Event -> Prop) (m : M A) : Prop :=
  forall s a s', m s = Returned (a, s') ->
    heap s' = heap s /\ exists t, trace s' = (trace s ++ t)%list /\ Forall P t.

(** The prefix of the two log files of the workflow. *)
Definition log_prefix (logdir filename : string) : string :=
  filepath.unix_Join logdir (cut_all (filepath.Ext filename) 0 filename).

(** Any event but the entry of the execute step. *)
Definition not_execute (e : Event) : Prop := e <> EvStep StepExecute.

(** The file name under which the workflow puts the script on the host. *)
Definition target_name (scriptsrc tmpname : string) : string :=
  if negb (String.eqb tmpname "") then tmpname else path.Base scriptsrc.

(** The execute step has been entered. *)
Definition executing (s : State) : Prop := In (EvStep StepExecute) (trace s).

(** A file that [ioutil.ReadFile] cannot read: missing, not openable, or a
    directory. *)
Definition unreadable (s : State) (name : string) : bool :=
  match files s !! name with
  | Some (Regular _) => false
  | _ => true
  end.

(** The class of upload errors that the SSH branch lets pass: an exit
    error without signal, without message, with exit status 1. *)
Definition benign_exit (e : error) : bool :=
  match e with
  | ExitError w =>
      String.eqb (Waitmsg_signal w) "" && String.eqb (Waitmsg_msg w) ""
      && (Waitmsg_status w =? 1)%Z
  | _ => false
  end.

(** A path element that [path.Clean] keeps as it is. *)
Definition plain (elem : string) : bool :=
  negb (String.eqb elem "") && negb (String.eqb elem ".")
  && negb (String.eqb elem "..") && negb (strings.HasSlash elem).

(** The absolute path with the given elements. *)
Fixpoint abs_path (elems : list string) : string :=
  match elems with
  | [] => ""
  | e :: rest => "/" +:+ e +:+ abs_path rest
  end.

(** [n] calls of a method in a row, the last result kept. *)
Fixpoint again {A} (n : nat) (m : M A) : M A :=
  match n with
  | O => m
  | S n' => (m ;; again n' m)
  end.

(* ===================================================================== *)
(** ** Sample stores *)
(* ===================================================================== *)

(** Modelled from the spec: [PerformInTimeout] is declared outside the
    files at hand.  A step error is re-signaled as a timeout extension,
    and what the caller of the upload step tolerates is decided on the
    underlying transport error: the caller gets the error under the
    timeout extension that the step sent, and any other verdict as it
    is. *)
Definition PerformInTimeout_underlying (timeout : Z) (sent : option error)
  : option error :=
  match sent with
  | Some (TimeoutExtension e) => Some e
  | other => other
  end.

(** A stand-in for what is declared in the files not at hand, to run the
    methods on concrete stores.  Its [PerformInTimeout] hands back the
    error that the step wrapped. *)
Definition sample_externals : Externals := {|
  ErrSwapTypeMismatch := errors.New "swap type mismatch";
  HashConfigMap := fmt.map_v;
  foreign_Hash := fun _ _ _ _ => Returned 0;
  SSHAuthConfig_Hash := fun _ _ => Returned 0;
  WinRMAuthConfig_Hash := fun _ _ => Returned 0;
  Status_Hash := fun _ => 0;
  PerformInTimeout := PerformInTimeout_underlying;
  md5_hex := fun _ => "";
|}.

(** The same stand-in with a [PerformInTimeout] that hands back what the
    step sent as it is, a step error as the timeout extension. *)
Definition verbatim_externals : Externals := {|
  ErrSwapTypeMismatch := errors.New "swap type mismatch";
  HashConfigMap := fmt.map_v;
  foreign_Hash := fun _ _ _ _ => Returned 0;
  SSHAuthConfig_Hash := fun _ _ => Returned 0;
  WinRMAuthConfig_Hash := fun _ _ => Returned 0;
  Status_Hash := fun _ => 0;
  PerformInTimeout := fun _ sent => sent;
  md5_hex := fun _ => "";
|}.

(** A remote side on which every operation succeeds. *)
Definition obliging : Remote := {|
  NewSSHClient := None;
  ssh_Connect := None;
  ssh_UploadScriptV2 := fun _ _ => None;
  ssh_Start := fun _ => None;
  ssh_Wait := fun _ => None;
  ssh_DeleteScriptV2 := fun _ => None;
  winrmcp_New := None;
  winrmcp_Copy := fun _ _ => None;
  winrm_SetConfig := None;
  winrm_ExecuteNonInteractive := fun _ => None;
  winrm_Wait := fun _ => None;
|}.

(** A state with the given cells and files, nothing run yet. *)
Definition initial (cells : list (loc * Obj)) (fs : list (string * File))
    (r : Remote) : State :=
  {| heap := list_to_map cells; files := list_to_map fs; remote := r; trace := [] |}.

Definition web01_conn : Connection := {|
  Connection_ID := "/envs/ctf2024/build1/teams/team-01/networks/dmz/hosts/web01/conn";
  Connection_Active := true;
  Connection_LocalAddr := "10.0.1.5";
  Connection_RemoteAddr := "203.0.113.7";
  Connection_ResourceName := "web01";
  Connection_SSHAuthConfig := None;
  Connection_WinRMAuthConfig := None;
  Connection_Revision := 1;
  Connection_OnConflict := None;
  Connection_Competition := None;
  Connection_Environment := None;
  Connection_Build := None;
  Connection_Team := None;
  Connection_Network := None;
  Connection_Host := None;
  Connection_ProvisionedHost := None;
  Connection_ProvisionedNetwork := None;
  Connection_Caller := [];
|}.

(** The same connection under the path of another team. *)
Definition web01_conn_moved : Connection :=
  Connection_relabel
    "/envs/ctf2024/build1/teams/team-02/networks/dmz/hosts/web01/conn"
    (Connection_Caller web01_conn) web01_conn.

(** The same connection declared by another file. *)
Definition web01_conn_redeclared : Connection :=
  Connection_relabel (Connection_ID web01_conn)
    [{| CallerFile := "/etc/laforge/env.laforge"; CallerDir := "/etc/laforge" |}]
    web01_conn.

Definition three_connections : State :=
  initial [(0%nat, OConnection web01_conn);
           (1%nat, OConnection web01_conn_moved);
           (2%nat, OConnection web01_conn_redeclared)] [] obliging.

Definition banner_file : RemoteFile := {|
  RemoteFile_ID := "/files/banner";
  RemoteFile_SourceType := "local";
  RemoteFile_Source := "./assets/banner.txt";
  RemoteFile_Destination := "/etc/motd";
  RemoteFile_Vars := ∅;
  RemoteFile_Tags := ∅;
  RemoteFile_Template := false;
  RemoteFile_Perms := "0644";
  RemoteFile_Disabled := false;
  RemoteFile_OnConflict := None;
  RemoteFile_MD5 := "";
  RemoteFile_Caller := [];
  RemoteFile_AbsPath := "/srv/laforge/assets/banner.txt";
  RemoteFile_Ext := "";
|}.

(** The same declaration resolved to the assets directory itself. *)
Definition banner_dir : RemoteFile :=
  RemoteFile_set_AbsPath "/srv/laforge/assets" banner_file.

(** The same declaration resolved to a file that is present. *)
Definition banner_present : RemoteFile :=
  RemoteFile_set_AbsPath "/srv/laforge/assets/motd.txt" banner_file.

(** A project directory where [banner.txt] is missing. *)
Definition broken_assets : State :=
  initial [(0%nat, ORemoteFile banner_file);
           (1%nat, ORemoteFile banner_dir);
           (2%nat, ORemoteFile banner_present)]
          [("/srv/laforge/assets", Directory);
           ("/srv/laforge/assets/motd.txt", Regular [104; 105; 10])]
          obliging.

Definition www_record : DNSRecord := {|
  DNSRecord_ID := "/dns-records/www";
  DNSRecord_Name := "www";
  DNSRecord_Values := ["10.0.1.5"];
  DNSRecord_Type := "A";
  DNSRecord_Zone := "corp.example";
  DNSRecord_Vars := ∅;
  DNSRecord_Tags := ∅;
  DNSRecord_Disabled := false;
  DNSRecord_OnConflict := None;
  DNSRecord_Caller := [];
|}.

(** The override of the record in an environment, with its own policy
    block at cell 9. *)
Definition www_override : DNSRecord := {|
  DNSRecord_ID := "/dns-records/www";
  DNSRecord_Name := "www";
  DNSRecord_Values := ["10.0.9.9"; "10.0.9.10"];
  DNSRecord_Type := "A";
  DNSRecord_Zone := "corp.example";
  DNSRecord_Vars := {[ "ttl" := "60" ]};
  DNSRecord_Tags := ∅;
  DNSRecord_Disabled := true;
  DNSRecord_OnConflict := Some 9%nat;
  DNSRecord_Caller := [{| CallerFile := "/etc/laforge/env.laforge";
                          CallerDir := "/etc/laforge" |}];
|}.

Definition dmz_network : Network := {|
  Network_ID := "/networks/dmz";
  Network_Name := "dmz";
  Network_CIDR := "10.0.1.0/24";
  Network_VDIVisible := false;
  Network_Vars := ∅;
  Network_Tags := ∅;
  Network_OnConflict := None;
  Network_Caller := [];
|}.

Definition two_records : State :=
  initial [(0%nat, ODNSRecord www_record);
           (1%nat, ODNSRecord www_override);
           (2%nat, ONetwork dmz_network);
           (9%nat, OOnConflict {| Do := "overwrite"; Append := false |})]
          [] obliging.

(** A computation that leaves the store, the files and the remote side
    as they are: it can only add to the trace. *)
Definition quiet {A} (m : M A) : Prop :=
  forall s a s', m s = Returned (a, s') ->
    heap s' = heap s /\ files s' = files s /\ remote s' = remote s.

(** The network under another name. *)
Definition dmz_renamed : Network := {|
  Network_ID := "/networks/dmz";
  Network_Name := "perimeter";
  Network_CIDR := "10.0.1.0/24";
  Network_VDIVisible := false;
  Network_Vars := ∅;
  Network_Tags := ∅;
  Network_OnConflict := None;
  Network_Caller := [];
|}.

(** The graph node of the network at cell 0, checksum not yet computed. *)
Definition dmz_node : Metadata := {|
  Metadata_Dependency := iptr KNetwork (Some 0%nat);
  Metadata_ID := "/networks/dmz";
  Metadata_ObjectType := LFTypeNetwork;
  Metadata_Created := false;
  Metadata_Tainted := false;
  Metadata_Addition := false;
  Metadata_Checksum := 0;
  Metadata_CreatedAt := 0;
  Metadata_ModifiedAt := 0;
  Metadata_Resources := [];
|}.

Definition dmz_checksum : Z :=
  xxhash.Sum64String "name=dmz cidr=10.0.1.0/24 vdivisible=false vars=map[]".

Definition perimeter_checksum : Z :=
  xxhash.Sum64String "name=perimeter cidr=10.0.1.0/24 vdivisible=false vars=map[]".

(** The node before its checksum is computed, ... *)
Definition node_fresh : State :=
  initial [(0%nat, ONetwork dmz_network); (1%nat, OMetadata dmz_node)] [] obliging.

(** ... after [CalculateChecksum], ... *)
Definition node_computed : State :=
  with_trace [EvHashCall (iptr KNetwork (Some 0%nat))]
    (with_heap (<[1%nat := OMetadata (Metadata_set_Checksum dmz_checksum dmz_node)]>
                  (heap node_fresh)) node_fresh).

(** ... after the network behind it was renamed, ... *)
Definition node_stale : State :=
  with_heap (<[0%nat := ONetwork dmz_renamed]> (heap node_computed)) node_computed.

(** ... and after its checksum was reset to zero. *)
Definition node_reset : State :=
  with_heap (<[1%nat := OMetadata dmz_node]> (heap node_stale)) node_stale.

(** A deployed team: build, team, network, provisioned network (its
    [NetworkID] still empty), host, provisioned host, command,
    provisioning step (its typed provisioner field still nil) and
    connection. *)
Definition dmz_provisioned : ProvisionedNetwork := {|
  ProvisionedNetwork_ID := "/envs/ctf2024/build1/teams/team-01/networks/dmz";
  ProvisionedNetwork_Name := "dmz";
  ProvisionedNetwork_CIDR := "10.0.1.0/24";
  ProvisionedNetwork_NetworkID := "";
  ProvisionedNetwork_ProvisionedHosts := ∅;
  ProvisionedNetwork_Status := {| Status_token := "planned" |};
  ProvisionedNetwork_Network := Some 12%nat;
  ProvisionedNetwork_Team := Some 11%nat;
  ProvisionedNetwork_Build := Some 10%nat;
  ProvisionedNetwork_Environment := None;
  ProvisionedNetwork_Competition := None;
  ProvisionedNetwork_OnConflict := None;
  ProvisionedNetwork_Caller := [];
  ProvisionedNetwork_Dir := "";
|}.

Definition recon_script : Command := {|
  Command_ID := "/commands/recon-script";
  Command_Name := "recon";
  Command_Description := "";
  Command_Program := "/bin/sh";
  Command_Args := ["-c"; "id"];
  Command_IgnoreErrors := false;
  Command_Cooldown := 0;
  Command_IO := None;
  Command_Disabled := false;
  Command_Vars := ∅;
  Command_Tags := ∅;
  Command_OnConflict := None;
  Command_Maintainer := None;
  Command_Caller := [];
|}.

Definition web01_step : ProvisioningStep := {|
  ProvisioningStep_ID :=
    "/envs/ctf2024/build1/teams/team-01/networks/dmz/hosts/web01/steps/0-recon-script";
  ProvisioningStep_ProvisionerID := "/commands/recon-script";
  ProvisioningStep_ProvisionerType := "command";
  ProvisioningStep_StepNumber := 0;
  ProvisioningStep_Status := "";
  ProvisioningStep_ProvisionedHost := Some 15%nat;
  ProvisioningStep_ProvisionedNetwork := Some 13%nat;
  ProvisioningStep_Host := Some 14%nat;
  ProvisioningStep_Network := Some 12%nat;
  ProvisioningStep_Team := Some 11%nat;
  ProvisioningStep_Build := Some 10%nat;
  ProvisioningStep_Environment := None;
  ProvisioningStep_Competition := None;
  ProvisioningStep_Provisioner := iptr KCommand (Some 16%nat);
  ProvisioningStep_Script := None;
  ProvisioningStep_Command := None;
  ProvisioningStep_RemoteFile := None;
  ProvisioningStep_DNSRecord := None;
  ProvisioningStep_OnConflict := None;
  ProvisioningStep_Caller := [];
  ProvisioningStep_Dir := "";
|}.

Definition web01_provisioned : ProvisionedHost := {|
  ProvisionedHost_ID := "/envs/ctf2024/build1/teams/team-01/networks/dmz/hosts/web01";
  ProvisionedHost_Host := Some 14%nat;
|}.

(** The connection of the provisioned host, over SSH, its [ID] not yet
    assigned. *)
Definition web01_ssh : Connection := {|
  Connection_ID := "";
  Connection_Active := true;
  Connection_LocalAddr := "10.0.1.5";
  Connection_RemoteAddr := "203.0.113.7";
  Connection_ResourceName := "web01";
  Connection_SSHAuthConfig := Some 19%nat;
  Connection_WinRMAuthConfig := None;
  Connection_Revision := 0;
  Connection_OnConflict := None;
  Connection_Competition := None;
  Connection_Environment := None;
  Connection_Build := Some 10%nat;
  Connection_Team := Some 11%nat;
  Connection_Network := Some 12%nat;
  Connection_Host := Some 14%nat;
  Connection_ProvisionedHost := Some 15%nat;
  Connection_ProvisionedNetwork := Some 13%nat;
  Connection_Caller := [];
|}.

Definition deployed_cells : list (loc * Obj) :=
  [(10%nat, OBuild {| Build_ID := "/envs/ctf2024/build1" |});
   (11%nat, OTeam {| Team_ID := "/envs/ctf2024/build1/teams/team-01" |});
   (12%nat, ONetwork dmz_network);
   (13%nat, OProvisionedNetwork dmz_provisioned);
   (14%nat, OHost {| Host_ID := "/hosts/web01" |});
   (15%nat, OProvisionedHost web01_provisioned);
   (16%nat, OCommand recon_script);
   (17%nat, OProvisioningStep web01_step);
   (18%nat, OConnection web01_ssh)].

Definition deployed : State := initial deployed_cells [] obliging.

(** The exit error that the SSH branch lets pass. *)
Definition exit_status_1 : error :=
  ExitError {| Waitmsg_status := 1; Waitmsg_signal := ""; Waitmsg_msg := "";
               Waitmsg_lang := "" |}.

(** A remote side whose SFTP upload ends with that error and on which
    everything else succeeds. *)
Definition flaky_upload : Remote := {|
  NewSSHClient := None;
  ssh_Connect := None;
  ssh_UploadScriptV2 := fun _ _ => Some exit_status_1;
  ssh_Start := fun _ => None;
  ssh_Wait := fun _ => None;
  ssh_DeleteScriptV2 := fun _ => None;
  winrmcp_New := None;
  winrmcp_Copy := fun _ _ => None;
  winrm_SetConfig := None;
  winrm_ExecuteNonInteractive := fun _ => None;
  winrm_Wait := fun _ => None;
|}.

(** A remote side that refuses the connection. *)
Definition unreachable_host : Remote := {|
  NewSSHClient := None;
  ssh_Connect := Some (errors.New "dial tcp 203.0.113.7:22: connection refused");
  ssh_UploadScriptV2 := fun _ _ => None;
  ssh_Start := fun _ => None;
  ssh_Wait := fun _ => None;
  ssh_DeleteScriptV2 := fun _ => None;
  winrmcp_New := None;
  winrmcp_Copy := fun _ _ => None;
  winrm_SetConfig := None;
  winrm_ExecuteNonInteractive := fun _ => None;
  winrm_Wait := fun _ => None;
|}.

Definition setup_job : Doer := {| Doer_Timeout := 120; Doer_TargetID := "web01" |}.

Definition project_files : list (string * File) :=
  [("/srv/laforge/scripts/setup.sh", Regular [35; 33; 47; 98; 105; 110; 47; 115; 104; 10]);
   ("/tmp/logs", Directory)].

(** The deployed team with the script and the log directory in place,
    in front of the flaky and of the unreachable host. *)
Definition provisioning : State := initial deployed_cells project_files flaky_upload.

Definition provisioning_refused : State :=
  initial deployed_cells project_files unreachable_host.

(** The same team in front of a host on which every operation
    succeeds. *)
Definition provisioning_obliging : State :=
  initial deployed_cells project_files obliging.

(** The SSH connection as it comes back from a saved build: the
    provisioned host is not linked. *)
Definition web01_unlinked : Connection := {|
  Connection_ID := "/envs/ctf2024/build1/teams/team-01/networks/dmz/hosts/web01/conn";
  Connection_Active := true;
  Connection_LocalAddr := "10.0.1.5";
  Connection_RemoteAddr := "203.0.113.7";
  Connection_ResourceName := "web01";
  Connection_SSHAuthConfig := Some 19%nat;
  Connection_WinRMAuthConfig := None;
  Connection_Revision := 0;
  Connection_OnConflict := None;
  Connection_Competition := None;
  Connection_Environment := None;
  Connection_Build := None;
  Connection_Team := None;
  Connection_Network := None;
  Connection_Host := None;
  Connection_ProvisionedHost := None;
  Connection_ProvisionedNetwork := None;
  Connection_Caller := [];
|}.

Definition provisioning_unlinked : State :=
  initial [(18%nat, OConnection web01_unlinked)] project_files flaky_upload.

(* ===================================================================== *)
(** ** [ValidatePath] of the seven kinds *)
(* ===================================================================== *)

(** The body shared by [Network], [DNSRecord], [Command] and [RemoteFile]:
    the generic check, then the first directory of the path, which has to
    be [root].  [Path] is the receiver's [Path()], called once per use as
    in the source. *)
Definition ValidatePath_under (root : string) (Path : M string) : M (option error) :=
  p ← Path;
  match ValidateGenericPath p with
  | Some err => ret (Some err)
  | None =>
      p ← Path;
      let topdir := strings.Split p in
      top ← lift (index topdir 1);
      if negb (String.eqb top root) then
        p ← Path;
        top ← lift (index topdir 1);
        ret (Some (Errorf "path %s is not rooted in /%s" [p; top]))
      else ret None
  end.

(** The body shared by [ProvisionedNetwork], [ProvisioningStep] and
    [Connection]: the generic check alone. *)
Definition ValidatePath_generic (Path : M string) : M (option error) :=
  p ← Path;
  match ValidateGenericPath p with
  | Some err => ret (Some err)
  | None => ret None
  end.

Definition Network_ValidatePath (n : ptr) : M (option error) :=
  ValidatePath_under "networks" (Network_Path n).

Definition DNSRecord_ValidatePath (r : ptr) : M (option error) :=
  ValidatePath_under "dns-records" (DNSRecord_Path r).

Definition Command_ValidatePath (c : ptr) : M (option error) :=
  ValidatePath_under "commands" (Command_Path c).

Definition RemoteFile_ValidatePath (r : ptr) : M (option error) :=
  ValidatePath_under "files" (RemoteFile_Path r).

Definition ProvisionedNetwork_ValidatePath (p : ptr) : M (option error) :=
  ValidatePath_generic (ProvisionedNetwork_Path p).

Definition ProvisioningStep_ValidatePath (p : ptr) : M (option error) :=
  ValidatePath_generic (ProvisioningStep_Path p).

Definition Connection_ValidatePath (c : ptr) : M (option error) :=
  ValidatePath_generic (Connection_Path c).

(** [ValidatePath] through the [Pather] interface. *)
Definition ValidatePath (k : Kind) (receiver : ptr) : M (option error) :=
  match k with
  | KNetwork => Network_ValidatePath receiver
  | KDNSRecord => DNSRecord_ValidatePath receiver
  | KCommand => Command_ValidatePath receiver
  | KRemoteFile => RemoteFile_ValidatePath receiver
  | KProvisionedNetwork => ProvisionedNetwork_ValidatePath receiver
  | KProvisioningStep => ProvisioningStep_ValidatePath receiver
  | KConnection => Connection_ValidatePath receiver
  | _ => ill_typed
  end.

(** The top directory that [ValidatePath] asks for, and the type that
    [TypeByPath] gives to the paths under it. *)
Definition top_directory (k : Kind) : option (string * LFType) :=
  match k with
  | KNetwork => Some ("networks", LFTypeNetwork)
  | KDNSRecord => Some ("dns-records", LFTypeDNSRecord)
  | KCommand => Some ("commands", LFTypeCommand)
  | KRemoteFile => Some ("files", LFTypeRemoteFile)
  | _ => None
  end.

(** A byte of a path element that the generic syntax allows. *)
Definition name_char (a : ascii) : bool :=
  regexp.lower_alnum a || Ascii.eqb a "-".

(* ===================================================================== *)
(** ** [Base] of the build artifacts *)
(* ===================================================================== *)

Definition ProvisioningStep_Base (p : ptr) : M string :=
  v ← load_ProvisioningStep p; ret (path.Base (ProvisioningStep_ID v)).

Definition ProvisionedNetwork_Base (p : ptr) : M string :=
  v ← load_ProvisionedNetwork p; ret (path.Base (ProvisionedNetwork_ID v)).

Definition Connection_Base (c : ptr) : M string :=
  v ← load_Connection c; ret (path.Base (Connection_ID v)).

(** The types that implement [Provisioner]. *)
Definition provisions (k : Kind) : bool :=
  match k with
  | KCommand | KDNSRecord | KRemoteFile | KScript => true
  | _ => false
  end.

(** The name of a step under [steps/]: ["%d-%s"] of the step number and
    the base name of the provisioner. *)
Definition step_name (number : Z) (base : string) : string :=
  fmt.int_v number +:+ "-" +:+ base.

(** The first byte of a string, the dot when there is none. *)
Definition first_byte (s : string) : ascii :=
  match s with
  | String a _ => a
  | EmptyString => "."%char
  end.


(** The provisioned network and the step of the sample store before
    their paths are assigned, in a store of their own. *)
Definition dmz_planned : ProvisionedNetwork :=
  ProvisionedNetwork_assign "" [] "" dmz_provisioned.

Definition web01_step_planned : ProvisioningStep :=
  ProvisioningStep_set_ID "" web01_step.

Definition planned : State :=
  initial (deployed_cells ++
           [(20%nat, OProvisionedNetwork dmz_planned);
            (21%nat, OProvisioningStep web01_step_planned)])
          [] obliging.

Definition web01_path : list string :=
  ["envs"; "ctf2024"; "build1"; "teams"; "team-01"; "networks"; "dmz"; "hosts"; "web01"].

(* ===================================================================== *)
(** ** What the [Hash] methods read *)
(* ===================================================================== *)

(** The fields of the receiver that each [Hash] method reads, pointers
    and interface values as they are. *)
Inductive Hashed : Type :=
| HNetwork (name cidr : string) (vdivisible : bool) (vars : gmap string string)
| HDNSRecord (name : string) (values : list string) (type zone : string)
    (vars : gmap string string) (disabled : bool)
| HCommand (program : string) (args : list string) (ignoreerrors : bool)
    (cooldown : Z) (io : ptr) (disabled : bool) (vars : gmap string string)
| HRemoteFile (sourcetype destination : string) (vars : gmap string string)
    (template : bool) (perms : string) (disabled : bool) (abspath : string)
| HProvisioningStep (pid ptype : string) (provisioner : iface) (snum : Z)
| HProvisionedNetwork (name cidr : string) (network team : ptr) (status : Status)
| HConnection (id localaddr rmaddr rname : string) (ssh winrm : ptr).

Definition hashed (o : Obj) : option Hashed :=
  match o with
  | ONetwork v =>
      Some (HNetwork (Network_Name v) (Network_CIDR v) (Network_VDIVisible v)
              (Network_Vars v))
  | ODNSRecord v =>
      Some (HDNSRecord (DNSRecord_Name v) (DNSRecord_Values v) (DNSRecord_Type v)
              (DNSRecord_Zone v) (DNSRecord_Vars v) (DNSRecord_Disabled v))
  | OCommand v =>
      Some (HCommand (Command_Program v) (Command_Args v) (Command_IgnoreErrors v)
              (Command_Cooldown v) (Command_IO v) (Command_Disabled v)
              (Command_Vars v))
  | ORemoteFile v =>
      Some (HRemoteFile (RemoteFile_SourceType v) (RemoteFile_Destination v)
              (RemoteFile_Vars v) (RemoteFile_Template v) (RemoteFile_Perms v)
              (RemoteFile_Disabled v) (RemoteFile_AbsPath v))
  | OProvisioningStep v =>
      Some (HProvisioningStep (ProvisioningStep_ProvisionerID v)
              (ProvisioningStep_ProvisionerType v) (ProvisioningStep_Provisioner v)
              (ProvisioningStep_StepNumber v))
  | OProvisionedNetwork v =>
      Some (HProvisionedNetwork (ProvisionedNetwork_Name v) (ProvisionedNetwork_CIDR v)
              (ProvisionedNetwork_Network v) (ProvisionedNetwork_Team v)
              (ProvisionedNetwork_Status v))
  | OConnection v =>
      Some (HConnection (Connection_ID v) (Connection_LocalAddr v)
              (Connection_RemoteAddr v) (Connection_ResourceName v)
              (Connection_SSHAuthConfig v) (Connection_WinRMAuthConfig v))
  | _ => None
  end.

(** The text that [Command.Hash] prints for the [IO] block: [n/a] without
    one, else the three redirections in a row. *)
Definition Command_iostr (h : gmap loc Obj) (v : Command) : option string :=
  match Command_IO v with
  | None => Some "n/a"
  | Some l =>
      match h !! l with
      | Some (OIO w) => Some (IO_Stderr w +:+ IO_Stdin w +:+ IO_Stdout w)
      | _ => None
      end
  end.

(** The same command, retagged, redescribed and with its arguments split
    at the commas. *)
Definition recon_script_split : Command := {|
  Command_ID := "/commands/recon-script-2";
  Command_Name := "recon again";
  Command_Description := "the same call, declared with other arguments";
  Command_Program := "/usr/bin/nmap";
  Command_Args := ["-p"; "80"; "443"];
  Command_IgnoreErrors := false;
  Command_Cooldown := 0;
  Command_IO := Some 31%nat;
  Command_Disabled := false;
  Command_Vars := ∅;
  Command_Tags := <["team" := "red"]> ∅;
  Command_OnConflict := None;
  Command_Maintainer := None;
  Command_Caller := [];
|}.

Definition recon_script_joined : Command := {|
  Command_ID := "/commands/recon-script";
  Command_Name := "recon";
  Command_Description := "";
  Command_Program := "/usr/bin/nmap";
  Command_Args := ["-p"; "80,443"];
  Command_IgnoreErrors := false;
  Command_Cooldown := 0;
  Command_IO := None;
  Command_Disabled := false;
  Command_Vars := ∅;
  Command_Tags := ∅;
  Command_OnConflict := None;
  Command_Maintainer := None;
  Command_Caller := [];
|}.

Definition two_commands : State :=
  initial [(30%nat, OCommand recon_script_joined);
           (31%nat, OIO {| IO_Stdin := "/"; IO_Stdout := "a"; IO_Stderr := "n" |});
           (32%nat, OCommand recon_script_split)]
          [] obliging.

(** The banner under another path and another declared source, resolved
    to a copy of the file. *)
Definition banner_copy : RemoteFile := {|
  RemoteFile_ID := "/files/banner-copy";
  RemoteFile_SourceType := "local";
  RemoteFile_Source := "../shared/motd";
  RemoteFile_Destination := "/etc/motd";
  RemoteFile_Vars := ∅;
  RemoteFile_Tags := <["os" := "linux"]> ∅;
  RemoteFile_Template := false;
  RemoteFile_Perms := "0644";
  RemoteFile_Disabled := false;
  RemoteFile_OnConflict := None;
  RemoteFile_MD5 := "";
  RemoteFile_Caller := [];
  RemoteFile_AbsPath := "/srv/shared/motd";
  RemoteFile_Ext := "";
|}.

Definition two_banners : State :=
  initial [(0%nat, ORemoteFile banner_present);
           (1%nat, ORemoteFile banner_copy)]
          [("/srv/laforge/assets/motd.txt", Regular [104; 105; 10]);
           ("/srv/shared/motd", Regular [104; 105; 10])]
          obliging.

(** The network declared a second time, elsewhere, with tags and a
    conflict policy. *)
Definition dmz_retagged : Network := {|
  Network_ID := "/networks/dmz-copy";
  Network_Name := "dmz";
  Network_CIDR := "10.0.1.0/24";
  Network_VDIVisible := false;
  Network_Vars := ∅;
  Network_Tags := <["zone" := "perimeter"]> ∅;
  Network_OnConflict := Some 9%nat;
  Network_Caller := [{| CallerFile := "env.laforge"; CallerDir := "/srv/laforge" |}];
|}.

Definition two_networks : State :=
  initial [(2%nat, ONetwork dmz_network);
           (3%nat, ONetwork dmz_retagged);
           (9%nat, OOnConflict {| Do := "overwrite"; Append := false |})]
          [] obliging.

(** A node whose dependency was never attached, fresh and with a stored
    checksum. *)
Definition orphan_node : Metadata := {|
  Metadata_Dependency := inil;
  Metadata_ID := "/networks/dmz";
  Metadata_ObjectType := LFTypeNetwork;
  Metadata_Created := true;
  Metadata_Tainted := false;
  Metadata_Addition := false;
  Metadata_Checksum := 0;
  Metadata_CreatedAt := 0;
  Metadata_ModifiedAt := 0;
  Metadata_Resources := [];
|}.

Definition orphans : State :=
  initial [(0%nat, OMetadata orphan_node);
           (1%nat, OMetadata (Metadata_set_Checksum 42 orphan_node))] [] obliging.

(* ===================================================================== *)
(** ** Conflict policies, record values and octets *)
(* ===================================================================== *)

(** [x.OnConflict = p], one assignment per kind. *)
Definition Network_set_OnConflict (p : ptr) (v : Network) : Network :=
  {| Network_ID := Network_ID v; Network_Name := Network_Name v;
     Network_CIDR := Network_CIDR v; Network_VDIVisible := Network_VDIVisible v;
     Network_Vars := Network_Vars v; Network_Tags := Network_Tags v;
     Network_OnConflict := p; Network_Caller := Network_Caller v |}.

Definition DNSRecord_set_OnConflict (p : ptr) (v : DNSRecord) : DNSRecord :=
  {| DNSRecord_ID := DNSRecord_ID v; DNSRecord_Name := DNSRecord_Name v;
     DNSRecord_Values := DNSRecord_Values v; DNSRecord_Type := DNSRecord_Type v;
     DNSRecord_Zone := DNSRecord_Zone v; DNSRecord_Vars := DNSRecord_Vars v;
     DNSRecord_Tags := DNSRecord_Tags v; DNSRecord_Disabled := DNSRecord_Disabled v;
     DNSRecord_OnConflict := p; DNSRecord_Caller := DNSRecord_Caller v |}.

Definition Command_set_OnConflict (p : ptr) (v : Command) : Command :=
  {| Command_ID := Command_ID v; Command_Name := Command_Name v;
     Command_Description := Command_Description v;
     Command_Program := Command_Program v; Command_Args := Command_Args v;
     Command_IgnoreErrors := Command_IgnoreErrors v;
     Command_Cooldown := Command_Cooldown v; Command_IO := Command_IO v;
     Command_Disabled := Command_Disabled v; Command_Vars := Command_Vars v;
     Command_Tags := Command_Tags v; Command_OnConflict := p;
     Command_Maintainer := Command_Maintainer v; Command_Caller := Command_Caller v |}.

Definition RemoteFile_set_OnConflict (p : ptr) (v : RemoteFile) : RemoteFile :=
  {| RemoteFile_ID := RemoteFile_ID v;
     RemoteFile_SourceType := RemoteFile_SourceType v;
     RemoteFile_Source := RemoteFile_Source v;
     RemoteFile_Destination := RemoteFile_Destination v;
     RemoteFile_Vars := RemoteFile_Vars v; RemoteFile_Tags := RemoteFile_Tags v;
     RemoteFile_Template := RemoteFile_Template v;
     RemoteFile_Perms := RemoteFile_Perms v;
     RemoteFile_Disabled := RemoteFile_Disabled v; RemoteFile_OnConflict := p;
     RemoteFile_MD5 := RemoteFile_MD5 v; RemoteFile_Caller := RemoteFile_Caller v;
     RemoteFile_AbsPath := RemoteFile_AbsPath v; RemoteFile_Ext := RemoteFile_Ext v |}.

Definition ProvisioningStep_set_OnConflict (p : ptr) (v : ProvisioningStep) : ProvisioningStep :=
  {| ProvisioningStep_ID := ProvisioningStep_ID v;
     ProvisioningStep_ProvisionerID := ProvisioningStep_ProvisionerID v;
     ProvisioningStep_ProvisionerType := ProvisioningStep_ProvisionerType v;
     ProvisioningStep_StepNumber := ProvisioningStep_StepNumber v;
     ProvisioningStep_Status := ProvisioningStep_Status v;
     ProvisioningStep_ProvisionedHost := ProvisioningStep_ProvisionedHost v;
     ProvisioningStep_ProvisionedNetwork := ProvisioningStep_ProvisionedNetwork v;
     ProvisioningStep_Host := ProvisioningStep_Host v;
     ProvisioningStep_Network := ProvisioningStep_Network v;
     ProvisioningStep_Team := ProvisioningStep_Team v;
     ProvisioningStep_Build := ProvisioningStep_Build v;
     ProvisioningStep_Environment := ProvisioningStep_Environment v;
     ProvisioningStep_Competition := ProvisioningStep_Competition v;
     ProvisioningStep_Provisioner := ProvisioningStep_Provisioner v;
     ProvisioningStep_Script := ProvisioningStep_Script v;
     ProvisioningStep_Command := ProvisioningStep_Command v;
     ProvisioningStep_RemoteFile := ProvisioningStep_RemoteFile v;
     ProvisioningStep_DNSRecord := ProvisioningStep_DNSRecord v;
     ProvisioningStep_OnConflict := p;
     ProvisioningStep_Caller := ProvisioningStep_Caller v;
     ProvisioningStep_Dir := ProvisioningStep_Dir v |}.

Definition ProvisionedNetwork_set_OnConflict (p : ptr) (v : ProvisionedNetwork) : ProvisionedNetwork :=
  {| ProvisionedNetwork_ID := ProvisionedNetwork_ID v;
     ProvisionedNetwork_Name := ProvisionedNetwork_Name v;
     ProvisionedNetwork_CIDR := ProvisionedNetwork_CIDR v;
     ProvisionedNetwork_NetworkID := ProvisionedNetwork_NetworkID v;
     ProvisionedNetwork_ProvisionedHosts := ProvisionedNetwork_ProvisionedHosts v;
     ProvisionedNetwork_Status := ProvisionedNetwork_Status v;
     ProvisionedNetwork_Network := ProvisionedNetwork_Network v;
     ProvisionedNetwork_Team := ProvisionedNetwork_Team v;
     ProvisionedNetwork_Build := ProvisionedNetwork_Build v;
     ProvisionedNetwork_Environment := ProvisionedNetwork_Environment v;
     ProvisionedNetwork_Competition := ProvisionedNetwork_Competition v;
     ProvisionedNetwork_OnConflict := p;
     ProvisionedNetwork_Caller := ProvisionedNetwork_Caller v;
     ProvisionedNetwork_Dir := ProvisionedNetwork_Dir v |}.

Definition Connection_set_OnConflict (p : ptr) (v : Connection) : Connection :=
  {| Connection_ID := Connection_ID v; Connection_Active := Connection_Active v;
     Connection_LocalAddr := Connection_LocalAddr v;
     Connection_RemoteAddr := Connection_RemoteAddr v;
     Connection_ResourceName := Connection_ResourceName v;
     Connection_SSHAuthConfig := Connection_SSHAuthConfig v;
     Connection_WinRMAuthConfig := Connection_WinRMAuthConfig v;
     Connection_Revision := Connection_Revision v; Connection_OnConflict := p;
     Connection_Competition := Connection_Competition v;
     Connection_Environment := Connection_Environment v;
     Connection_Build := Connection_Build v; Connection_Team := Connection_Team v;
     Connection_Network := Connection_Network v; Connection_Host := Connection_Host v;
     Connection_ProvisionedHost := Connection_ProvisionedHost v;
     Connection_ProvisionedNetwork := Connection_ProvisionedNetwork v;
     Connection_Caller := Connection_Caller v |}.

(** [&o] of a value that escapes: a cell that was not in the store. *)
Definition alloc (o : Obj) : M loc :=
  fun s =>
    let l := fresh (dom (heap s)) in
    Returned (l, with_heap (<[l := o]> (heap s)) s).

(** The policy returned for a nil [OnConflict]: [OnConflict{Do: "default"}],
    with [Append: true] for the two build artifacts that say so. *)
Definition default_OnConflict (append : bool) : OnConflict :=
  {| Do := "default"; Append := append |}.

(** [return *x.OnConflict] behind the nil test. *)
Definition read_OnConflict (p : ptr) (append : bool) : M OnConflict :=
  match p with
  | None => ret (default_OnConflict append)
  | Some _ => load_OnConflict p
  end.

Definition Network_GetOnConflict (n : ptr) : M OnConflict :=
  v ← load_Network n; read_OnConflict (Network_OnConflict v) false.

Definition DNSRecord_GetOnConflict (r : ptr) : M OnConflict :=
  v ← load_DNSRecord r; read_OnConflict (DNSRecord_OnConflict v) false.

Definition Command_GetOnConflict (c : ptr) : M OnConflict :=
  v ← load_Command c; read_OnConflict (Command_OnConflict v) false.

Definition RemoteFile_GetOnConflict (r : ptr) : M OnConflict :=
  v ← load_RemoteFile r; read_OnConflict (RemoteFile_OnConflict v) false.

Definition ProvisioningStep_GetOnConflict (p : ptr) : M OnConflict :=
  v ← load_ProvisioningStep p; read_OnConflict (ProvisioningStep_OnConflict v) true.

Definition ProvisionedNetwork_GetOnConflict (p : ptr) : M OnConflict :=
  v ← load_ProvisionedNetwork p; read_OnConflict (ProvisionedNetwork_OnConflict v) true.

Definition Connection_GetOnConflict (c : ptr) : M OnConflict :=
  v ← load_Connection c; read_OnConflict (Connection_OnConflict v) false.

(** [x.OnConflict = &o]: the parameter gets a cell of its own, and the
    field points to it. *)
Definition Network_SetOnConflict (n : ptr) (o : OnConflict) : M unit :=
  p ← alloc (OOnConflict o);
  v ← load_Network n;
  store n (ONetwork (Network_set_OnConflict (Some p) v)).

Definition DNSRecord_SetOnConflict (r : ptr) (o : OnConflict) : M unit :=
  p ← alloc (OOnConflict o);
  v ← load_DNSRecord r;
  store r (ODNSRecord (DNSRecord_set_OnConflict (Some p) v)).

Definition Command_SetOnConflict (c : ptr) (o : OnConflict) : M unit :=
  p ← alloc (OOnConflict o);
  v ← load_Command c;
  store c (OCommand (Command_set_OnConflict (Some p) v)).

Definition RemoteFile_SetOnConflict (r : ptr) (o : OnConflict) : M unit :=
  p ← alloc (OOnConflict o);
  v ← load_RemoteFile r;
  store r (ORemoteFile (RemoteFile_set_OnConflict (Some p) v)).

Definition ProvisioningStep_SetOnConflict (p : ptr) (o : OnConflict) : M unit :=
  q ← alloc (OOnConflict o);
  v ← load_ProvisioningStep p;
  store p (OProvisioningStep (ProvisioningStep_set_OnConflict (Some q) v)).

Definition ProvisionedNetwork_SetOnConflict (p : ptr) (o : OnConflict) : M unit :=
  q ← alloc (OOnConflict o);
  v ← load_ProvisionedNetwork p;
  store p (OProvisionedNetwork (ProvisionedNetwork_set_OnConflict (Some q) v)).

Definition Connection_SetOnConflict (c : ptr) (o : OnConflict) : M unit :=
  p ← alloc (OOnConflict o);
  v ← load_Connection c;
  store c (OConnection (Connection_set_OnConflict (Some p) v)).

(** The two methods through the [Mergeable] interface. *)
Definition GetOnConflict (k : Kind) (receiver : ptr) : M OnConflict :=
  match k with
  | KNetwork => Network_GetOnConflict receiver
  | KDNSRecord => DNSRecord_GetOnConflict receiver
  | KCommand => Command_GetOnConflict receiver
  | KRemoteFile => RemoteFile_GetOnConflict receiver
  | KProvisioningStep => ProvisioningStep_GetOnConflict receiver
  | KProvisionedNetwork => ProvisionedNetwork_GetOnConflict receiver
  | KConnection => Connection_GetOnConflict receiver
  | _ => ill_typed
  end.

Definition SetOnConflict (k : Kind) (receiver : ptr) (o : OnConflict) : M unit :=
  match k with
  | KNetwork => Network_SetOnConflict receiver o
  | KDNSRecord => DNSRecord_SetOnConflict receiver o
  | KCommand => Command_SetOnConflict receiver o
  | KRemoteFile => RemoteFile_SetOnConflict receiver o
  | KProvisioningStep => ProvisioningStep_SetOnConflict receiver o
  | KProvisionedNetwork => ProvisionedNetwork_SetOnConflict receiver o
  | KConnection => Connection_SetOnConflict receiver o
  | _ => ill_typed
  end.

(** The kinds whose default policy appends. *)
Definition appends_by_default (k : Kind) : bool :=
  match k with
  | KProvisioningStep | KProvisionedNetwork => true
  | _ => false
  end.

(** The [OnConflict] field of a cell's content. *)
Definition Obj_OnConflict (o : Obj) : ptr :=
  match o with
  | ONetwork v => Network_OnConflict v
  | ODNSRecord v => DNSRecord_OnConflict v
  | OCommand v => Command_OnConflict v
  | ORemoteFile v => RemoteFile_OnConflict v
  | OProvisioningStep v => ProvisioningStep_OnConflict v
  | OProvisionedNetwork v => ProvisionedNetwork_OnConflict v
  | OConnection v => Connection_OnConflict v
  | _ => None
  end.

(** The content of a cell with its [OnConflict] field set. *)
Definition Obj_set_OnConflict (p : ptr) (o : Obj) : Obj :=
  match o with
  | ONetwork v => ONetwork (Network_set_OnConflict p v)
  | ODNSRecord v => ODNSRecord (DNSRecord_set_OnConflict p v)
  | OCommand v => OCommand (Command_set_OnConflict p v)
  | ORemoteFile v => ORemoteFile (RemoteFile_set_OnConflict p v)
  | OProvisioningStep v => OProvisioningStep (ProvisioningStep_set_OnConflict p v)
  | OProvisionedNetwork v => OProvisionedNetwork (ProvisionedNetwork_set_OnConflict p v)
  | OConnection v => OConnection (Connection_set_OnConflict p v)
  | other => other
  end.

(** *** network.go: [Octet] *)

(** [strings.Split(s, sep)] for a separator of one byte. *)
Fixpoint strings_Split_at (sep : ascii) (s : string) : list string :=
  match s with
  | EmptyString => [EmptyString]
  | String a s' =>
      if Ascii.eqb a sep then EmptyString :: strings_Split_at sep s'
      else match strings_Split_at sep s' with
           | [] => [String a EmptyString]
           | x :: xs => String a x :: xs
           end
  end.

Definition Network_Octet (n : ptr) : M string :=
  v ← load_Network n;
  if String.eqb (Network_CIDR v) "" then ret "NO_CIDR"
  else
    let octets := strings_Split_at "." (Network_CIDR v) in
    if (length octets <=? 3)%nat then ret "INVALID_CIDR"
    else lift (index octets 2).

(** The number of times a string has the byte. *)
Fixpoint count_byte (sep : ascii) (s : string) : nat :=
  match s with
  | EmptyString => 0
  | String a s' => (if Ascii.eqb a sep then 1 else 0) + count_byte sep s'
  end.

(* ===================================================================== *)
(** ** Checks of the library models against published values *)
(* ===================================================================== *)

Lemma U64_wrap_in_range z : U64_in_range (U64.wrap z).
Proof. unfold U64_in_range, U64.wrap, U64.modulus. apply Z.mod_pos_bound. lia. Qed.

Lemma U64_wrap_small z : U64_in_range z -> U64.wrap z = z.
Proof. unfold U64_in_range, U64.wrap. intros H. apply Z.mod_small. exact H. Qed.

(** The digests published with the library's own test-suite. *)
Example xxhash_empty : xxhash.Sum64String "" = 0xef46db3751d8e999.
Proof. vm_compute. reflexivity. Qed.

Example xxhash_a : xxhash.Sum64String "a" = 0xd24ec4f1a98c6e5b.
Proof. vm_compute. reflexivity. Qed.

Example xxhash_asdf : xxhash.Sum64String "asdf" = 0x415872f599cea71e.
Proof. vm_compute. reflexivity. Qed.

Example xxhash_ishmael :
  xxhash.Sum64String
    "Call me Ishmael. Some years ago--never mind how long precisely-"
  = 0x02a2e85470d6fd96.
Proof. vm_compute. reflexivity. Qed.

(** The cases of the package's own tables. *)
Example path_Clean_cases :
  map path.Clean
    [""; "abc"; "abc/def"; "."; ".."; "../.."; "../../abc"; "/abc"; "/";
     "abc/"; "abc/def/"; "a/b/c/"; "./"; "../"; "../../"; "/abc/";
     "abc//def//ghi"; "//abc"; "///abc"; "//abc//"; "abc//";
     "abc/./def"; "/./abc/def"; "abc/.";
     "abc/def/ghi/../jkl"; "abc/def/../ghi/../jkl"; "abc/def/.."; "abc/def/../..";
     "/abc/def/../.."; "abc/def/../../.."; "/abc/def/../../..";
     "abc/def/../../../ghi/jkl/../../../mno";
     "abc/./../def"; "abc//./../def"; "abc/../../././../def"]
  = ["."; "abc"; "abc/def"; "."; ".."; "../.."; "../../abc"; "/abc"; "/";
     "abc"; "abc/def"; "a/b/c"; "."; ".."; "../.."; "/abc";
     "abc/def/ghi"; "/abc"; "/abc"; "/abc"; "abc";
     "abc/def"; "/abc/def"; "abc";
     "abc/def/jkl"; "abc/jkl"; "abc"; ".";
     "/"; ".."; "/";
     "../../mno";
     "def"; "def"; "../../def"].
Proof. vm_compute. reflexivity. Qed.

Example path_Base_cases :
  map path.Base [""; "."; "/."; "/"; "////"; "x/"; "abc"; "abc/def"; "a/b/.x"; "a/b/c."; "a/b/c.x"]
  = ["."; "."; "."; "/"; "/"; "x"; "abc"; "def"; ".x"; "c."; "c.x"].
Proof. vm_compute. reflexivity. Qed.

Example path_Dir_cases :
  map path.Dir [""; "."; "/."; "/"; "////"; "/foo"; "x/"; "abc"; "abc/def"; "abc////def"; "a/b/.x"; "a/b/c."; "a/b/c.x"]
  = ["."; "."; "/"; "/"; "/"; "/"; "x"; "."; "abc"; "abc"; "a/b"; "a/b"; "a/b"].
Proof. vm_compute. reflexivity. Qed.

Example path_Join_cases :
  map path.Join [[]; [""]; ["a"]; ["a"; "b"]; ["a"; ""]; [""; "b"]; ["/"; "a"]; ["/"; ""]; ["a/"; "b"]; ["a/"; ""]; [""; ""]]
  = [""; ""; "a"; "a/b"; "a"; "b"; "/a"; "/"; "a/b"; "a"; ""].
Proof. vm_compute. reflexivity. Qed.

Example strings_Split_cases :
  map strings.Split [""; "/"; "/a/b"; "a//b/"]
  = [[""]; [""; ""]; [""; "a"; "b"]; ["a"; ""; "b"; ""]].
Proof. vm_compute. reflexivity. Qed.

Example fmt_map_v_sorted :
  fmt.map_v (<["zone" := "b"]> (<["arch" := "x"]> (<["os" := "linux"]> ∅)))
  = "map[arch:x os:linux zone:b]".
Proof. vm_compute. reflexivity. Qed.

Example fmt_strings_v : fmt.strings_v ["10.0.0.1"; "10.0.0.2"] = "[10.0.0.1 10.0.0.2]".
Proof. vm_compute. reflexivity. Qed.

Example TypeByPath_cases :
  map TypeByPath
    ["/commands/foo";
     "/envs/x/build1/teams/t1/hosts/web01";
     "/envs/x/build1/teams/t1/hosts/web01/steps/0-initscript";
     "/envs/x/build1/teams/t1/hosts/web01/conn";
     "/envs/x"; "/envs/x/build1"; "/envs/x/build1/teams/t1";
     "/envs/x/build1/teams/t1/networks/dmz"]
  = map Returned
    [LFTypeCommand; LFTypeProvisionedHost; LFTypeProvisioningStep;
     LFTypeConnection; LFTypeEnvironment; LFTypeBuild; LFTypeTeam;
     LFTypeProvisionedNetwork].
Proof. vm_compute. reflexivity. Qed.

Example GetTeamIDFromPath_case :
  GetTeamIDFromPath "/envs/x/build1/teams/t1/networks/dmz/hosts/web01"
  = ("/envs/x/build1/teams/t1", None).
Proof. vm_compute. reflexivity. Qed.

(* ===================================================================== *)
(** ** Path classification *)
(* ===================================================================== *)

Lemma IsAbs_spec p : path.IsAbs p = true <-> exists rest, p = String slash rest.
Proof.
  destruct p as [|a rest]; simpl.
  - split; [discriminate | intros [? ?]; discriminate].
  - unfold is_slash. rewrite Ascii.eqb_eq. split.
    + intros ->. eauto.
    + intros [r Hr]. congruence.
Qed.

Lemma Split_not_nil s : strings.Split s <> [].
Proof.
  destruct s as [|a s]; simpl; [discriminate|].
  destruct (is_slash a); [discriminate|].
  destruct (strings.Split s); discriminate.
Qed.

(** The index [pelms[1]] of [TypeByPath] is always in range: the function
    returns on every path. *)
Lemma TypeByPath_returns p : returns (TypeByPath p).
Proof.
  unfold TypeByPath, returns.
  destruct (path.IsAbs p) eqn:Habs; simpl; [|eauto].
  apply IsAbs_spec in Habs as [rest ->]. simpl.
  change (is_slash slash) with true. simpl.
  destruct (strings.Split rest) as [|x xs] eqn:E.
  - now apply Split_not_nil in E.
  - simpl. eauto.
Qed.

Lemma IsGlobalType_returns p : returns (IsGlobalType p).
Proof.
  unfold IsGlobalType. destruct (TypeByPath_returns p) as [t ->].
  unfold returns. eauto.
Qed.

(** C10: a path that is not absolute, the empty one included, is
    classified as [LFTypeCompetition], not as [LFTypeUnknown], and
    is therefore a global type. *)
Theorem TypeByPath_relative_is_competition (p : string) :
  path.IsAbs p = false ->
  TypeByPath p = Returned LFTypeCompetition
  /\ TypeByPath p <> Returned LFTypeUnknown
  /\ IsGlobalType p = Returned true.
Proof.
  intros Hrel. unfold IsGlobalType, TypeByPath. rewrite Hrel. simpl.
  repeat split; try reflexivity. discriminate.
Qed.

(** The identifier that was never assigned. *)
Lemma TypeByPath_relative_is_competition_unset :
  path.IsAbs "" = false
  /\ TypeByPath "" = Returned LFTypeCompetition
  /\ TypeByPath "" <> Returned LFTypeUnknown
  /\ IsGlobalType "" = Returned true.
Proof.
  split; [reflexivity|].
  apply (TypeByPath_relative_is_competition ""). reflexivity.
Defined.

(** A node whose [ID] is not absolute has the shape of a global node. *)
Lemma Metadata_unset_ID_is_global s m v :
  heap s !! m = Some (OMetadata v) ->
  path.IsAbs (Metadata_ID v) = false ->
  Metadata_IsGlobalType (Some m) s = Returned (true, s)
  /\ Metadata_Shape (Some m) s = Returned ("Mrecord", s).
Proof.
  intros Hm Hrel.
  destruct (TypeByPath_relative_is_competition _ Hrel) as (_ & _ & Hg).
  assert (Metadata_IsGlobalType (Some m) s = Returned (true, s)) as E.
  { unfold Metadata_IsGlobalType, load_Metadata, load, lift, mbind, M_bind, ret, mret, M_ret.
    rewrite Hm, Hg. reflexivity. }
  split; [exact E|].
  unfold Metadata_Shape. unfold mbind at 1. unfold M_bind. rewrite E. reflexivity.
Qed.

(* ===================================================================== *)
(** ** Path validation *)
(* ===================================================================== *)

Lemma list_ascii_of_string_app a b :
  list_ascii_of_string (a +:+ b)
  = (list_ascii_of_string a ++ list_ascii_of_string b)%list.
Proof. induction a as [|c a IH]; simpl; [reflexivity | now rewrite IH]. Qed.

(** The generic expression rejects every path whose last byte is a slash. *)
Lemma genericPathRegexp_trailing_slash p :
  regexp.genericPathRegexp (p +:+ "/") = false.
Proof.
  destruct p as [|a rest]; simpl; [reflexivity|].
  rewrite list_ascii_of_string_app. simpl. rewrite rev_app_distr. simpl.
  apply andb_false_r.
Qed.

Lemma ValidateGenericPath_ok p :
  ValidateGenericPath p = None
  <-> regexp.genericPathRegexp p = true /\ regexp.consecutiveSlashRegexp p = false.
Proof.
  unfold ValidateGenericPath.
  destruct (regexp.genericPathRegexp p), (regexp.consecutiveSlashRegexp p);
    simpl; split; try discriminate; try tauto; intros [? ?]; discriminate.
Qed.

(** The three paths of the design document are accepted. *)
Example ValidateGenericPath_accepts :
  map ValidateGenericPath
    ["/commands/recon-script"; "/networks/dmz";
     "/envs/ctf2024/build1/teams/team-01/networks/dmz"]
  = [None; None; None].
Proof. vm_compute. reflexivity. Qed.

(** Malformed paths and their errors: the empty path, an upper-case
    letter, a character outside the class, a doubled slash. *)
Example ValidateGenericPath_rejects :
  map ValidateGenericPath [""; "/networks/DMZ"; "/networks/d_mz"; "/networks//dmz"]
  = [Some ErrPathContainsInvalidChars; Some ErrPathContainsInvalidChars;
     Some ErrPathContainsInvalidChars; Some ErrPathContainsDuplicateSlash].
Proof. vm_compute. reflexivity. Qed.

(** A byte outside the class anywhere after the first one is reported as
    invalid characters. *)
Lemma ValidateGenericPath_invalid_char a pre c post :
  regexp.path_char c = false ->
  ValidateGenericPath (String a (pre +:+ String c post))
  = Some ErrPathContainsInvalidChars.
Proof.
  intros Hc. unfold ValidateGenericPath.
  assert (regexp.genericPathRegexp (String a (pre +:+ String c post)) = false) as ->;
    [|reflexivity].
  simpl. rewrite list_ascii_of_string_app. simpl.
  rewrite rev_app_distr. simpl.
  destruct (rev (list_ascii_of_string post)) as [|l body] eqn:E; simpl.
  - (* [c] is the last byte *)
    assert (regexp.lower_alnum c = false) as ->.
    { unfold regexp.path_char in Hc.
      destruct (regexp.lower_alnum c); [discriminate | reflexivity]. }
    apply andb_false_r.
  - rewrite !forallb_app. simpl. rewrite Hc. simpl.
    rewrite !andb_false_r. reflexivity.
Qed.

(** C6: a path with a trailing slash is reported as
    [ErrPathContainsInvalidChars]; [ErrPathEndsInSlash] is returned for
    no path at all. *)
Theorem ValidateGenericPath_never_ends_in_slash :
  ValidateGenericPath "/networks/dmz/" = Some ErrPathContainsInvalidChars
  /\ (forall p, ValidateGenericPath (p +:+ "/") = Some ErrPathContainsInvalidChars)
  /\ (forall p, ValidateGenericPath p <> Some ErrPathEndsInSlash).
Proof.
  split; [vm_compute; reflexivity|]. split.
  - intros p. unfold ValidateGenericPath.
    rewrite genericPathRegexp_trailing_slash. reflexivity.
  - intros p. unfold ValidateGenericPath.
    destruct (regexp.genericPathRegexp p); simpl; [|discriminate].
    destruct (regexp.consecutiveSlashRegexp p); discriminate.
Qed.

(* ===================================================================== *)
(** ** Running the monad *)
(* ===================================================================== *)

#[global] Arguments xxhash.Sum64String : simpl never.
#[global] Arguments xxhash.Sum64 : simpl never.
#[global] Arguments fmt.map_v : simpl never.
#[global] Arguments fmt.strings_v : simpl never.
#[global] Arguments fmt.uint64_v : simpl never.
#[global] Arguments fmt.int_v : simpl never.
#[global] Arguments fmt.bool_v : simpl never.
#[global] Arguments path.Join : simpl never.
#[global] Arguments path.Base : simpl never.
#[global] Arguments path.Dir : simpl never.
#[global] Arguments path.Clean : simpl never.
#[global] Arguments String.append : simpl never.
#[global] Arguments String.eqb : simpl never.

Lemma run_bind {A B} (m : M A) (k : A -> M B) (s : State) :
  (m ≫= k) s
  = match m s with
    | Returned (a, s') => k a s'
    | Panicked r => Panicked r
    | Exited c => Exited c
    end.
Proof. reflexivity. Qed.

Lemma run_ret {A} (a : A) (s : State) : ret a s = Returned (a, s).
Proof. reflexivity. Qed.

Lemma run_get (s : State) : get s = Returned (s, s).
Proof. reflexivity. Qed.

Lemma run_emit (e : Event) (s : State) :
  emit e s = Returned (tt, with_trace (trace s ++ [e]) s).
Proof. reflexivity. Qed.

Lemma run_load (s : State) (l : loc) (o : Obj) :
  heap s !! l = Some o -> load (Some l) s = Returned (o, s).
Proof. intros E. unfold load. now rewrite E. Qed.

Lemma run_store (s : State) (l : loc) (o o' : Obj) :
  heap s !! l = Some o ->
  store (Some l) o' s = Returned (tt, with_heap (<[l := o']> (heap s)) s).
Proof. intros E. unfold store. now rewrite E. Qed.

(** A successful load reads the cell and leaves the state as it is. *)
Lemma load_inv (p : ptr) (s s' : State) (o : Obj) :
  load p s = Returned (o, s') -> s' = s /\ exists l, p = Some l /\ heap s !! l = Some o.
Proof.
  unfold load. destruct p as [l|]; [|discriminate].
  destruct (heap s !! l) eqn:E; [|discriminate].
  intros [= -> ->]. eauto.
Qed.

(** The typed loads, one tactic for their fourteen run lemmas. *)
Ltac typed_load E :=
  intros E; unfold load_Network, load_DNSRecord, load_Command, load_RemoteFile,
    load_ProvisioningStep, load_ProvisionedNetwork, load_Connection, load_Team,
    load_Build,
    load_Host, load_Script, load_ProvisionedHost, load_Metadata, load_IO,
    load_OnConflict;
  rewrite run_bind, (run_load _ _ _ E); reflexivity.

Lemma run_load_Network s l v :
  heap s !! l = Some (ONetwork v) -> load_Network (Some l) s = Returned (v, s).
Proof. typed_load E. Qed.

Lemma run_load_DNSRecord s l v :
  heap s !! l = Some (ODNSRecord v) -> load_DNSRecord (Some l) s = Returned (v, s).
Proof. typed_load E. Qed.

Lemma run_load_Command s l v :
  heap s !! l = Some (OCommand v) -> load_Command (Some l) s = Returned (v, s).
Proof. typed_load E. Qed.

Lemma run_load_RemoteFile s l v :
  heap s !! l = Some (ORemoteFile v) -> load_RemoteFile (Some l) s = Returned (v, s).
Proof. typed_load E. Qed.

Lemma run_load_ProvisioningStep s l v :
  heap s !! l = Some (OProvisioningStep v) ->
  load_ProvisioningStep (Some l) s = Returned (v, s).
Proof. typed_load E. Qed.

Lemma run_load_ProvisionedNetwork s l v :
  heap s !! l = Some (OProvisionedNetwork v) ->
  load_ProvisionedNetwork (Some l) s = Returned (v, s).
Proof. typed_load E. Qed.

Lemma run_load_Connection s l v :
  heap s !! l = Some (OConnection v) -> load_Connection (Some l) s = Returned (v, s).
Proof. typed_load E. Qed.

Lemma run_load_ProvisionedHost s l v :
  heap s !! l = Some (OProvisionedHost v) ->
  load_ProvisionedHost (Some l) s = Returned (v, s).
Proof. typed_load E. Qed.

Lemma run_load_Host s l v :
  heap s !! l = Some (OHost v) -> load_Host (Some l) s = Returned (v, s).
Proof. typed_load E. Qed.

Lemma run_load_Metadata s l v :
  heap s !! l = Some (OMetadata v) -> load_Metadata (Some l) s = Returned (v, s).
Proof. typed_load E. Qed.

(** One step of a run: the leading bind is opened and the loads whose
    cell is known are resolved. *)
Ltac run_step :=
  first
    [ rewrite run_bind
    | rewrite run_ret
    | rewrite run_get
    | rewrite run_emit
    | erewrite run_load_Network by eassumption
    | erewrite run_load_DNSRecord by eassumption
    | erewrite run_load_Command by eassumption
    | erewrite run_load_RemoteFile by eassumption
    | erewrite run_load_ProvisioningStep by eassumption
    | erewrite run_load_ProvisionedNetwork by eassumption
    | erewrite run_load_Connection by eassumption
    | erewrite run_load_ProvisionedHost by eassumption
    | erewrite run_load_Host by eassumption
    | erewrite run_load_Metadata by eassumption
    | erewrite run_store by eassumption ].

Ltac run := repeat (run_step; cbn beta iota).

(* ===================================================================== *)
(** ** Hashing and the identity fields *)
(* ===================================================================== *)

Section HashLabel.

Context `{Externals}.

Lemma Network_Hash_run s l v :
  heap s !! l = Some (ONetwork v) ->
  Network_Hash (Some l) s
  = Returned (xxhash.Sum64String
                ("name=" +:+ Network_Name v +:+
                 " cidr=" +:+ Network_CIDR v +:+
                 " vdivisible=" +:+ fmt.bool_v (Network_VDIVisible v) +:+
                 " vars=" +:+ HashConfigMap (Network_Vars v)), s).
Proof. intros E. unfold Network_Hash. run. reflexivity. Qed.

End HashLabel.

Lemma run_lift {A} (o : outcome A) s :
  lift o s = match o with
             | Returned a => Returned (a, s)
             | Panicked r => Panicked r
             | Exited c => Exited c
             end.
Proof. reflexivity. Qed.

Section HashLabelled.

Context `{Externals}.

(** The value of a connection's hash, from its fields. *)
Lemma Connection_Hash_value s l v :
  heap s !! l = Some (OConnection v) ->
  value (Connection_Hash (Some l) s)
  = match (if bool_decide (Connection_WinRMAuthConfig v ≠ None)
           then WinRMAuthConfig_Hash (heap s) (Connection_WinRMAuthConfig v)
           else Returned 666),
          (if bool_decide (Connection_SSHAuthConfig v ≠ None)
           then SSHAuthConfig_Hash (heap s) (Connection_SSHAuthConfig v)
           else Returned 666)
    with
    | Returned wrmc, Returned sshc =>
        Returned (xxhash.Sum64String
           ("id=" +:+ Connection_ID v +:+
            " localaddr=" +:+ Connection_LocalAddr v +:+
            " rmaddr=" +:+ Connection_RemoteAddr v +:+
            " rname=" +:+ Connection_ResourceName v +:+
            " sshc=" +:+ fmt.uint64_v sshc +:+
            " wrmc=" +:+ fmt.uint64_v wrmc))
    | Returned _, Panicked r => Panicked r
    | Returned _, Exited c => Exited c
    | Panicked r, _ => Panicked r
    | Exited c, _ => Exited c
    end.
Proof.
  intros E. unfold Connection_Hash, Connection_IsWinRM, Connection_IsSSH. run.
  destruct (bool_decide (Connection_WinRMAuthConfig v ≠ None)); run;
    [rewrite run_lift; destruct (WinRMAuthConfig_Hash _ _); try reflexivity|];
    run;
    (destruct (bool_decide (Connection_SSHAuthConfig v ≠ None)); run;
     [rewrite run_lift; destruct (SSHAuthConfig_Hash _ _); try reflexivity|];
     run; reflexivity).
Qed.

(** C1, as the code has it: two objects of one kind in a store that differ
    at most in [ID] and [Caller] have the same checksum for Network,
    DNSRecord, Command, RemoteFile, ProvisioningStep and
    ProvisionedNetwork; two Connections have the same checksum when they
    differ at most in [Caller], their [ID] being part of what is hashed. *)
Theorem Hash_ignores_label (k : Kind) (s : State) (l1 l2 : loc) (o1 o2 : Obj) :
  heap s !! l1 = Some o1 ->
  heap s !! l2 = Some o2 ->
  relabelled o1 o2 ->
  Obj_kind o1 = Some k ->
  (k = KConnection -> Obj_ID o2 = Obj_ID o1) ->
  value (Hash k (Some l1) s) = value (Hash k (Some l2) s).
Proof.
  intros E1 E2 R K Hconn.
  destruct R; simpl in K; injection K as <-; unfold Hash.
  - unfold Network_Hash. run. reflexivity.
  - unfold DNSRecord_Hash. run. reflexivity.
  - unfold Command_Hash. run. reflexivity.
  - unfold RemoteFile_Hash, RemoteFile_ResourceHash, RemoteFile_Path, ReadFile.
    run. simpl.
    destruct (files s !! RemoteFile_AbsPath v) as [[]|]; run; reflexivity.
  - unfold ProvisioningStep_Hash. run. reflexivity.
  - unfold ProvisionedNetwork_Hash. run. reflexivity.
  - specialize (Hconn eq_refl). simpl in Hconn. subst id.
    rewrite (Connection_Hash_value _ _ _ E1), (Connection_Hash_value _ _ _ E2).
    reflexivity.
Qed.

End HashLabelled.

(** The redeclared connection hashes as the original one. *)
Lemma Hash_ignores_label_connections :
  heap three_connections !! 0%nat = Some (OConnection web01_conn)
  /\ heap three_connections !! 2%nat = Some (OConnection web01_conn_redeclared)
  /\ relabelled (OConnection web01_conn) (OConnection web01_conn_redeclared)
  /\ Connection_ID web01_conn_redeclared = Connection_ID web01_conn
  /\ value (Hash (H := sample_externals) KConnection (Some 0%nat) three_connections)
     = value (Hash (H := sample_externals) KConnection (Some 2%nat) three_connections).
Proof.
  split; [reflexivity|]. split; [reflexivity|].
  split; [apply relabelled_Connection|]. split; [reflexivity|].
  apply (Hash_ignores_label (H := sample_externals) KConnection three_connections
           0%nat 2%nat (OConnection web01_conn) (OConnection web01_conn_redeclared)).
  - reflexivity.
  - reflexivity.
  - apply relabelled_Connection.
  - reflexivity.
  - intros _. reflexivity.
Defined.

(** C1, as stated, fails on Connection: the connection moved to another
    path differs from the original one in [ID] only, and its checksum is
    another one. *)
Lemma Connection_Hash_depends_on_ID :
  relabelled (OConnection web01_conn) (OConnection web01_conn_moved)
  /\ heap three_connections !! 0%nat = Some (OConnection web01_conn)
  /\ heap three_connections !! 1%nat = Some (OConnection web01_conn_moved)
  /\ value (Hash (H := sample_externals) KConnection (Some 0%nat) three_connections)
     <> value (Hash (H := sample_externals) KConnection (Some 1%nat) three_connections).
Proof.
  split; [apply relabelled_Connection|].
  split; [reflexivity|]. split; [reflexivity|].
  vm_compute. discriminate.
Qed.

(* ===================================================================== *)
(** ** Unreadable assets *)
(* ===================================================================== *)

Section Unreadable.

Context `{Externals}.

(** On an unreadable file [ResourceHash] prints one line and returns 666. *)
Lemma RemoteFile_ResourceHash_unreadable s r v :
  heap s !! r = Some (ORemoteFile v) ->
  unreadable s (RemoteFile_AbsPath v) = true ->
  exists e,
    RemoteFile_ResourceHash (Some r) s
    = Returned (666, with_trace
                       (trace s ++
                        [EvPrintf "dependency error for %s: %s could not be read: %v"
                                  [RemoteFile_ID v; RemoteFile_AbsPath v] e]) s).
Proof.
  intros E U. unfold unreadable in U.
  unfold RemoteFile_ResourceHash, RemoteFile_Path, ReadFile. run.
  destruct (files s !! RemoteFile_AbsPath v) as [[]|]; try discriminate;
    run; eauto.
Qed.

Lemma RemoteFile_Hash_unreadable s r v :
  heap s !! r = Some (ORemoteFile v) ->
  unreadable s (RemoteFile_AbsPath v) = true ->
  value (RemoteFile_Hash (Some r) s)
  = Returned (xxhash.Sum64String (RemoteFile_preimage v 666)).
Proof.
  intros E U. unfold RemoteFile_Hash. run.
  destruct (RemoteFile_ResourceHash_unreadable s r v E U) as [e ->].
  run. reflexivity.
Qed.

(** On a readable file the resource hash is the digest of the content. *)
Lemma RemoteFile_ResourceHash_readable s r v content :
  heap s !! r = Some (ORemoteFile v) ->
  files s !! RemoteFile_AbsPath v = Some (Regular content) ->
  RemoteFile_ResourceHash (Some r) s = Returned (xxhash.Sum64 content, s).
Proof.
  intros E F. unfold RemoteFile_ResourceHash, ReadFile. run. rewrite F. run.
  reflexivity.
Qed.

(** C7: for a RemoteFile whose [AbsPath] cannot be read, [ResourceHash]
    returns the one non-zero sentinel 666, [Hash] still returns a
    checksum, and a second RemoteFile with another unreadable [AbsPath]
    and otherwise the same fields has the same checksum. *)
Theorem RemoteFile_unreadable_sentinel (s : State) (r1 r2 : loc) (v : RemoteFile)
    (other : string) :
  heap s !! r1 = Some (ORemoteFile v) ->
  heap s !! r2 = Some (ORemoteFile (RemoteFile_set_AbsPath other v)) ->
  unreadable s (RemoteFile_AbsPath v) = true ->
  unreadable s other = true ->
  value (RemoteFile_ResourceHash (Some r1) s) = Returned 666
  /\ value (RemoteFile_ResourceHash (Some r2) s) = Returned 666
  /\ 666 <> 0
  /\ returns (value (RemoteFile_Hash (Some r1) s))
  /\ value (RemoteFile_Hash (Some r1) s) = value (RemoteFile_Hash (Some r2) s).
Proof.
  intros E1 E2 U1 U2.
  destruct (RemoteFile_ResourceHash_unreadable s r1 _ E1 U1) as [e1 R1].
  destruct (RemoteFile_ResourceHash_unreadable s r2 _ E2 U2) as [e2 R2].
  rewrite R1, R2.
  rewrite (RemoteFile_Hash_unreadable s r1 _ E1 U1).
  rewrite (RemoteFile_Hash_unreadable s r2 _ E2 U2).
  repeat split; try reflexivity; [discriminate | unfold returns; eauto].
Qed.

End Unreadable.

(** The missing file and the directory: two different broken assets, one
    checksum. *)
Lemma RemoteFile_unreadable_sentinel_assets :
  heap broken_assets !! 0%nat = Some (ORemoteFile banner_file)
  /\ heap broken_assets !! 1%nat = Some (ORemoteFile banner_dir)
  /\ unreadable broken_assets (RemoteFile_AbsPath banner_file) = true
  /\ unreadable broken_assets (RemoteFile_AbsPath banner_dir) = true
  /\ RemoteFile_AbsPath banner_file <> RemoteFile_AbsPath banner_dir
  /\ value (RemoteFile_Hash (Some 0%nat) broken_assets)
     = value (RemoteFile_Hash (Some 1%nat) broken_assets).
Proof.
  split; [reflexivity|]. split; [reflexivity|]. split; [reflexivity|].
  split; [reflexivity|]. split; [discriminate|].
  apply (RemoteFile_unreadable_sentinel broken_assets 0%nat 1%nat banner_file
           "/srv/laforge/assets"); reflexivity.
Defined.

(** A readable asset does change the checksum. *)
Example RemoteFile_Hash_readable_differs :
  value (RemoteFile_Hash (Some 2%nat) broken_assets)
  <> value (RemoteFile_Hash (Some 0%nat) broken_assets).
Proof. vm_compute. discriminate. Qed.

(* ===================================================================== *)
(** ** Errors that end the process *)
(* ===================================================================== *)

(** [Label] panics exactly on a nil [Dependency]. *)
Lemma Metadata_Label_panics_iff_nil s m v :
  heap s !! m = Some (OMetadata v) ->
  (Metadata_Dependency v = inil ->
   Metadata_Label (Some m) s
   = Panicked ("could not find dependency for " +:+ Metadata_ID v))
  /\ (Metadata_Dependency v <> inil ->
      exists text, Metadata_Label (Some m) s = Returned (text, s)).
Proof.
  intros E. unfold Metadata_Label. run.
  destruct (Metadata_Dependency v); split; intros D; try congruence; eauto.
Qed.

Section Fatal.

Context `{Externals}.

(** [MD5Sum] returns the error of [os.Open]. *)
Lemma RemoteFile_MD5Sum_missing s r v :
  heap s !! r = Some (ORemoteFile v) ->
  files s !! RemoteFile_AbsPath v = None ->
  RemoteFile_MD5Sum (Some r) s
  = Returned (("", Some (PathError "open" (RemoteFile_AbsPath v) no_such_file)), s).
Proof.
  intros E F. unfold RemoteFile_MD5Sum, Open. run. rewrite F. run. reflexivity.
Qed.

(** [MD5Sum] hands the error of the copy to [log.Fatal]: the process
    exits. *)
Lemma RemoteFile_MD5Sum_read_error s r v :
  heap s !! r = Some (ORemoteFile v) ->
  files s !! RemoteFile_AbsPath v = Some Directory ->
  RemoteFile_MD5Sum (Some r) s = Exited 1.
Proof.
  intros E F. unfold RemoteFile_MD5Sum, Open. run. rewrite F. run. reflexivity.
Qed.

End Fatal.

(** C9: besides the panic of [Label], [MD5Sum] ends the process on an
    asset that opens but cannot be read (here a directory), while on a
    missing asset it returns the error. *)
Theorem RemoteFile_MD5Sum_exits :
  heap broken_assets !! 1%nat = Some (ORemoteFile banner_dir)
  /\ files broken_assets !! RemoteFile_AbsPath banner_dir = Some Directory
  /\ RemoteFile_MD5Sum (H := sample_externals) (Some 1%nat) broken_assets = Exited 1
  /\ value (RemoteFile_MD5Sum (H := sample_externals) (Some 0%nat) broken_assets)
     = Returned ("", Some (PathError "open" "/srv/laforge/assets/banner.txt"
                                     no_such_file)).
Proof.
  split; [reflexivity|]. split; [reflexivity|]. split.
  - apply (RemoteFile_MD5Sum_read_error (H := sample_externals)
             broken_assets 1%nat banner_dir); reflexivity.
  - vm_compute. reflexivity.
Qed.

(* ===================================================================== *)
(** ** Swap *)
(* ===================================================================== *)

Section SwapProperties.

Context `{Externals}.

(** The seven methods reject any argument of another dynamic type, with
    the state as it was. *)
Lemma Swap_mismatch (k : Kind) (receiver : ptr) (m : iface) (s : State) :
  mergeable k = true ->
  (forall p, m <> iptr k p) ->
  Swap k receiver m s
  = Returned (Some (errors.Wrapf ErrSwapTypeMismatch "expected %T, got %T"
                      [typeName (iptr k receiver); typeName m]), s).
Proof.
  intros Hk Hm.
  destruct k; try discriminate; simpl;
    (destruct m as [|k' p]; [reflexivity|];
     destruct k'; try reflexivity; exfalso; now apply (Hm p)).
Qed.

(** With an argument of the receiver's type, the content of the
    argument's cell is copied over the receiver's cell. *)
Lemma Swap_same_kind (k : Kind) (receiver other : loc) (o o' : Obj) (s : State) :
  mergeable k = true ->
  heap s !! receiver = Some o -> Obj_kind o = Some k ->
  heap s !! other = Some o' -> Obj_kind o' = Some k ->
  Swap k (Some receiver) (iptr k (Some other)) s
  = Returned (None, with_heap (<[receiver := o']> (heap s)) s).
Proof.
  intros Hk E K E' K'.
  destruct k; try discriminate;
    destruct o; try discriminate; destruct o'; try discriminate;
    unfold Swap, Network_Swap, DNSRecord_Swap, Command_Swap, RemoteFile_Swap,
      ProvisioningStep_Swap, ProvisionedNetwork_Swap, Connection_Swap;
    run; reflexivity.
Qed.

(** C2: on a live receiver of a mergeable kind, [Swap] with an argument
    of another concrete kind returns an error that wraps
    [ErrSwapTypeMismatch] and leaves the state, hence both operands, as
    they were; with a live argument of the same kind it returns nil and
    the receiver's cell holds the argument's whole value, pointers
    included, nothing else being changed. *)
Theorem Swap_replaces_or_rejects (k : Kind) (s : State) (receiver : loc) (o : Obj) :
  mergeable k = true ->
  heap s !! receiver = Some o ->
  Obj_kind o = Some k ->
  (forall m, (forall p, m <> iptr k p) ->
     exists e,
       Swap k (Some receiver) m s = Returned (Some e, s)
       /\ (exists format args, e = withMessage ErrSwapTypeMismatch format args)
       /\ errors.Cause e = errors.Cause ErrSwapTypeMismatch)
  /\ (forall other o',
        heap s !! other = Some o' -> Obj_kind o' = Some k ->
        exists s',
          Swap k (Some receiver) (iptr k (Some other)) s = Returned (None, s')
          /\ heap s' !! receiver = Some o'
          /\ heap s' !! other = Some o'
          /\ (forall l, l <> receiver -> heap s' !! l = heap s !! l)
          /\ files s' = files s /\ trace s' = trace s).
Proof.
  intros Hk E K. split.
  - intros m Hm. eexists. split; [apply (Swap_mismatch k _ m s Hk Hm)|].
    split; [unfold errors.Wrapf; eauto | reflexivity].
  - intros other o' E' K'. eexists.
    split; [apply (Swap_same_kind k receiver other o o' s); assumption|].
    simpl. split; [apply lookup_insert_eq|]. split.
    + destruct (decide (receiver = other)) as [->|Hne].
      * apply lookup_insert_eq.
      * rewrite lookup_insert_ne by exact Hne. exact E'.
    + split; [|split; reflexivity].
      intros l Hl. apply lookup_insert_ne. congruence.
Qed.

End SwapProperties.

(** The record, its override and a network: the override replaces the
    record, the network is rejected. *)
Lemma Swap_replaces_or_rejects_records :
  mergeable KDNSRecord = true
  /\ heap two_records !! 0%nat = Some (ODNSRecord www_record)
  /\ (exists e,
        Swap (H := sample_externals) KDNSRecord (Some 0%nat)
             (iptr KNetwork (Some 2%nat)) two_records
        = Returned (Some e, two_records)
        /\ errors.Cause e = ErrSwapTypeMismatch (Externals := sample_externals))
  /\ (exists s',
        Swap (H := sample_externals) KDNSRecord (Some 0%nat)
             (iptr KDNSRecord (Some 1%nat)) two_records
        = Returned (None, s')
        /\ heap s' !! 0%nat = Some (ODNSRecord www_override)
        /\ heap s' !! 1%nat = Some (ODNSRecord www_override)).
Proof.
  split; [reflexivity|]. split; [reflexivity|].
  destruct (Swap_replaces_or_rejects (H := sample_externals) KDNSRecord two_records
              0%nat (ODNSRecord www_record) eq_refl eq_refl eq_refl)
    as [Hreject Hreplace].
  split.
  - destruct (Hreject (iptr KNetwork (Some 2%nat))) as (e & Hrun & _ & Hcause).
    { intros p. discriminate. }
    exists e. split; [exact Hrun | exact Hcause].
  - destruct (Hreplace 1%nat (ODNSRecord www_override) eq_refl eq_refl)
      as (s' & Hrun & Hreceiver & Hother & _).
    exists s'. repeat split; assumption.
Defined.

(* ===================================================================== *)
(** ** Computations that only add to the trace *)
(* ===================================================================== *)

Lemma quiet_ret {A} (a : A) : quiet (ret a).
Proof. intros s a' s' [= <- <-]. auto. Qed.

Lemma quiet_bind {A B} (m : M A) (k : A -> M B) :
  quiet m -> (forall a, quiet (k a)) -> quiet (m ≫= k).
Proof.
  intros Hm Hk s b s'. rewrite run_bind.
  destruct (m s) as [[a s1]| |] eqn:E; try discriminate.
  intros Hrun.
  destruct (Hm _ _ _ E) as (E1 & E2 & E3).
  destruct (Hk a _ _ _ Hrun) as (F1 & F2 & F3).
  rewrite F1, F2, F3. auto.
Qed.

Lemma quiet_get : quiet get.
Proof. intros s a s' [= <- <-]. auto. Qed.

Lemma quiet_emit e : quiet (emit e).
Proof. intros s a s' [= <- <-]. auto. Qed.

Lemma quiet_panic {A} r : quiet (@panic A r).
Proof. intros s a s' [=]. Qed.

Lemma quiet_lift {A} (o : outcome A) : quiet (lift o).
Proof. intros s a s'. rewrite run_lift. destruct o; intros [=]; subst; auto. Qed.

Lemma quiet_load p : quiet (load p).
Proof. intros s o s' Hrun. apply load_inv in Hrun as [-> _]. auto. Qed.

Create HintDb quiet.

#[global] Hint Resolve quiet_ret quiet_get quiet_emit quiet_panic quiet_lift
  quiet_load : quiet.

Ltac quiet_step :=
  first
    [ solve [auto with quiet]
    | apply quiet_bind; [|intros]
    | match goal with
      | |- quiet (match ?x with _ => _ end) => destruct x
      | |- quiet ill_typed => apply quiet_panic
      end ].

Ltac quiet := repeat quiet_step.

Lemma quiet_load_Network p : quiet (load_Network p).
Proof. unfold load_Network. quiet. Qed.

Lemma quiet_load_DNSRecord p : quiet (load_DNSRecord p).
Proof. unfold load_DNSRecord. quiet. Qed.

Lemma quiet_load_Command p : quiet (load_Command p).
Proof. unfold load_Command. quiet. Qed.

Lemma quiet_load_RemoteFile p : quiet (load_RemoteFile p).
Proof. unfold load_RemoteFile. quiet. Qed.

Lemma quiet_load_ProvisioningStep p : quiet (load_ProvisioningStep p).
Proof. unfold load_ProvisioningStep. quiet. Qed.

Lemma quiet_load_ProvisionedNetwork p : quiet (load_ProvisionedNetwork p).
Proof. unfold load_ProvisionedNetwork. quiet. Qed.

Lemma quiet_load_Connection p : quiet (load_Connection p).
Proof. unfold load_Connection. quiet. Qed.

Lemma quiet_load_IO p : quiet (load_IO p).
Proof. unfold load_IO. quiet. Qed.

#[global] Hint Resolve quiet_load_Network quiet_load_DNSRecord quiet_load_Command
  quiet_load_RemoteFile quiet_load_ProvisioningStep quiet_load_ProvisionedNetwork
  quiet_load_Connection quiet_load_IO : quiet.

Section QuietHash.

Context `{Externals}.

Lemma quiet_Network_Hash p : quiet (Network_Hash p).
Proof. unfold Network_Hash. quiet. Qed.

Lemma quiet_DNSRecord_Hash p : quiet (DNSRecord_Hash p).
Proof. unfold DNSRecord_Hash. quiet. Qed.

Lemma quiet_Command_Hash p : quiet (Command_Hash p).
Proof. unfold Command_Hash. quiet. Qed.

Lemma quiet_RemoteFile_Hash p : quiet (RemoteFile_Hash p).
Proof.
  unfold RemoteFile_Hash, RemoteFile_ResourceHash, RemoteFile_Path, ReadFile. quiet.
Qed.

Hint Resolve quiet_Network_Hash quiet_DNSRecord_Hash quiet_Command_Hash
  quiet_RemoteFile_Hash : quiet.

Lemma quiet_Provisioner_Hash v : quiet (Provisioner_Hash v).
Proof. unfold Provisioner_Hash. quiet. Qed.

Hint Resolve quiet_Provisioner_Hash : quiet.

Lemma quiet_ProvisioningStep_Hash p : quiet (ProvisioningStep_Hash p).
Proof. unfold ProvisioningStep_Hash. quiet. Qed.

Lemma quiet_ProvisionedNetwork_Hash p : quiet (ProvisionedNetwork_Hash p).
Proof. unfold ProvisionedNetwork_Hash. quiet. Qed.

Lemma quiet_Connection_Hash p : quiet (Connection_Hash p).
Proof. unfold Connection_Hash, Connection_IsWinRM, Connection_IsSSH. quiet. Qed.

Hint Resolve quiet_ProvisioningStep_Hash quiet_ProvisionedNetwork_Hash
  quiet_Connection_Hash : quiet.

Lemma quiet_Hash k p : quiet (Hash k p).
Proof. unfold Hash. quiet. Qed.

Lemma quiet_Dependency_Hash d : quiet (Dependency_Hash d).
Proof. unfold Dependency_Hash. pose proof quiet_Hash. quiet. Qed.

End QuietHash.

(* ===================================================================== *)
(** ** The memoized checksum of a node *)
(* ===================================================================== *)

Section Memo.

Context `{Externals}.

(** With a non-zero checksum stored, [Hash] returns it and does nothing
    else: the state, trace included, is the one before the call. *)
Lemma Metadata_Hash_kept s m v :
  heap s !! m = Some (OMetadata v) ->
  Metadata_Checksum v <> 0 ->
  Metadata_Hash (Some m) s = Returned (Metadata_Checksum v, s).
Proof.
  intros E Hnz. unfold Metadata_Hash. run.
  destruct (Z.eqb_spec (Metadata_Checksum v) 0) as [?|_]; [contradiction|].
  run. reflexivity.
Qed.

Lemma Metadata_Hash_again s m v n :
  heap s !! m = Some (OMetadata v) ->
  Metadata_Checksum v <> 0 ->
  again n (Metadata_Hash (Some m)) s = Returned (Metadata_Checksum v, s).
Proof.
  intros E Hnz. induction n as [|n IH]; simpl.
  - now apply Metadata_Hash_kept.
  - rewrite run_bind, (Metadata_Hash_kept s m v E Hnz). exact IH.
Qed.

(** [CalculateChecksum] forwards to the dependency and stores the result. *)
Lemma Metadata_CalculateChecksum_run s m v :
  heap s !! m = Some (OMetadata v) ->
  Metadata_CalculateChecksum (Some m) s
  = match Dependency_Hash (Metadata_Dependency v) s with
    | Returned (c, s1) =>
        Returned (tt, with_heap (<[m := OMetadata (Metadata_set_Checksum c v)]>
                                   (heap s1)) s1)
    | Panicked r => Panicked r
    | Exited c => Exited c
    end.
Proof.
  intros E. unfold Metadata_CalculateChecksum. run.
  destruct (Dependency_Hash (Metadata_Dependency v) s) as [[c s1]| |] eqn:D;
    try reflexivity.
  destruct (quiet_Dependency_Hash _ _ _ _ D) as (Hh & _ & _).
  assert (heap s1 !! m = Some (OMetadata v)) as E1 by (rewrite Hh; exact E).
  run. reflexivity.
Qed.

(** With the checksum at zero, [Hash] is [CalculateChecksum] followed by
    a read of the field. *)
Lemma Metadata_Hash_zero s m v :
  heap s !! m = Some (OMetadata v) ->
  Metadata_Checksum v = 0 ->
  Metadata_Hash (Some m) s
  = match Dependency_Hash (Metadata_Dependency v) s with
    | Returned (c, s1) =>
        Returned (c, with_heap (<[m := OMetadata (Metadata_set_Checksum c v)]>
                                  (heap s1)) s1)
    | Panicked r => Panicked r
    | Exited c => Exited c
    end.
Proof.
  intros E Hz. unfold Metadata_Hash. run. rewrite Hz. simpl.
  rewrite (Metadata_CalculateChecksum_run s m v E).
  destruct (Dependency_Hash (Metadata_Dependency v) s) as [[c s1]| |] eqn:D;
    try reflexivity.
  assert (heap (with_heap (<[m := OMetadata (Metadata_set_Checksum c v)]> (heap s1)) s1)
          !! m = Some (OMetadata (Metadata_set_Checksum c v))) as E1
    by apply lookup_insert_eq.
  run. reflexivity.
Qed.

(** The interface call leaves its mark first. *)
Lemma Dependency_Hash_recorded d s :
  d <> inil ->
  Dependency_Hash d s
  = match d with
    | iptr k p => Hash k p (with_trace (trace s ++ [EvHashCall d]) s)
    | inil => Panicked nil_dereference
    end.
Proof. destruct d; [congruence|]. intros _. unfold Dependency_Hash. run. reflexivity. Qed.

End Memo.

Section Memoized.

Context `{Externals}.

(** C3: while the stored checksum is not zero, every [Hash] call, however
    many and whatever the rest of the state has become, returns the
    stored value and leaves the state, trace included, untouched: the
    dependency's [Hash] is not called.  With the stored checksum at zero
    (and only then) [Hash] forwards to the dependency's [Hash], stores
    what it returns and returns it, as [CalculateChecksum] does. *)
Theorem Metadata_Hash_memoized (s : State) (m : loc) (v : Metadata) :
  heap s !! m = Some (OMetadata v) ->
  (Metadata_Checksum v <> 0 ->
   forall n, again n (Metadata_Hash (Some m)) s = Returned (Metadata_Checksum v, s))
  /\ (Metadata_Checksum v = 0 ->
      Metadata_Hash (Some m) s
      = match Dependency_Hash (Metadata_Dependency v) s with
        | Returned (c, s1) =>
            Returned (c, with_heap (<[m := OMetadata (Metadata_set_Checksum c v)]>
                                      (heap s1)) s1)
        | Panicked r => Panicked r
        | Exited c => Exited c
        end)
  /\ Metadata_CalculateChecksum (Some m) s
     = match Dependency_Hash (Metadata_Dependency v) s with
       | Returned (c, s1) =>
           Returned (tt, with_heap (<[m := OMetadata (Metadata_set_Checksum c v)]>
                                      (heap s1)) s1)
       | Panicked r => Panicked r
       | Exited c => Exited c
       end.
Proof.
  intros E. split; [|split].
  - intros Hnz n. now apply Metadata_Hash_again.
  - intros Hz. now apply Metadata_Hash_zero.
  - now apply Metadata_CalculateChecksum_run.
Qed.

End Memoized.

(** The sentinel scenario: the checksum computed first survives the
    renaming of the network, for any number of calls and without a call
    of the network's [Hash]; after the reset to zero the next [Hash]
    calls it and returns the checksum of the renamed network. *)
Lemma Metadata_Hash_memoized_sentinel :
  Metadata_CalculateChecksum (H := sample_externals) (Some 1%nat) node_fresh
  = Returned (tt, node_computed)
  /\ heap node_stale !! 1%nat
     = Some (OMetadata (Metadata_set_Checksum dmz_checksum dmz_node))
  /\ dmz_checksum <> 0
  /\ dmz_checksum <> perimeter_checksum
  /\ again 3 (Metadata_Hash (H := sample_externals) (Some 1%nat)) node_stale
     = Returned (dmz_checksum, node_stale)
  /\ heap node_reset !! 1%nat = Some (OMetadata dmz_node)
  /\ exists s',
       Metadata_Hash (H := sample_externals) (Some 1%nat) node_reset
       = Returned (perimeter_checksum, s')
       /\ trace s' = (trace node_reset ++ [EvHashCall (iptr KNetwork (Some 0%nat))])%list.
Proof.
  split; [vm_compute; reflexivity|].
  split; [reflexivity|].
  split; [vm_compute; discriminate|].
  split; [vm_compute; discriminate|].
  destruct (Metadata_Hash_memoized (H := sample_externals) node_stale 1%nat
              (Metadata_set_Checksum dmz_checksum dmz_node) eq_refl)
    as (Hkept & _ & _).
  split; [apply Hkept; vm_compute; discriminate|].
  split; [reflexivity|].
  destruct (Metadata_Hash_memoized (H := sample_externals) node_reset 1%nat
              dmz_node eq_refl) as (_ & Hzero & _).
  exists (with_heap
            (<[1%nat := OMetadata (Metadata_set_Checksum perimeter_checksum dmz_node)]>
               (heap node_reset))
            (with_trace (trace node_reset ++ [EvHashCall (iptr KNetwork (Some 0%nat))])
               node_reset)).
  split; [|reflexivity].
  refine (eq_trans (Hzero eq_refl) _). vm_compute. reflexivity.
Defined.

(* ===================================================================== *)
(** ** Clean absolute paths *)
(* ===================================================================== *)

Lemma append_cons (x : ascii) (a b : string) : String x a +:+ b = String x (a +:+ b).
Proof. reflexivity. Qed.

Lemma append_nil_l (s : string) : "" +:+ s = s.
Proof. reflexivity. Qed.

Lemma append_nil_r (s : string) : s +:+ "" = s.
Proof.
  induction s as [|a s IH]; [reflexivity|]. now rewrite append_cons, IH.
Qed.

Lemma append_assoc (a b c : string) : (a +:+ b) +:+ c = a +:+ (b +:+ c).
Proof.
  induction a as [|x a IH]; [reflexivity|]. now rewrite !append_cons, IH.
Qed.

Lemma HasSlash_cons a s :
  strings.HasSlash (String a s) = is_slash a || strings.HasSlash s.
Proof. reflexivity. Qed.

Lemma plain_no_slash e : plain e = true -> strings.HasSlash e = false.
Proof.
  unfold plain. rewrite !andb_true_iff, !negb_true_iff. tauto.
Qed.

Lemma abs_path_app l1 l2 : abs_path (l1 ++ l2) = abs_path l1 +:+ abs_path l2.
Proof.
  induction l1 as [|e l1 IH]; simpl; [reflexivity|].
  now rewrite IH, !append_assoc.
Qed.

Lemma abs_path_cons e l : abs_path (e :: l) = String slash (e +:+ abs_path l).
Proof. reflexivity. Qed.

(** [strings.Split] in front of an element without slash. *)
Lemma strings_Split_prefix e x :
  strings.HasSlash e = false ->
  strings.Split (e +:+ x)
  = (e +:+ hd "" (strings.Split x)) :: tl (strings.Split x).
Proof.
  induction e as [|a e IH]; intros He.
  - rewrite !append_nil_l.
    pose proof (Split_not_nil x). destruct (strings.Split x); [congruence | reflexivity].
  - rewrite HasSlash_cons in He. apply orb_false_iff in He as [Ha He].
    rewrite append_cons. simpl. rewrite Ha, (IH He). reflexivity.
Qed.

(** The elements of a clean absolute path, with or without a final slash. *)
Lemma strings_Split_abs_path_slash l :
  Forall (fun e => plain e = true) l ->
  strings.Split (abs_path l +:+ "/") = "" :: l ++ [""].
Proof.
  induction 1 as [|e l He Hl IH]; [reflexivity|].
  rewrite abs_path_cons, append_cons, append_assoc.
  simpl strings.Split. change (is_slash slash) with true. cbn iota.
  rewrite (strings_Split_prefix e _ (plain_no_slash e He)), IH.
  now rewrite append_nil_r.
Qed.

Lemma strings_Split_abs_path l :
  Forall (fun e => plain e = true) l -> l <> [] ->
  strings.Split (abs_path l) = "" :: l.
Proof.
  induction 1 as [|e l He Hl IH]; [congruence|]. intros _.
  rewrite abs_path_cons. simpl strings.Split.
  change (is_slash slash) with true. cbn iota.
  rewrite (strings_Split_prefix e _ (plain_no_slash e He)).
  destruct l as [|e' l'].
  - simpl. now rewrite append_nil_r.
  - rewrite IH by discriminate. now rewrite append_nil_r.
Qed.

(** [Clean] keeps plain elements and drops empty ones. *)
Lemma clean_step_plain rooted stack e :
  plain e = true -> path.clean_step rooted stack e = e :: stack.
Proof.
  unfold plain, path.clean_step.
  rewrite !andb_true_iff, !negb_true_iff. intros [[[-> ->] ->] _]. reflexivity.
Qed.

Lemma clean_step_empty rooted stack : path.clean_step rooted stack "" = stack.
Proof. reflexivity. Qed.

Lemma clean_fold_plain rooted l stack :
  Forall (fun e => plain e = true) l ->
  fold_left (path.clean_step rooted) l stack = (rev l ++ stack)%list.
Proof.
  intros Hl. revert stack. induction Hl as [|e l He Hl IH]; intros stack.
  - reflexivity.
  - simpl. rewrite (clean_step_plain _ _ _ He), IH.
    now rewrite <- app_assoc.
Qed.

Lemma Join_abs_path l :
  l <> [] -> "/" +:+ strings.Join l "/" = abs_path l.
Proof.
  induction l as [|e l IH]; [congruence|]. intros _.
  destruct l as [|e' l'].
  - simpl. now rewrite append_nil_r.
  - change (strings.Join (e :: e' :: l') "/")
      with (e +:+ "/" +:+ strings.Join (e' :: l') "/").
    rewrite abs_path_cons. rewrite <- IH by discriminate. reflexivity.
Qed.

Lemma abs_path_not_empty l : l <> [] -> abs_path l <> "".
Proof. destruct l; [congruence | discriminate]. Qed.

Lemma Clean_elements p l :
  path.IsAbs p = true -> p <> "" ->
  fold_left (path.clean_step true) (strings.Split p) [] = rev l ->
  l <> [] ->
  path.Clean p = abs_path l.
Proof.
  intros Habs Hne Hfold Hl. unfold path.Clean.
  destruct (String.eqb_spec p ""); [contradiction|].
  rewrite Habs, Hfold, rev_involutive. now apply Join_abs_path.
Qed.

(** A clean absolute path is a fixed point of [Clean], ... *)
Lemma Clean_abs_path l :
  Forall (fun e => plain e = true) l -> l <> [] ->
  path.Clean (abs_path l) = abs_path l.
Proof.
  intros Hl Hne. apply Clean_elements; try assumption.
  - destruct l; [congruence | reflexivity].
  - now apply abs_path_not_empty.
  - rewrite (strings_Split_abs_path l Hl Hne).
    simpl fold_left. rewrite clean_step_empty.
    rewrite (clean_fold_plain true l [] Hl). now rewrite app_nil_r.
Qed.

(** ... and a final slash is cleaned away. *)
Lemma Clean_abs_path_slash l :
  Forall (fun e => plain e = true) l -> l <> [] ->
  path.Clean (abs_path l +:+ "/") = abs_path l.
Proof.
  intros Hl Hne. apply Clean_elements; try assumption.
  - destruct l; [congruence | reflexivity].
  - destruct l; [congruence | discriminate].
  - rewrite (strings_Split_abs_path_slash l Hl).
    simpl fold_left. rewrite clean_step_empty.
    rewrite fold_left_app, (clean_fold_plain true l [] Hl).
    simpl fold_left. rewrite clean_step_empty. now rewrite app_nil_r.
Qed.

(** [path.Split] cuts at the last slash. *)
Lemma path_Split_no_slash e :
  strings.HasSlash e = false -> path.Split e = ("", e).
Proof.
  induction e as [|a e IH]; [reflexivity|].
  rewrite HasSlash_cons. intros H. apply orb_false_iff in H as [Ha He].
  simpl. rewrite (IH He), Ha. reflexivity.
Qed.

Lemma path_Split_last p e :
  strings.HasSlash e = false ->
  path.Split (p +:+ String slash e) = (p +:+ "/", e).
Proof.
  intros He. induction p as [|a p IH].
  - simpl. rewrite (path_Split_no_slash e He).
    change (is_slash slash) with true. reflexivity.
  - rewrite append_cons. simpl. rewrite IH.
    destruct (is_slash a); [reflexivity|].
    destruct p; reflexivity.
Qed.

(** One level up from a clean absolute path. *)
Lemma Dir_abs_path l e :
  Forall (fun x => plain x = true) l -> l <> [] -> plain e = true ->
  path.Dir (abs_path (l ++ [e])) = abs_path l.
Proof.
  intros Hl Hne He. unfold path.Dir.
  rewrite abs_path_app. simpl abs_path. rewrite append_nil_r.
  change ("/" +:+ e) with (String slash e).
  rewrite (path_Split_last _ e (plain_no_slash e He)). simpl fst.
  now apply Clean_abs_path_slash.
Qed.

(** Two levels up. *)
Lemma Dir_Dir_abs_path l a b :
  Forall (fun x => plain x = true) l -> l <> [] ->
  plain a = true -> plain b = true ->
  path.Dir (path.Dir (abs_path (l ++ [a; b]))) = abs_path l.
Proof.
  intros Hl Hne Ha Hb.
  change (l ++ [a; b])%list with (l ++ ([a] ++ [b]))%list. rewrite app_assoc.
  rewrite Dir_abs_path; try assumption.
  - now apply Dir_abs_path.
  - apply Forall_app. split; [assumption | now constructor].
  - destruct l; discriminate.
Qed.


Lemma abs_path_extension l rest :
  rest <> [] -> abs_path (l ++ rest) <> abs_path l.
Proof.
  intros Hrest Heq. rewrite abs_path_app in Heq.
  assert (forall x y, String.length (x +:+ y)
          = (String.length x + String.length y)%nat) as Hlen.
  { intros x y. induction x as [|c x IH]; [reflexivity|].
    rewrite append_cons. simpl. now rewrite IH. }
  apply (f_equal String.length) in Heq. rewrite Hlen in Heq.
  destruct rest as [|e rest]; [congruence|].
  rewrite abs_path_cons in Heq. simpl in Heq. lia.
Qed.

(* ===================================================================== *)
(** ** The parent of a provisioned network and of a provisioning step *)
(* ===================================================================== *)

Lemma run_ParentLaforgeID (k : Kind) (s : State) (p : loc) (o : Obj) :
  k = KProvisionedNetwork \/ k = KProvisioningStep ->
  heap s !! p = Some o -> Obj_kind o = Some k ->
  ParentLaforgeID k (Some p) s = Returned (path.Dir (path.Dir (Obj_ID o)), s).
Proof.
  intros [-> | ->] E K; destruct o; try discriminate; simpl;
    unfold ProvisionedNetwork_ParentLaforgeID, ProvisionedNetwork_LaforgeID,
      ProvisioningStep_ParentLaforgeID, ProvisioningStep_LaforgeID;
    run; reflexivity.
Qed.

(** C4, as the code has it: for a ProvisionedNetwork or ProvisioningStep
    whose [ID] is a clean absolute path [owner/a/b], [ParentLaforgeID]
    returns the path two levels up, [owner], which is the path of no
    proper ancestor of [owner].  With [ID]s as [SetID] builds them
    ([team/networks/name], [host/steps/n-name]) that is the path of the
    Team, respectively of the ProvisionedHost, not of the Build. *)
Theorem ParentLaforgeID_two_levels_up
    (k : Kind) (s : State) (p : loc) (o : Obj) (owner : list string) (a b : string) :
  k = KProvisionedNetwork \/ k = KProvisioningStep ->
  heap s !! p = Some o ->
  Obj_kind o = Some k ->
  Forall (fun e => plain e = true) owner ->
  owner <> [] ->
  plain a = true ->
  plain b = true ->
  Obj_ID o = abs_path (owner ++ [a; b]) ->
  ParentLaforgeID k (Some p) s = Returned (abs_path owner, s)
  /\ (forall ancestor rest,
        owner = (ancestor ++ rest)%list -> rest <> [] ->
        abs_path owner <> abs_path ancestor).
Proof.
  intros Hk E K Howner Hne Ha Hb Hid. split.
  - rewrite (run_ParentLaforgeID k s p o Hk E K), Hid.
    now rewrite Dir_Dir_abs_path.
  - intros ancestor rest -> Hrest. now apply abs_path_extension.
Qed.

(** The provisioned network of the deployed team: two levels up is the
    team, three elements below the build. *)
Lemma ParentLaforgeID_two_levels_up_dmz :
  heap deployed !! 13%nat = Some (OProvisionedNetwork dmz_provisioned)
  /\ ProvisionedNetwork_ID dmz_provisioned
     = abs_path (["envs"; "ctf2024"; "build1"; "teams"; "team-01"] ++ ["networks"; "dmz"])
  /\ ParentLaforgeID KProvisionedNetwork (Some 13%nat) deployed
     = Returned (abs_path ["envs"; "ctf2024"; "build1"; "teams"; "team-01"], deployed)
  /\ abs_path ["envs"; "ctf2024"; "build1"; "teams"; "team-01"]
     <> abs_path ["envs"; "ctf2024"; "build1"].
Proof.
  split; [reflexivity|]. split; [reflexivity|].
  destruct (ParentLaforgeID_two_levels_up KProvisionedNetwork deployed 13%nat
              (OProvisionedNetwork dmz_provisioned)
              ["envs"; "ctf2024"; "build1"; "teams"; "team-01"] "networks" "dmz")
    as [Hrun Hproper].
  - left. reflexivity.
  - reflexivity.
  - reflexivity.
  - repeat constructor.
  - discriminate.
  - reflexivity.
  - reflexivity.
  - reflexivity.
  - split; [exact Hrun|].
    apply (Hproper ["envs"; "ctf2024"; "build1"] ["teams"; "team-01"]);
      [reflexivity | discriminate].
Defined.

(** C4, as stated, fails: the parent of the provisioned network is the
    path of its Team, the parent of the provisioning step is the path of
    its ProvisionedHost, and neither is the path of the owning Build. *)
Lemma ParentLaforgeID_is_not_the_build :
  heap deployed !! 13%nat = Some (OProvisionedNetwork dmz_provisioned)
  /\ heap deployed !! 17%nat = Some (OProvisioningStep web01_step)
  /\ ProvisionedNetwork_Build dmz_provisioned = Some 10%nat
  /\ ProvisioningStep_Build web01_step = Some 10%nat
  /\ heap deployed !! 10%nat = Some (OBuild {| Build_ID := "/envs/ctf2024/build1" |})
  /\ TypeByPath (ProvisionedNetwork_ID dmz_provisioned) = Returned LFTypeProvisionedNetwork
  /\ TypeByPath (ProvisioningStep_ID web01_step) = Returned LFTypeProvisioningStep
  /\ value (ParentLaforgeID KProvisionedNetwork (Some 13%nat) deployed)
     = Returned "/envs/ctf2024/build1/teams/team-01"
  /\ value (ParentLaforgeID KProvisioningStep (Some 17%nat) deployed)
     = Returned "/envs/ctf2024/build1/teams/team-01/networks/dmz/hosts/web01"
  /\ value (ParentLaforgeID KProvisionedNetwork (Some 13%nat) deployed)
     <> Returned "/envs/ctf2024/build1"
  /\ value (ParentLaforgeID KProvisioningStep (Some 17%nat) deployed)
     <> Returned "/envs/ctf2024/build1".
Proof.
  repeat split; try reflexivity; vm_compute; discriminate.
Qed.

(* ===================================================================== *)
(** ** SetID *)
(* ===================================================================== *)

Lemma run_load_Team s l v :
  heap s !! l = Some (OTeam v) -> load_Team (Some l) s = Returned (v, s).
Proof. typed_load E. Qed.

Lemma with_heap_same s : with_heap (heap s) s = s.
Proof. destruct s; reflexivity. Qed.

Lemma store_same s l o :
  heap s !! l = Some o -> with_heap (<[l := o]> (heap s)) s = s.
Proof. intros E. rewrite (insert_id _ _ _ E). apply with_heap_same. Qed.

Lemma with_heap_twice h1 h2 s : with_heap h2 (with_heap h1 s) = with_heap h2 s.
Proof. reflexivity. Qed.

(** A typed load that returns has read its cell. *)
Lemma load_ProvisionedHost_inv p s v s' :
  load_ProvisionedHost p s = Returned (v, s') ->
  s' = s /\ exists l, p = Some l /\ heap s !! l = Some (OProvisionedHost v).
Proof.
  unfold load_ProvisionedHost. rewrite run_bind.
  destruct (load p s) as [[o s1]| |] eqn:L; try discriminate.
  apply load_inv in L as (-> & l & -> & E).
  destruct o; try discriminate. intros [= -> ->]. eauto.
Qed.

Lemma load_Team_inv p s v s' :
  load_Team p s = Returned (v, s') ->
  s' = s /\ exists l, p = Some l /\ heap s !! l = Some (OTeam v).
Proof.
  unfold load_Team. rewrite run_bind.
  destruct (load p s) as [[o s1]| |] eqn:L; try discriminate.
  apply load_inv in L as (-> & l & -> & E).
  destruct o; try discriminate. intros [= -> ->]. eauto.
Qed.

Lemma load_Network_inv p s v s' :
  load_Network p s = Returned (v, s') ->
  s' = s /\ exists l, p = Some l /\ heap s !! l = Some (ONetwork v).
Proof.
  unfold load_Network. rewrite run_bind.
  destruct (load p s) as [[o s1]| |] eqn:L; try discriminate.
  apply load_inv in L as (-> & l & -> & E).
  destruct o; try discriminate. intros [= -> ->]. eauto.
Qed.

(** [path.Clean] never returns the empty string, hence neither does
    [path.Join] on a list with a non-empty element. *)
Lemma clean_step_keeps_nonempty rooted stack e :
  Forall (fun x => x <> "") stack ->
  Forall (fun x => x <> "") (path.clean_step rooted stack e).
Proof.
  intros Hs. unfold path.clean_step.
  destruct (String.eqb_spec e ""); [assumption|].
  destruct (String.eqb_spec e "."); [assumption|].
  destruct (String.eqb_spec e "..").
  - destruct stack as [|top below].
    + destruct rooted; [constructor | now repeat constructor].
    + destruct (String.eqb top "..").
      * now constructor.
      * now inversion Hs.
  - now constructor.
Qed.

Lemma clean_fold_keeps_nonempty rooted l stack :
  Forall (fun x => x <> "") stack ->
  Forall (fun x => x <> "") (fold_left (path.clean_step rooted) l stack).
Proof.
  revert stack. induction l as [|e l IH]; intros stack Hs; [assumption|].
  simpl. apply IH. now apply clean_step_keeps_nonempty.
Qed.

Lemma strings_Join_not_empty l sep :
  l <> [] -> Forall (fun x => x <> "") l -> strings.Join l sep <> "".
Proof.
  intros Hne Hl. destruct l as [|x [|y l]]; [congruence| |].
  - simpl. now inversion Hl.
  - change (strings.Join (x :: y :: l) sep) with (x +:+ sep +:+ strings.Join (y :: l) sep).
    inversion Hl as [|? ? Hx _]; subst.
    destruct x; [congruence|]. rewrite append_cons. discriminate.
Qed.

Lemma Clean_not_empty p : path.Clean p <> "".
Proof.
  unfold path.Clean. destruct (String.eqb p ""); [discriminate|].
  set (kept := rev (fold_left _ _ _)).
  assert (Forall (fun x => x <> "") kept) as Hkept.
  { apply Forall_rev. apply clean_fold_keeps_nonempty. constructor. }
  destruct (path.IsAbs p); [discriminate|].
  destruct kept as [|x kept'] eqn:E; [discriminate|].
  apply strings_Join_not_empty; [discriminate | assumption].
Qed.

Lemma Join_not_empty a rest : a <> "" -> path.Join (a :: rest) <> "".
Proof.
  intros Ha. unfold path.Join. destruct (String.eqb_spec a ""); [contradiction|].
  apply Clean_not_empty.
Qed.

Lemma Join_second_not_empty a b rest : b <> "" -> path.Join (a :: b :: rest) <> "".
Proof.
  intros Hb. unfold path.Join. destruct (String.eqb_spec a "").
  - fold path.Join. now apply Join_not_empty.
  - apply Clean_not_empty.
Qed.

Lemma eqb_false_of_ne (a b : string) : a <> b -> String.eqb a b = false.
Proof. intros Hne. now destruct (String.eqb_spec a b). Qed.

(** *** Connection *)

Lemma Connection_SetID_assigned s c v :
  heap s !! c = Some (OConnection v) ->
  Connection_ID v <> "" ->
  Connection_SetID (Some c) s = Returned (Connection_ID v, s).
Proof.
  intros E Hid. unfold Connection_SetID. run.
  rewrite (eqb_false_of_ne _ _ Hid). run. reflexivity.
Qed.

Lemma Connection_SetID_unassigned s c v :
  heap s !! c = Some (OConnection v) ->
  Connection_ID v = "" ->
  Connection_SetID (Some c) s
  = match load_ProvisionedHost (Connection_ProvisionedHost v) s with
    | Returned (host, _) =>
        let id := path.Join [ProvisionedHost_ID host; "conn"] in
        Returned (id, with_heap (<[c := OConnection (Connection_set_ID id v)]> (heap s)) s)
    | Panicked r => Panicked r
    | Exited code => Exited code
    end.
Proof.
  intros E Hid. unfold Connection_SetID, ProvisionedHost_LaforgeID. run.
  rewrite Hid. change (String.eqb "" "") with true. cbn iota. run.
  destruct (load_ProvisionedHost (Connection_ProvisionedHost v) s)
    as [[host s1]| |] eqn:L; try reflexivity.
  apply load_ProvisionedHost_inv in L as (-> & _). run.
  set (id := path.Join [ProvisionedHost_ID host; "conn"]).
  assert (heap (with_heap (<[c := OConnection (Connection_set_ID id v)]> (heap s)) s)
          !! c = Some (OConnection (Connection_set_ID id v))) as E1
    by apply lookup_insert_eq.
  run. reflexivity.
Qed.

Lemma Connection_SetID_twice s c v id s1 :
  heap s !! c = Some (OConnection v) ->
  Connection_SetID (Some c) s = Returned (id, s1) ->
  Connection_SetID (Some c) s1 = Returned (id, s1)
  /\ exists v1, heap s1 !! c = Some (OConnection v1) /\ Connection_ID v1 = id
                /\ id <> "".
Proof.
  intros E Hrun. destruct (String.eqb_spec (Connection_ID v) "") as [Hid|Hid].
  - rewrite (Connection_SetID_unassigned s c v E Hid) in Hrun.
    destruct (load_ProvisionedHost _ s) as [[host s0]| |]; try discriminate.
    cbv zeta in Hrun. injection Hrun as <- <-.
    set (id := path.Join [ProvisionedHost_ID host; "conn"]).
    assert (id <> "") as Hne by (apply Join_second_not_empty; discriminate).
    split.
    + apply (Connection_SetID_assigned _ c (Connection_set_ID id v));
        [apply lookup_insert_eq | exact Hne].
    + eexists. split; [apply lookup_insert_eq|]. split; [reflexivity | exact Hne].
  - rewrite (Connection_SetID_assigned s c v E Hid) in Hrun.
    injection Hrun as <- <-. split.
    + now apply Connection_SetID_assigned.
    + eauto.
Qed.

(** *** Computations that only read *)

Lemma readonly_ret {A} (a : A) : readonly (ret a).
Proof. intros s a' s' [= <- <-]. reflexivity. Qed.

Lemma readonly_bind {A B} (m : M A) (k : A -> M B) :
  readonly m -> (forall a, readonly (k a)) -> readonly (m ≫= k).
Proof.
  intros Hm Hk s b s'. rewrite run_bind.
  destruct (m s) as [[a s1]| |] eqn:E; try discriminate.
  intros Hrun. rewrite (Hk a _ _ _ Hrun). exact (Hm _ _ _ E).
Qed.

Lemma readonly_panic {A} r : readonly (@panic A r).
Proof. intros s a s' [=]. Qed.

Lemma readonly_load p : readonly (load p).
Proof. intros s o s' Hrun. now apply load_inv in Hrun as [-> _]. Qed.

Create HintDb readonly.

#[global] Hint Resolve readonly_ret readonly_panic readonly_load : readonly.

Ltac readonly_step :=
  first
    [ solve [auto with readonly]
    | apply readonly_bind; [|intros]
    | match goal with
      | |- readonly (match ?x with _ => _ end) => destruct x
      | |- readonly ill_typed => apply readonly_panic
      end ].

Ltac readonly := repeat readonly_step.

Lemma readonly_ProvisionedHost_Path p : readonly (ProvisionedHost_Path p).
Proof. unfold ProvisionedHost_Path, load_ProvisionedHost. readonly. Qed.

Lemma readonly_Provisioner_Base v : readonly (Provisioner_Base v).
Proof.
  unfold Provisioner_Base, Command_Base, DNSRecord_Base, RemoteFile_Base,
    load_Command, load_DNSRecord, load_RemoteFile, load_Script.
  readonly.
Qed.

Lemma readonly_Team_Path p : readonly (Team_Path p).
Proof. unfold Team_Path, load_Team. readonly. Qed.

Lemma readonly_Network_Base p : readonly (Network_Base p).
Proof. unfold Network_Base, load_Network. readonly. Qed.

(** *** ProvisioningStep *)

Lemma ProvisioningStep_typed_ID v :
  ProvisioningStep_ID (ProvisioningStep_typed v) = ProvisioningStep_ID v.
Proof.
  unfold ProvisioningStep_typed.
  destruct (ProvisioningStep_Provisioner v) as [|[] q]; reflexivity.
Qed.

Lemma ProvisioningStep_typed_typed v :
  ProvisioningStep_typed (ProvisioningStep_typed v) = ProvisioningStep_typed v.
Proof.
  unfold ProvisioningStep_typed.
  destruct (ProvisioningStep_Provisioner v) as [|[] q] eqn:E; simpl;
    rewrite ?E; reflexivity.
Qed.

Lemma ProvisioningStep_assign_ID_assigned s p v :
  heap s !! p = Some (OProvisioningStep v) ->
  ProvisioningStep_ID v <> "" ->
  ProvisioningStep_assign_ID (Some p) s = Returned (tt, s).
Proof.
  intros E Hid. unfold ProvisioningStep_assign_ID. run.
  rewrite (eqb_false_of_ne _ _ Hid). reflexivity.
Qed.

Lemma ProvisioningStep_assign_ID_unassigned s p v s1 :
  heap s !! p = Some (OProvisioningStep v) ->
  ProvisioningStep_ID v = "" ->
  ProvisioningStep_assign_ID (Some p) s = Returned (tt, s1) ->
  exists id, id <> ""
    /\ s1 = with_heap (<[p := OProvisioningStep (ProvisioningStep_set_ID id v)]> (heap s)) s.
Proof.
  intros E Hid. unfold ProvisioningStep_assign_ID. run.
  rewrite Hid. change (String.eqb "" "") with true. cbn iota. run.
  destruct (ProvisionedHost_Path _ s) as [[host s']| |] eqn:P; try discriminate.
  apply readonly_ProvisionedHost_Path in P as ->. run.
  destruct (Provisioner_Base _ s) as [[base s']| |] eqn:B; try discriminate.
  apply readonly_Provisioner_Base in B as ->. run.
  intros [= <-]. eexists. split; [|reflexivity].
  apply Join_second_not_empty. discriminate.
Qed.

Lemma ProvisioningStep_assign_provisioner_run s p v :
  heap s !! p = Some (OProvisioningStep v) ->
  ProvisioningStep_assign_provisioner (Some p) s
  = Returned (tt, with_heap (<[p := OProvisioningStep (ProvisioningStep_typed v)]>
                               (heap s)) s).
Proof.
  intros E. unfold ProvisioningStep_assign_provisioner, ProvisioningStep_typed. run.
  destruct (ProvisioningStep_Provisioner v) as [|[] q]; run;
    try reflexivity; now rewrite (store_same s p _ E).
Qed.

(** With a path already there, [SetID] returns it; the one cell it
    writes is the step's own, with the typed view of its provisioner. *)
Lemma ProvisioningStep_SetID_assigned s p v :
  heap s !! p = Some (OProvisioningStep v) ->
  ProvisioningStep_ID v <> "" ->
  ProvisioningStep_SetID (Some p) s
  = Returned (ProvisioningStep_ID v,
              with_heap (<[p := OProvisioningStep (ProvisioningStep_typed v)]>
                           (heap s)) s).
Proof.
  intros E Hid. unfold ProvisioningStep_SetID.
  rewrite run_bind, (ProvisioningStep_assign_ID_assigned s p v E Hid).
  rewrite run_bind, (ProvisioningStep_assign_provisioner_run s p v E).
  set (s1 := with_heap _ s).
  assert (heap s1 !! p = Some (OProvisioningStep (ProvisioningStep_typed v))) as E1
    by apply lookup_insert_eq.
  run. now rewrite ProvisioningStep_typed_ID.
Qed.

Lemma ProvisioningStep_SetID_twice s p v id s1 :
  heap s !! p = Some (OProvisioningStep v) ->
  ProvisioningStep_SetID (Some p) s = Returned (id, s1) ->
  ProvisioningStep_SetID (Some p) s1 = Returned (id, s1)
  /\ exists v1, heap s1 !! p = Some (OProvisioningStep v1)
                /\ ProvisioningStep_ID v1 = id /\ id <> "".
Proof.
  intros E Hrun.
  assert (exists v0 s0,
            heap s0 !! p = Some (OProvisioningStep v0)
            /\ ProvisioningStep_ID v0 <> ""
            /\ ProvisioningStep_SetID (Some p) s0 = Returned (id, s1)) as (v0 & s0 & E0 & Hid0 & Hrun0).
  { destruct (String.eqb_spec (ProvisioningStep_ID v) "") as [Hid|Hid].
    - unfold ProvisioningStep_SetID in Hrun. rewrite run_bind in Hrun.
      destruct (ProvisioningStep_assign_ID (Some p) s) as [[[] s0]| |] eqn:A;
        try discriminate.
      destruct (ProvisioningStep_assign_ID_unassigned s p v s0 E Hid A)
        as (id0 & Hne & ->).
      exists (ProvisioningStep_set_ID id0 v).
      exists (with_heap (<[p := OProvisioningStep (ProvisioningStep_set_ID id0 v)]>
                           (heap s)) s).
      split; [apply lookup_insert_eq|]. split; [exact Hne|].
      unfold ProvisioningStep_SetID. rewrite run_bind.
      erewrite ProvisioningStep_assign_ID_assigned;
        [exact Hrun | apply lookup_insert_eq | exact Hne].
    - exists v, s. auto. }
  rewrite (ProvisioningStep_SetID_assigned s0 p v0 E0 Hid0) in Hrun0.
  injection Hrun0 as <- <-.
  set (s1 := with_heap _ s0).
  assert (heap s1 !! p = Some (OProvisioningStep (ProvisioningStep_typed v0))) as E1
    by apply lookup_insert_eq.
  split.
  - rewrite (ProvisioningStep_SetID_assigned s1 p _ E1)
      by now rewrite ProvisioningStep_typed_ID.
    rewrite ProvisioningStep_typed_typed, ProvisioningStep_typed_ID.
    now rewrite (store_same s1 p _ E1).
  - eexists. split; [exact E1|]. split; [apply ProvisioningStep_typed_ID | exact Hid0].
Qed.

(** *** ProvisionedNetwork *)

Lemma readonly_Network_Path p : readonly (Network_Path p).
Proof. unfold Network_Path, load_Network. readonly. Qed.

Lemma ProvisionedNetwork_assign_ID_assigned s p v :
  heap s !! p = Some (OProvisionedNetwork v) ->
  ProvisionedNetwork_ID v <> "" ->
  ProvisionedNetwork_assign_ID (Some p) s = Returned (tt, s).
Proof.
  intros E Hid. unfold ProvisionedNetwork_assign_ID. run.
  rewrite (eqb_false_of_ne _ _ Hid). reflexivity.
Qed.

Lemma ProvisionedNetwork_assign_ID_unassigned s p v s1 :
  heap s !! p = Some (OProvisionedNetwork v) ->
  ProvisionedNetwork_ID v = "" ->
  ProvisionedNetwork_assign_ID (Some p) s = Returned (tt, s1) ->
  exists id, id <> ""
    /\ s1 = with_heap (<[p := OProvisionedNetwork (ProvisionedNetwork_set_ID id v)]>
                         (heap s)) s.
Proof.
  intros E Hid. unfold ProvisionedNetwork_assign_ID. run.
  rewrite Hid. change (String.eqb "" "") with true. cbn iota. run.
  destruct (Team_Path _ s) as [[team s']| |] eqn:T; try discriminate.
  apply readonly_Team_Path in T as ->. run.
  destruct (Network_Base _ s) as [[base s']| |] eqn:B; try discriminate.
  apply readonly_Network_Base in B as ->. run.
  intros [= <-]. eexists. split; [|reflexivity].
  apply Join_second_not_empty. discriminate.
Qed.

Lemma ProvisionedNetwork_assign_NetworkID_assigned s p v :
  heap s !! p = Some (OProvisionedNetwork v) ->
  ProvisionedNetwork_NetworkID v <> "" ->
  ProvisionedNetwork_assign_NetworkID (Some p) s = Returned (tt, s).
Proof.
  intros E Hid. unfold ProvisionedNetwork_assign_NetworkID. run.
  rewrite (eqb_false_of_ne _ _ Hid). reflexivity.
Qed.

Lemma ProvisionedNetwork_assign_NetworkID_run s p v ln n :
  heap s !! p = Some (OProvisionedNetwork v) ->
  ProvisionedNetwork_NetworkID v = "" ->
  ProvisionedNetwork_Network v = Some ln ->
  heap s !! ln = Some (ONetwork n) ->
  ProvisionedNetwork_assign_NetworkID (Some p) s
  = Returned (tt, with_heap
                    (<[p := OProvisionedNetwork
                              (ProvisionedNetwork_set_NetworkID (Network_ID n) v)]>
                       (heap s)) s).
Proof.
  intros E Hid Hn En. unfold ProvisionedNetwork_assign_NetworkID, Network_Path. run.
  rewrite Hid, Hn. change (String.eqb "" "") with true. cbn iota. run.
  reflexivity.
Qed.

Lemma ProvisionedNetwork_assign_NetworkID_unassigned s p v s1 :
  heap s !! p = Some (OProvisionedNetwork v) ->
  ProvisionedNetwork_NetworkID v = "" ->
  ProvisionedNetwork_assign_NetworkID (Some p) s = Returned (tt, s1) ->
  exists ln n,
    ProvisionedNetwork_Network v = Some ln
    /\ heap s !! ln = Some (ONetwork n)
    /\ s1 = with_heap
              (<[p := OProvisionedNetwork
                        (ProvisionedNetwork_set_NetworkID (Network_ID n) v)]>
                 (heap s)) s.
Proof.
  intros E Hid Hrun.
  assert (exists ln n, ProvisionedNetwork_Network v = Some ln
                       /\ heap s !! ln = Some (ONetwork n)) as (ln & n & Hn & En).
  { revert Hrun. unfold ProvisionedNetwork_assign_NetworkID, Network_Path. run.
    rewrite Hid. change (String.eqb "" "") with true. cbn iota. run.
    destruct (load_Network _ s) as [[n s']| |] eqn:L; try discriminate.
    apply load_Network_inv in L as (_ & ln & Hn & En). eauto. }
  rewrite (ProvisionedNetwork_assign_NetworkID_run s p v ln n E Hid Hn En) in Hrun.
  injection Hrun as <-. eauto.
Qed.

(** With both fields already there, [SetID] only reads. *)
Lemma ProvisionedNetwork_SetID_assigned s p v :
  heap s !! p = Some (OProvisionedNetwork v) ->
  ProvisionedNetwork_ID v <> "" ->
  ProvisionedNetwork_NetworkID v <> "" ->
  ProvisionedNetwork_SetID (Some p) s = Returned (ProvisionedNetwork_ID v, s).
Proof.
  intros E Hid Hnid. unfold ProvisionedNetwork_SetID.
  rewrite run_bind, (ProvisionedNetwork_assign_ID_assigned s p v E Hid).
  rewrite run_bind, (ProvisionedNetwork_assign_NetworkID_assigned s p v E Hnid).
  run. reflexivity.
Qed.

(** With a path already there, what [SetID] returns is that path. *)
Lemma ProvisionedNetwork_SetID_keeps_ID s p v id s1 :
  heap s !! p = Some (OProvisionedNetwork v) ->
  ProvisionedNetwork_ID v <> "" ->
  ProvisionedNetwork_SetID (Some p) s = Returned (id, s1) ->
  id = ProvisionedNetwork_ID v
  /\ exists nid, s1 = with_heap
                        (<[p := OProvisionedNetwork
                                  (ProvisionedNetwork_set_NetworkID nid v)]>
                           (heap s)) s.
Proof.
  intros E Hid. unfold ProvisionedNetwork_SetID.
  rewrite run_bind, (ProvisionedNetwork_assign_ID_assigned s p v E Hid).
  rewrite run_bind.
  destruct (String.eqb_spec (ProvisionedNetwork_NetworkID v) "") as [Hnid|Hnid].
  - destruct (ProvisionedNetwork_assign_NetworkID (Some p) s) as [[[] s2]| |] eqn:B;
      try discriminate.
    destruct (ProvisionedNetwork_assign_NetworkID_unassigned s p v s2 E Hnid B)
      as (ln & n & Hn & En & ->).
    set (v2 := ProvisionedNetwork_set_NetworkID (Network_ID n) v).
    set (s2 := with_heap _ s).
    assert (heap s2 !! p = Some (OProvisionedNetwork v2)) as E2 by apply lookup_insert_eq.
    run. intros [= <- <-]. eauto.
  - rewrite (ProvisionedNetwork_assign_NetworkID_assigned s p v E Hnid). run.
    intros [= <- <-]. split; [reflexivity|].
    exists (ProvisionedNetwork_NetworkID v).
    replace (ProvisionedNetwork_set_NetworkID (ProvisionedNetwork_NetworkID v) v) with v
      by (destruct v; reflexivity).
    now rewrite (store_same s p _ E).
Qed.

Lemma ProvisionedNetwork_SetID_twice s p v id s1 :
  heap s !! p = Some (OProvisionedNetwork v) ->
  ProvisionedNetwork_SetID (Some p) s = Returned (id, s1) ->
  ProvisionedNetwork_SetID (Some p) s1 = Returned (id, s1)
  /\ exists v1, heap s1 !! p = Some (OProvisionedNetwork v1)
                /\ ProvisionedNetwork_ID v1 = id /\ id <> "".
Proof.
  intros E Hrun.
  (* after the first statement the path is there *)
  assert (exists v0 s0,
            heap s0 !! p = Some (OProvisionedNetwork v0)
            /\ ProvisionedNetwork_ID v0 <> ""
            /\ ProvisionedNetwork_SetID (Some p) s0 = Returned (id, s1))
    as (v0 & s0 & E0 & Hid0 & Hrun0).
  { destruct (String.eqb_spec (ProvisionedNetwork_ID v) "") as [Hid|Hid].
    - unfold ProvisionedNetwork_SetID in Hrun. rewrite run_bind in Hrun.
      destruct (ProvisionedNetwork_assign_ID (Some p) s) as [[[] s0]| |] eqn:A;
        try discriminate.
      destruct (ProvisionedNetwork_assign_ID_unassigned s p v s0 E Hid A)
        as (id0 & Hne & ->).
      exists (ProvisionedNetwork_set_ID id0 v).
      exists (with_heap (<[p := OProvisionedNetwork (ProvisionedNetwork_set_ID id0 v)]>
                           (heap s)) s).
      split; [apply lookup_insert_eq|]. split; [exact Hne|].
      unfold ProvisionedNetwork_SetID. rewrite run_bind.
      erewrite ProvisionedNetwork_assign_ID_assigned;
        [exact Hrun | apply lookup_insert_eq | exact Hne].
    - exists v, s. auto. }
  clear dependent s. clear v.
  (* the second statement, on a cell whose path is there *)
  pose proof Hrun0 as Hrun.
  unfold ProvisionedNetwork_SetID in Hrun0.
  rewrite run_bind, (ProvisionedNetwork_assign_ID_assigned s0 p v0 E0 Hid0) in Hrun0.
  rewrite run_bind in Hrun0.
  destruct (String.eqb_spec (ProvisionedNetwork_NetworkID v0) "") as [Hnid|Hnid].
  - destruct (ProvisionedNetwork_assign_NetworkID (Some p) s0) as [[[] s2]| |] eqn:B;
      try discriminate.
    destruct (ProvisionedNetwork_assign_NetworkID_unassigned s0 p v0 s2 E0 Hnid B)
      as (ln & n & Hn & En & ->).
    set (v2 := ProvisionedNetwork_set_NetworkID (Network_ID n) v0) in *.
    set (s2 := with_heap _ s0) in *.
    assert (heap s2 !! p = Some (OProvisionedNetwork v2)) as E2 by apply lookup_insert_eq.
    revert Hrun0. run. intros [= <- <-].
    assert (ln <> p) as Hlp by (intros ->; congruence).
    assert (heap s2 !! ln = Some (ONetwork n)) as En2.
    { unfold s2. simpl. rewrite lookup_insert_ne by congruence. exact En. }
    split; [|eexists; split; [exact E2|]; split; [reflexivity | exact Hid0]].
    destruct (String.eqb_spec (Network_ID n) "") as [Hempty|Hfilled].
    + (* the network has no path either: the same empty value is stored again *)
      unfold ProvisionedNetwork_SetID.
      rewrite run_bind, (ProvisionedNetwork_assign_ID_assigned s2 p v2 E2 Hid0).
      rewrite run_bind.
      rewrite (ProvisionedNetwork_assign_NetworkID_run s2 p v2 ln n E2 Hempty Hn En2).
      replace (ProvisionedNetwork_set_NetworkID (Network_ID n) v2) with v2
        by reflexivity.
      rewrite (store_same s2 p _ E2). run. reflexivity.
    + now apply (ProvisionedNetwork_SetID_assigned s2 p v2 E2 Hid0).
  - rewrite (ProvisionedNetwork_assign_NetworkID_assigned s0 p v0 E0 Hnid) in Hrun0.
    revert Hrun0. run. intros [= <- <-].
    split; [now apply ProvisionedNetwork_SetID_assigned | eauto].
Qed.

(** *** The three kinds together *)

(** C5, as the code has it: a [SetID] that returned is followed by a
    [SetID] that returns the same, non-empty, path and changes nothing;
    a path that is already there is never replaced and is the one
    returned.  Only on a Connection is the call on an assigned path a
    no-op; on a ProvisioningStep it returns as well, and may write the
    typed provisioner field. *)
Theorem SetID_idempotent (k : Kind) (s : State) (p : loc) (o : Obj) :
  sets_ID k = true ->
  heap s !! p = Some o ->
  Obj_kind o = Some k ->
  (forall id s1,
     SetID k (Some p) s = Returned (id, s1) ->
     SetID k (Some p) s1 = Returned (id, s1)
     /\ id <> ""
     /\ (exists o1, heap s1 !! p = Some o1 /\ Obj_kind o1 = Some k /\ Obj_ID o1 = id)
     /\ (Obj_ID o <> "" -> id = Obj_ID o))
  /\ (Obj_ID o <> "" -> k = KConnection ->
      SetID k (Some p) s = Returned (Obj_ID o, s))
  /\ (Obj_ID o <> "" -> k = KProvisioningStep ->
      exists s1, SetID k (Some p) s = Returned (Obj_ID o, s1)).
Proof.
  intros Hk E K.
  destruct k; try discriminate; destruct o; try discriminate; simpl.
  - (* ProvisioningStep *)
    split; [|split; [discriminate|]].
    + intros id s1 Hrun.
      destruct (ProvisioningStep_SetID_twice s p v id s1 E Hrun)
        as (Htwice & v1 & E1 & Hid1 & Hne).
      split; [exact Htwice|]. split; [exact Hne|].
      split; [exists (OProvisioningStep v1); auto|].
      intros Hid. rewrite (ProvisioningStep_SetID_assigned s p v E Hid) in Hrun.
      congruence.
    + intros Hid _. eexists. now apply ProvisioningStep_SetID_assigned.
  - (* ProvisionedNetwork *)
    split; [|split; discriminate].
    intros id s1 Hrun.
    destruct (ProvisionedNetwork_SetID_twice s p v id s1 E Hrun)
      as (Htwice & v1 & E1 & Hid1 & Hne).
    split; [exact Htwice|]. split; [exact Hne|].
    split; [exists (OProvisionedNetwork v1); auto|].
    intros Hid. now destruct (ProvisionedNetwork_SetID_keeps_ID s p v id s1 E Hid Hrun).
  - (* Connection *)
    split; [|split; [|discriminate]].
    + intros id s1 Hrun.
      destruct (Connection_SetID_twice s p v id s1 E Hrun)
        as (Htwice & v1 & E1 & Hid1 & Hne).
      split; [exact Htwice|]. split; [exact Hne|].
      split; [exists (OConnection v1); auto|].
      intros Hid. rewrite (Connection_SetID_assigned s p v E Hid) in Hrun.
      congruence.
    + intros Hid _. now apply Connection_SetID_assigned.
Qed.

(** The connection of the deployed host gets its path from the host, and
    the second call returns the same path and changes nothing. *)
Lemma SetID_idempotent_connection :
  sets_ID KConnection = true
  /\ heap deployed !! 18%nat = Some (OConnection web01_ssh)
  /\ exists s1,
       SetID KConnection (Some 18%nat) deployed
       = Returned ("/envs/ctf2024/build1/teams/team-01/networks/dmz/hosts/web01/conn", s1)
       /\ SetID KConnection (Some 18%nat) s1
          = Returned ("/envs/ctf2024/build1/teams/team-01/networks/dmz/hosts/web01/conn", s1).
Proof.
  split; [reflexivity|]. split; [reflexivity|].
  destruct (SetID_idempotent KConnection deployed 18%nat (OConnection web01_ssh)
              eq_refl eq_refl eq_refl) as (Htwice & _ & _).
  exists (with_heap
            (<[18%nat := OConnection
                 (Connection_set_ID
                    "/envs/ctf2024/build1/teams/team-01/networks/dmz/hosts/web01/conn"
                    web01_ssh)]> (heap deployed)) deployed).
  assert (SetID KConnection (Some 18%nat) deployed
          = Returned
              ("/envs/ctf2024/build1/teams/team-01/networks/dmz/hosts/web01/conn",
               with_heap
                 (<[18%nat := OConnection
                      (Connection_set_ID
                         "/envs/ctf2024/build1/teams/team-01/networks/dmz/hosts/web01/conn"
                         web01_ssh)]> (heap deployed)) deployed)) as Hfirst
    by (vm_compute; reflexivity).
  split; [exact Hfirst|].
  exact (proj1 (Htwice _ _ Hfirst)).
Defined.

(** C5, as stated, fails: with the path already there, [SetID] on the
    provisioned network fills the empty [NetworkID], and [SetID] on the
    provisioning step sets the nil [Command] field: neither call leaves
    its object unchanged. *)
Lemma SetID_is_not_a_no_op :
  heap deployed !! 13%nat = Some (OProvisionedNetwork dmz_provisioned)
  /\ ProvisionedNetwork_ID dmz_provisioned <> ""
  /\ heap deployed !! 17%nat = Some (OProvisioningStep web01_step)
  /\ ProvisioningStep_ID web01_step <> ""
  /\ (exists s1,
        SetID KProvisionedNetwork (Some 13%nat) deployed
        = Returned (ProvisionedNetwork_ID dmz_provisioned, s1)
        /\ heap s1 !! 13%nat
           = Some (OProvisionedNetwork
                     (ProvisionedNetwork_set_NetworkID "/networks/dmz" dmz_provisioned))
        /\ heap s1 !! 13%nat <> heap deployed !! 13%nat)
  /\ (exists s1,
        SetID KProvisioningStep (Some 17%nat) deployed
        = Returned (ProvisioningStep_ID web01_step, s1)
        /\ heap s1 !! 17%nat
           = Some (OProvisioningStep
                     (ProvisioningStep_set_Command (Some 16%nat) web01_step))
        /\ heap s1 !! 17%nat <> heap deployed !! 17%nat).
Proof.
  split; [reflexivity|]. split; [discriminate|].
  split; [reflexivity|]. split; [discriminate|]. split.
  - exists (with_heap
              (<[13%nat := OProvisionedNetwork
                   (ProvisionedNetwork_set_NetworkID "/networks/dmz" dmz_provisioned)]>
                 (heap deployed)) deployed).
    split; [vm_compute; reflexivity|].
    split; [reflexivity | vm_compute; discriminate].
  - exists (with_heap
              (<[17%nat := OProvisioningStep
                   (ProvisioningStep_set_Command (Some 16%nat) web01_step)]>
                 (heap deployed)) deployed).
    split; [vm_compute; reflexivity|].
    split; [reflexivity | vm_compute; discriminate].
Qed.

(* ===================================================================== *)
(** ** The upload step of the SSH workflow *)
(* ===================================================================== *)

(** *** What a run adds to the trace *)

Lemma emits_only_ret {A} P (a : A) : emits_only P (ret a).
Proof.
  intros s a' s' [= <- <-]. split; [reflexivity|].
  exists []. now rewrite app_nil_r.
Qed.

Lemma emits_only_bind {A B} P (m : M A) (k : A -> M B) :
  emits_only P m -> (forall a, emits_only P (k a)) -> emits_only P (m ≫= k).
Proof.
  intros Hm Hk s b s'. rewrite run_bind.
  destruct (m s) as [[a s1]| |] eqn:E; try discriminate.
  intros Hrun.
  destruct (Hm _ _ _ E) as (Hh1 & t1 & Ht1 & HP1).
  destruct (Hk a _ _ _ Hrun) as (Hh2 & t2 & Ht2 & HP2).
  split; [congruence|].
  exists (t1 ++ t2)%list. split.
  - now rewrite Ht2, Ht1, app_assoc.
  - now apply Forall_app.
Qed.

Lemma emits_only_emit (P : Event -> Prop) e : P e -> emits_only P (emit e).
Proof.
  intros He s a s' [= <- <-]. split; [reflexivity|].
  exists [e]. split; [reflexivity | now constructor].
Qed.

Lemma emits_only_readonly {A} P (m : M A) : readonly m -> emits_only P m.
Proof.
  intros Hm s a s' Hrun. rewrite (Hm _ _ _ Hrun). split; [reflexivity|].
  exists []. now rewrite app_nil_r.
Qed.

Lemma readonly_get : readonly get.
Proof. intros s a s' [= <- <-]. reflexivity. Qed.

Lemma readonly_load_Connection p : readonly (load_Connection p).
Proof. unfold load_Connection. readonly. Qed.

Lemma readonly_Stat name : readonly (Stat name).
Proof. unfold Stat. pose proof readonly_get. readonly. Qed.

Lemma emits_only_panic {A} P r : emits_only P (@panic A r).
Proof. intros s a s' [=]. Qed.

Section UploadStep.

Context `{Externals}.

Lemma readonly_remote_call f : readonly (remote_call f).
Proof. unfold remote_call. pose proof readonly_get. readonly. Qed.

Ltac emits_step :=
  first
    [ apply emits_only_ret
    | apply emits_only_panic
    | apply emits_only_emit; first [discriminate | reflexivity]
    | apply emits_only_readonly;
      first [ apply readonly_load_Connection | apply readonly_Stat
            | apply readonly_remote_call | apply readonly_get ]
    | apply emits_only_bind; [|intros]
    | match goal with
      | |- emits_only _ (match ?x with _ => _ end) => destruct x
      | |- emits_only _ (if ?b then _ else _) => destruct b
      end ].

(** The upload step keeps the store and does not enter the execute
    step. *)
Lemma upload_step_not_execute c j scriptsrc finalpath :
  emits_only not_execute (upload_step c j scriptsrc finalpath).
Proof.
  unfold upload_step, bounded, extended, Connection_UploadScriptSFTP,
    with_ssh_client, log_issue, Connection_Path, not_execute.
  repeat emits_step.
Qed.

(** The upload step closes no writer. *)
Lemma upload_step_closes_nothing writer c j scriptsrc finalpath :
  emits_only (fun e => closes writer e = false)
    (upload_step c j scriptsrc finalpath).
Proof.
  unfold upload_step, bounded, extended, Connection_UploadScriptSFTP,
    with_ssh_client, log_issue, Connection_Path.
  repeat emits_step.
Qed.

End UploadStep.

(** *** Runs that are sure to return *)

Lemma steady_ret {A} h (a : A) : steady h (ret a).
Proof.
  intros s Hs. exists a, s, []. rewrite app_nil_r. auto.
Qed.

Lemma steady_bind {A B} h (m : M A) (k : A -> M B) :
  steady h m -> (forall a, steady h (k a)) -> steady h (m ≫= k).
Proof.
  intros Hm Hk s Hs. rewrite run_bind.
  destruct (Hm s Hs) as (a & s1 & t1 & -> & Hh1 & Ht1).
  destruct (Hk a s1 Hh1) as (b & s2 & t2 & -> & Hh2 & Ht2).
  exists b, s2, (t1 ++ t2)%list. split; [reflexivity|]. split; [exact Hh2|].
  now rewrite Ht2, Ht1, app_assoc.
Qed.

Lemma steady_emit h e : steady h (emit e).
Proof. intros s Hs. exists tt, (with_trace (trace s ++ [e]) s), [e]. auto. Qed.

Lemma steady_get h : steady h get.
Proof. intros s Hs. exists s, s, []. rewrite app_nil_r. auto. Qed.

Lemma steady_OpenFile h name : steady h (OpenFile name).
Proof.
  intros s Hs. unfold OpenFile. rewrite run_bind, run_get.
  destruct (files s !! name) as [[]|]; eexists _, _, [];
    (split; [reflexivity|]); rewrite app_nil_r; auto.
Qed.

(** A bind on a load whose cell is known goes on with the cell's value. *)
Lemma steady_bind_load {A B} h (load_it : M A) (a : A) (k : A -> M B) :
  (forall s, heap s = h -> load_it s = Returned (a, s)) ->
  steady h (k a) -> steady h (load_it ≫= k).
Proof.
  intros Hload Hk s Hs. rewrite run_bind, (Hload s Hs). exact (Hk s Hs).
Qed.

Lemma steady_bind_load_Connection {B} h l v (k : Connection -> M B) :
  h !! l = Some (OConnection v) ->
  steady h (k v) -> steady h (load_Connection (Some l) ≫= k).
Proof.
  intros E. apply steady_bind_load. intros s <-. now apply run_load_Connection.
Qed.

Lemma steady_bind_load_ProvisionedHost {B} h l v (k : ProvisionedHost -> M B) :
  h !! l = Some (OProvisionedHost v) ->
  steady h (k v) -> steady h (load_ProvisionedHost (Some l) ≫= k).
Proof.
  intros E. apply steady_bind_load. intros s <-. now apply run_load_ProvisionedHost.
Qed.

Lemma steady_bind_load_Host {B} h l v (k : Host -> M B) :
  h !! l = Some (OHost v) ->
  steady h (k v) -> steady h (load_Host (Some l) ≫= k).
Proof.
  intros E. apply steady_bind_load. intros s <-. now apply run_load_Host.
Qed.

Section Workflow.

Context `{Externals}.

Lemma steady_remote_call h f : steady h (remote_call f).
Proof. unfold remote_call. apply steady_bind; [apply steady_get | intros; apply steady_ret]. Qed.

(** A bounded step followed by anything that returns: the step is
    entered, and the run returns. *)
Lemma bounded_enters {B} (step : Step) (timeout : Z) (closure : M (option error))
    (k : option error -> M B) (h : gmap loc Obj) (s : State) :
  heap s = h ->
  steady h closure ->
  (forall e, steady h (k e)) ->
  exists r s_f,
    (bounded step timeout closure ≫= k) s = Returned (r, s_f)
    /\ In (EvStep step) (trace s_f).
Proof.
  intros Hs Hc Hk. unfold bounded. run.
  destruct (Hc (with_trace (trace s ++ [EvStep step]) s) Hs)
    as (sent & s1 & t1 & -> & Hh1 & Ht1).
  run.
  destruct (Hk (PerformInTimeout timeout sent) s1 Hh1)
    as (r & s2 & t2 & -> & Hh2 & Ht2).
  exists r, s2. split; [reflexivity|].
  rewrite Ht2, Ht1. simpl. apply in_or_app. left. apply in_or_app. left.
  apply in_or_app. right. now left.
Qed.

Section Live.

(** A connection whose provisioned host and host are in the store. *)
Variables (h : gmap loc Obj) (c lph lh : loc)
          (v : Connection) (ph : ProvisionedHost) (hst : Host).
Hypothesis Hc : h !! c = Some (OConnection v).
Hypothesis Hph : Connection_ProvisionedHost v = Some lph.
Hypothesis Hlph : h !! lph = Some (OProvisionedHost ph).
Hypothesis Hh : ProvisionedHost_Host ph = Some lh.
Hypothesis Hlh : h !! lh = Some (OHost hst).

Ltac steady_step :=
  first
    [ apply steady_ret
    | apply steady_emit
    | apply steady_get
    | apply steady_OpenFile
    | apply steady_remote_call
    | apply (steady_bind_load_Connection h c v _ Hc)
    | apply steady_bind; [|intros]
    | match goal with
      | |- steady _ (match ?x with _ => _ end) => destruct x
      end ].

Ltac steady := repeat steady_step.

Lemma steady_log_complete format finalpath :
  steady h (log_complete format (Some c) finalpath).
Proof.
  unfold log_complete, Connection_host_base.
  apply steady_bind; [|intros; steady].
  apply (steady_bind_load_Connection h c v _ Hc). rewrite Hph.
  apply (steady_bind_load_ProvisionedHost h lph ph _ Hlph). rewrite Hh.
  apply (steady_bind_load_Host h lh hst _ Hlh).
  apply steady_ret.
Qed.

Lemma steady_log_issue format e : steady h (log_issue format (Some c) e).
Proof. unfold log_issue, Connection_Path. steady. Qed.

Lemma steady_with_ssh_client op : steady h op -> steady h (with_ssh_client op).
Proof. intros Hop. unfold with_ssh_client. steady; assumption. Qed.

Lemma steady_extended format op :
  steady h op -> steady h (extended format (Some c) op).
Proof.
  intros Hop. unfold extended. pose proof steady_log_issue. steady; auto.
Qed.

Lemma steady_logged stderrfile stdoutfile announce body :
  steady h body -> steady h (logged stderrfile stdoutfile announce body).
Proof. intros Hb. unfold logged. steady; assumption. Qed.

Lemma steady_closing body : steady h body -> steady h (closing body).
Proof. intros Hb. unfold closing. steady; assumption. Qed.

Lemma steady_ExecuteCommandSSH command :
  steady h (Connection_ExecuteCommandSSH (Some c) command).
Proof.
  unfold Connection_ExecuteCommandSSH.
  apply (steady_bind_load_Connection h c v _ Hc).
  apply steady_with_ssh_client. steady.
Qed.

Lemma steady_DeleteScriptSFTP remotefile :
  steady h (Connection_DeleteScriptSFTP (Some c) remotefile).
Proof.
  unfold Connection_DeleteScriptSFTP.
  apply (steady_bind_load_Connection h c v _ Hc).
  apply steady_with_ssh_client. steady.
Qed.

Lemma steady_bounded step timeout closure :
  steady h closure -> steady h (bounded step timeout closure).
Proof. intros Hc'. unfold bounded. steady; assumption. Qed.

(** With the provisioned host and its host in place, the part of the SSH
    branch after the upload step returns, and enters the execute step. *)
Lemma UploadExecuteAndDelete_ssh_execute_enters j finalpath stdoutfile stderrfile s :
  heap s = h ->
  exists r s_f,
    UploadExecuteAndDelete_ssh_execute (Some c) j finalpath stdoutfile stderrfile s
    = Returned (r, s_f)
    /\ executing s_f.
Proof.
  intros Hs. unfold UploadExecuteAndDelete_ssh_execute, executing.
  assert (heap s !! c = Some (OConnection v)) as Ec by (rewrite Hs; exact Hc).
  assert (heap s !! lph = Some (OProvisionedHost ph)) as Eph by (rewrite Hs; exact Hlph).
  run. rewrite Hph. run. rewrite Hh. cbn iota.
  rewrite run_bind.
  destruct (steady_log_complete "SFTP Upload Complete: %s (%s) -> %s" finalpath s Hs)
    as ([] & s1 & t1 & -> & Hh1 & _).
  apply (bounded_enters StepExecute _ _ _ h s1 Hh1).
  - apply steady_logged, steady_closing, steady_extended, steady_ExecuteCommandSSH.
  - intros [e|].
    + apply steady_bind; [apply steady_log_issue | intros; apply steady_ret].
    + apply steady_bind; [apply steady_log_complete|]. intros _.
      apply steady_bind.
      * apply steady_bounded, steady_extended, steady_DeleteScriptSFTP.
      * intros [e|].
        -- apply steady_bind; [apply steady_log_issue | intros; apply steady_ret].
        -- apply steady_bind; [apply steady_log_complete | intros; apply steady_ret].
Qed.

End Live.

End Workflow.

Section UploadErrors.

Context `{Externals}.

(** Both [os.Stat] calls succeed on what is there. *)
Lemma located_found s scriptsrc logdir :
  files s !! scriptsrc <> None ->
  files s !! logdir <> None ->
  located scriptsrc logdir s = Returned (None, s).
Proof.
  intros Hsrc Hlog. unfold located, Stat.
  rewrite run_bind, run_bind, run_get. cbn beta iota. rewrite run_ret.
  destruct (files s !! scriptsrc) as [fsrc|]; [|congruence].
  destruct fsrc; cbn beta iota;
    (rewrite run_bind, run_bind, run_get; cbn beta iota; rewrite run_ret;
     destruct (files s !! logdir) as [flog|]; [|congruence];
     destruct flog; reflexivity).
Qed.

(** The workflow on an SSH connection, once the script and the log
    directory are found: what the SSH branch reaches goes through the
    deferred function. *)
Lemma UploadExecuteAndDelete_ssh_branch s c v j scriptsrc tmpname logdir :
  heap s !! c = Some (OConnection v) ->
  Connection_WinRMAuthConfig v = None ->
  files s !! scriptsrc <> None ->
  files s !! logdir <> None ->
  Connection_UploadExecuteAndDelete (Some c) j scriptsrc tmpname logdir s
  = deferred_join
      (UploadExecuteAndDelete_ssh (Some c) j scriptsrc (target_name scriptsrc tmpname)
         (log_prefix logdir (target_name scriptsrc tmpname) +:+ ".stdout.log")
         (log_prefix logdir (target_name scriptsrc tmpname) +:+ ".stderr.log") s).
Proof.
  intros E Hssh Hsrc Hlog.
  unfold Connection_UploadExecuteAndDelete.
  rewrite (located_found s scriptsrc logdir Hsrc Hlog).
  unfold UploadExecuteAndDelete_body, Connection_IsWinRM. cbv zeta.
  run. rewrite Hssh. reflexivity.
Qed.

(** The three ways out of the test on the upload error. *)
Lemma upload_benign_continues c j scriptsrc filename stdoutfile stderrfile s e s_u :
  upload_step c j scriptsrc (filepath.unix_Join "/root" filename) s
  = Returned (Some e, s_u) ->
  benign_exit e = true ->
  UploadExecuteAndDelete_ssh c j scriptsrc filename stdoutfile stderrfile s
  = UploadExecuteAndDelete_ssh_execute c j (filepath.unix_Join "/root" filename)
      stdoutfile stderrfile s_u.
Proof.
  intros Hup Hb. unfold UploadExecuteAndDelete_ssh. cbv zeta.
  rewrite run_bind, Hup.
  destruct e; try discriminate. simpl in Hb.
  apply andb_true_iff in Hb as [Hb Hstatus]. apply andb_true_iff in Hb as [Hsig Hmsg].
  rewrite Hsig, Hmsg, Hstatus. reflexivity.
Qed.

Lemma upload_success_continues c j scriptsrc filename stdoutfile stderrfile s s_u :
  upload_step c j scriptsrc (filepath.unix_Join "/root" filename) s
  = Returned (None, s_u) ->
  UploadExecuteAndDelete_ssh c j scriptsrc filename stdoutfile stderrfile s
  = UploadExecuteAndDelete_ssh_execute c j (filepath.unix_Join "/root" filename)
      stdoutfile stderrfile s_u.
Proof.
  intros Hup. unfold UploadExecuteAndDelete_ssh. cbv zeta.
  now rewrite run_bind, Hup.
Qed.

Lemma upload_other_aborts c j scriptsrc filename stdoutfile stderrfile s e s_u :
  upload_step c j scriptsrc (filepath.unix_Join "/root" filename) s
  = Returned (Some e, s_u) ->
  benign_exit e = false ->
  UploadExecuteAndDelete_ssh c j scriptsrc filename stdoutfile stderrfile s
  = Returned (Some e, s_u).
Proof.
  intros Hup Hb. unfold UploadExecuteAndDelete_ssh. cbv zeta.
  rewrite run_bind, Hup.
  destruct e; try reflexivity. simpl in Hb.
  destruct (String.eqb (Waitmsg_signal w) ""); [|reflexivity].
  destruct (String.eqb (Waitmsg_msg w) ""); [|reflexivity].
  simpl in Hb. rewrite Hb. reflexivity.
Qed.

(** Without a provisioned host the part after the upload step stops at
    its first guard. *)
Lemma UploadExecuteAndDelete_ssh_execute_unlinked c v j finalpath stdoutfile stderrfile s :
  heap s !! c = Some (OConnection v) ->
  Connection_ProvisionedHost v = None ->
  UploadExecuteAndDelete_ssh_execute (Some c) j finalpath stdoutfile stderrfile s
  = Returned (Some (errors.New "provisioned host was nil"), s).
Proof.
  intros E Hph. unfold UploadExecuteAndDelete_ssh_execute. run. now rewrite Hph.
Qed.

(** The upload step does not enter the execute step. *)
Lemma upload_step_not_executing c j scriptsrc finalpath s r s_u :
  upload_step c j scriptsrc finalpath s = Returned (r, s_u) ->
  ~ executing s ->
  heap s_u = heap s /\ ~ executing s_u.
Proof.
  intros Hup Hs.
  destruct (upload_step_not_execute c j scriptsrc finalpath s r s_u Hup)
    as (Hh & t & Ht & Hnot).
  split; [exact Hh|]. unfold executing. rewrite Ht. intros Hin.
  apply in_app_or in Hin as [Hin|Hin]; [now apply Hs|].
  apply list_elem_of_In in Hin. rewrite Forall_forall in Hnot.
  now apply (Hnot _ Hin).
Qed.

(** A run that adds no closing event leaves a writer as it is. *)
Lemma closed_after writer s s' t :
  trace s' = (trace s ++ t)%list ->
  Forall (fun e => closes writer e = false) t ->
  closed writer s' = closed writer s.
Proof.
  intros Ht Hno. unfold closed. rewrite Ht, existsb_app. clear Ht.
  assert (existsb (closes writer) t = false) as ->.
  { induction Hno as [|e t' He _ IH]; [reflexivity|].
    cbn [existsb]. cbn beta in He. rewrite He. exact IH. }
  apply orb_false_r.
Qed.

Lemma upload_step_keeps_open writer c j scriptsrc finalpath s r s_u :
  upload_step c j scriptsrc finalpath s = Returned (r, s_u) ->
  closed writer s_u = closed writer s.
Proof.
  intros Hup.
  destruct (upload_step_closes_nothing writer c j scriptsrc finalpath s r s_u Hup)
    as (_ & t & Ht & Hno).
  exact (closed_after writer s s_u t Ht Hno).
Qed.

(** With a writer still open, the deferred function does not get past
    its receives. *)
Lemma deferred_join_open r s :
  closed "debugstdoutpw" s = false ->
  deferred_join (Returned (r, s)) = Blocked (Returned (r, s)).
Proof. intros Hopen. unfold deferred_join. now rewrite Hopen. Qed.

(** C8, as the code has it.  On the SSH branch the error that
    [PerformInTimeout] hands back for the upload step is tested.  With
    an error outside the benign class (an exit error without signal,
    without message, with status 1) the body returns that error, and the
    execute step is not entered.  With a benign error the body goes on
    as after a successful upload: when the connection's provisioned host
    and its host are there the execute step is entered; when the
    provisioned host is nil the body returns the error of that guard and
    the execute step is not entered.  What the body returns goes through
    the deferred function of the workflow. *)
Theorem upload_error_classes
    (s : State) (c : loc) (v : Connection) (j : Doer)
    (scriptsrc tmpname logdir : string) (e : error) (s_u : State) :
  heap s !! c = Some (OConnection v) ->
  Connection_WinRMAuthConfig v = None ->
  files s !! scriptsrc <> None ->
  files s !! logdir <> None ->
  upload_step (Some c) j scriptsrc
    (filepath.unix_Join "/root" (target_name scriptsrc tmpname)) s
  = Returned (Some e, s_u) ->
  ~ executing s ->
  (benign_exit e = false ->
   Connection_UploadExecuteAndDelete (Some c) j scriptsrc tmpname logdir s
   = deferred_join (Returned (Some e, s_u))
   /\ ~ executing s_u)
  /\ (benign_exit e = true ->
      forall lph ph lh hst,
        Connection_ProvisionedHost v = Some lph ->
        heap s !! lph = Some (OProvisionedHost ph) ->
        ProvisionedHost_Host ph = Some lh ->
        heap s !! lh = Some (OHost hst) ->
        exists r s_f,
          Connection_UploadExecuteAndDelete (Some c) j scriptsrc tmpname logdir s
          = deferred_join (Returned (r, s_f))
          /\ executing s_f)
  /\ (benign_exit e = true ->
      Connection_ProvisionedHost v = None ->
      Connection_UploadExecuteAndDelete (Some c) j scriptsrc tmpname logdir s
      = deferred_join (Returned (Some (errors.New "provisioned host was nil"), s_u))
      /\ ~ executing s_u).
Proof.
  intros E Hssh Hsrc Hlog Hup Hs.
  rewrite (UploadExecuteAndDelete_ssh_branch s c v j scriptsrc tmpname logdir
             E Hssh Hsrc Hlog).
  destruct (upload_step_not_executing _ _ _ _ _ _ _ Hup Hs) as [Hheap Hnot].
  split; [|split].
  - intros Hb. split; [|exact Hnot]. f_equal. now apply upload_other_aborts.
  - intros Hb lph ph lh hst Hph Hlph Hh Hlh.
    rewrite (upload_benign_continues _ _ _ _ _ _ _ _ _ Hup Hb).
    destruct (UploadExecuteAndDelete_ssh_execute_enters (heap s) c lph lh v ph hst
                E Hph Hlph Hh Hlh j
                (filepath.unix_Join "/root" (target_name scriptsrc tmpname))
                (log_prefix logdir (target_name scriptsrc tmpname) +:+ ".stdout.log")
                (log_prefix logdir (target_name scriptsrc tmpname) +:+ ".stderr.log")
                s_u Hheap) as (r & s_f & Hrun & Hexec).
    exists r, s_f. split; [now rewrite Hrun | exact Hexec].
  - intros Hb Hph. split; [|exact Hnot].
    rewrite (upload_benign_continues _ _ _ _ _ _ _ _ _ Hup Hb). f_equal.
    apply (UploadExecuteAndDelete_ssh_execute_unlinked c v); [|exact Hph].
    rewrite Hheap. exact E.
Qed.

(** X15.  The deferred function on the early returns of the SSH branch.
    When no execute closure has run, the writers of the two pipes are
    open: a call whose body returns at the test on the upload error, or
    at the guard on a nil provisioned host, stays in its deferred
    function and hands nothing back to its caller. *)
Theorem UploadExecuteAndDelete_early_return_blocks
    (s : State) (c : loc) (v : Connection) (j : Doer)
    (scriptsrc tmpname logdir : string) (r : option error) (s_u : State) :
  heap s !! c = Some (OConnection v) ->
  Connection_WinRMAuthConfig v = None ->
  files s !! scriptsrc <> None ->
  files s !! logdir <> None ->
  closed "debugstdoutpw" s = false ->
  upload_step (Some c) j scriptsrc
    (filepath.unix_Join "/root" (target_name scriptsrc tmpname)) s
  = Returned (r, s_u) ->
  (forall e, r = Some e -> benign_exit e = false ->
     Connection_UploadExecuteAndDelete (Some c) j scriptsrc tmpname logdir s
     = Blocked (Returned (Some e, s_u)))
  /\ ((forall e, r = Some e -> benign_exit e = true) ->
      Connection_ProvisionedHost v = None ->
      Connection_UploadExecuteAndDelete (Some c) j scriptsrc tmpname logdir s
      = Blocked (Returned (Some (errors.New "provisioned host was nil"), s_u))).
Proof.
  intros E Hssh Hsrc Hlog Hopen Hup.
  rewrite (UploadExecuteAndDelete_ssh_branch s c v j scriptsrc tmpname logdir
             E Hssh Hsrc Hlog).
  assert (closed "debugstdoutpw" s_u = false) as Hopen_u.
  { rewrite (upload_step_keeps_open _ _ _ _ _ _ _ _ Hup). exact Hopen. }
  assert (heap s_u !! c = Some (OConnection v)) as E_u.
  { destruct (upload_step_not_execute _ _ _ _ _ _ _ Hup) as [-> _]. exact E. }
  split.
  - intros e -> Hb.
    rewrite (upload_other_aborts _ _ _ _ _ _ _ _ _ Hup Hb).
    now apply deferred_join_open.
  - intros Hb Hph.
    assert (UploadExecuteAndDelete_ssh (Some c) j scriptsrc
              (target_name scriptsrc tmpname)
              (log_prefix logdir (target_name scriptsrc tmpname) +:+ ".stdout.log")
              (log_prefix logdir (target_name scriptsrc tmpname) +:+ ".stderr.log") s
            = Returned (Some (errors.New "provisioned host was nil"), s_u)) as ->.
    { destruct r as [e|].
      - rewrite (upload_benign_continues _ _ _ _ _ _ _ _ _ Hup (Hb e eq_refl)).
        now apply (UploadExecuteAndDelete_ssh_execute_unlinked c v).
      - rewrite (upload_success_continues _ _ _ _ _ _ _ _ Hup).
        now apply (UploadExecuteAndDelete_ssh_execute_unlinked c v). }
    now apply deferred_join_open.
Qed.

End UploadErrors.

(** The flaky host, with [PerformInTimeout] as the spec has it: the
    upload ends with exit status 1, the body goes on and enters the
    execute step. *)
Lemma upload_error_classes_flaky :
  heap provisioning !! 18%nat = Some (OConnection web01_ssh)
  /\ Connection_WinRMAuthConfig web01_ssh = None
  /\ benign_exit exit_status_1 = true
  /\ ~ executing provisioning
  /\ (exists s_u,
        upload_step (H := sample_externals) (Some 18%nat) setup_job
          "/srv/laforge/scripts/setup.sh" "/root/setup.sh" provisioning
        = Returned (Some exit_status_1, s_u))
  /\ exists r s_f,
       Connection_UploadExecuteAndDelete (H := sample_externals) (Some 18%nat)
         setup_job "/srv/laforge/scripts/setup.sh" "" "/tmp/logs" provisioning
       = deferred_join (Returned (r, s_f))
       /\ executing s_f.
Proof.
  split; [reflexivity|]. split; [reflexivity|]. split; [reflexivity|].
  assert (~ executing provisioning) as Hfresh by (intros []).
  split; [exact Hfresh|].
  set (s_u := with_trace
                [EvStep StepUpload; EvSSHConnect;
                 EvSFTPUpload "/srv/laforge/scripts/setup.sh" "/root/setup.sh";
                 EvSSHDisconnect;
                 EvLogErr "error" "%s Upload Script Connection Issue: %v" [""]
                   exit_status_1] provisioning).
  assert (upload_step (H := sample_externals) (Some 18%nat) setup_job
            "/srv/laforge/scripts/setup.sh" "/root/setup.sh" provisioning
          = Returned (Some exit_status_1, s_u)) as Hup by (vm_compute; reflexivity).
  split; [exists s_u; exact Hup|].
  destruct (upload_error_classes (H := sample_externals) provisioning 18%nat
              web01_ssh setup_job "/srv/laforge/scripts/setup.sh" "" "/tmp/logs"
              exit_status_1 s_u) as (_ & Hgoes_on & _).
  - reflexivity.
  - reflexivity.
  - vm_compute. discriminate.
  - vm_compute. discriminate.
  - exact Hup.
  - exact Hfresh.
  - apply (Hgoes_on eq_refl 15%nat web01_provisioned 14%nat
             {| Host_ID := "/hosts/web01" |}); reflexivity.
Defined.

(** C8, as stated, fails on a connection whose provisioned host is not
    linked: the upload ends with the benign exit error, the body stops at
    the nil guard, and the execute step is not entered. *)
Lemma benign_upload_without_host :
  heap provisioning_unlinked !! 18%nat = Some (OConnection web01_unlinked)
  /\ Connection_WinRMAuthConfig web01_unlinked = None
  /\ Connection_SSHAuthConfig web01_unlinked <> None
  /\ benign_exit exit_status_1 = true
  /\ exists s_u,
       upload_step (H := sample_externals) (Some 18%nat) setup_job
         "/srv/laforge/scripts/setup.sh" "/root/setup.sh" provisioning_unlinked
       = Returned (Some exit_status_1, s_u)
       /\ Connection_UploadExecuteAndDelete (H := sample_externals) (Some 18%nat)
            setup_job "/srv/laforge/scripts/setup.sh" "" "/tmp/logs"
            provisioning_unlinked
          = Blocked (Returned (Some (errors.New "provisioned host was nil"), s_u))
       /\ ~ executing s_u.
Proof.
  split; [reflexivity|]. split; [reflexivity|]. split; [discriminate|].
  split; [reflexivity|].
  exists (with_trace
            [EvStep StepUpload; EvSSHConnect;
             EvSFTPUpload "/srv/laforge/scripts/setup.sh" "/root/setup.sh";
             EvSSHDisconnect;
             EvLogErr "error" "%s Upload Script Connection Issue: %v"
               ["/envs/ctf2024/build1/teams/team-01/networks/dmz/hosts/web01/conn"]
               exit_status_1] provisioning_unlinked).
  split; [vm_compute; reflexivity|]. split; [vm_compute; reflexivity|].
  unfold executing. simpl. intros [Hin|[Hin|[Hin|[Hin|[Hin|[]]]]]]; discriminate.
Qed.

(** A refused connection is outside the benign class, whatever
    [PerformInTimeout] makes of the timeout extension: the body returns
    at the test on the upload error, nothing is executed, and the call
    stays in its deferred function. *)
Lemma UploadExecuteAndDelete_early_return_blocks_refused :
  closed "debugstdoutpw" provisioning_refused = false
  /\ exists e s_u,
       upload_step (H := verbatim_externals) (Some 18%nat) setup_job
         "/srv/laforge/scripts/setup.sh" "/root/setup.sh" provisioning_refused
       = Returned (Some e, s_u)
       /\ benign_exit e = false
       /\ Connection_UploadExecuteAndDelete (H := verbatim_externals) (Some 18%nat)
            setup_job "/srv/laforge/scripts/setup.sh" "" "/tmp/logs"
            provisioning_refused
          = Blocked (Returned (Some e, s_u)).
Proof.
  split; [reflexivity|].
  set (e := TimeoutExtension
              (errors.New "dial tcp 203.0.113.7:22: connection refused")).
  set (s_u := with_trace
                [EvStep StepUpload;
                 EvLogErr "error" "%s Upload Script Connection Issue: %v" [""]
                   (errors.New "dial tcp 203.0.113.7:22: connection refused")]
                provisioning_refused).
  assert (upload_step (H := verbatim_externals) (Some 18%nat) setup_job
            "/srv/laforge/scripts/setup.sh" "/root/setup.sh" provisioning_refused
          = Returned (Some e, s_u)) as Hup by (vm_compute; reflexivity).
  exists e, s_u. split; [exact Hup|]. split; [reflexivity|].
  destruct (UploadExecuteAndDelete_early_return_blocks (H := verbatim_externals)
              provisioning_refused 18%nat web01_ssh setup_job
              "/srv/laforge/scripts/setup.sh" "" "/tmp/logs" (Some e) s_u)
    as [Hblocks _].
  - reflexivity.
  - reflexivity.
  - vm_compute. discriminate.
  - vm_compute. discriminate.
  - reflexivity.
  - exact Hup.
  - exact (Hblocks e eq_refl eq_refl).
Defined.

(** The same refused connection with [PerformInTimeout] as the spec has
    it. *)
Example refused_upload_aborts :
  exists s_f,
    Connection_UploadExecuteAndDelete (H := sample_externals) (Some 18%nat)
      setup_job "/srv/laforge/scripts/setup.sh" "" "/tmp/logs" provisioning_refused
    = Blocked
        (Returned (Some (errors.New "dial tcp 203.0.113.7:22: connection refused"), s_f))
    /\ trace s_f
       = [EvStep StepUpload;
          EvLogErr "error" "%s Upload Script Connection Issue: %v" [""]
            (errors.New "dial tcp 203.0.113.7:22: connection refused")].
Proof.
  eexists (with_trace _ provisioning_refused).
  split; [vm_compute; reflexivity | reflexivity].
Qed.

(** With a [PerformInTimeout] that hands back the timeout extension as
    the step sent it, the type test on the upload error finds no exit
    error: the upload that ends with exit status 1 is not let pass, and
    the execute step is not entered. *)
Example wrapped_exit_status_aborts :
  exists s_f,
    Connection_UploadExecuteAndDelete (H := verbatim_externals) (Some 18%nat)
      setup_job "/srv/laforge/scripts/setup.sh" "" "/tmp/logs" provisioning
    = Blocked (Returned (Some (TimeoutExtension exit_status_1), s_f))
    /\ trace s_f
       = [EvStep StepUpload; EvSSHConnect;
          EvSFTPUpload "/srv/laforge/scripts/setup.sh" "/root/setup.sh";
          EvSSHDisconnect;
          EvLogErr "error" "%s Upload Script Connection Issue: %v" [""]
            exit_status_1].
Proof.
  eexists (with_trace _ provisioning).
  split; [vm_compute; reflexivity | reflexivity].
Qed.

(** On a host where every operation succeeds the three steps run, the
    execute closure closes the two writers when it returns, and the call
    hands [nil] back. *)
Example obliging_host_ends :
  exists s_f,
    Connection_UploadExecuteAndDelete (H := sample_externals) (Some 18%nat)
      setup_job "/srv/laforge/scripts/setup.sh" "" "/tmp/logs" provisioning_obliging
    = Ended (Returned (None, s_f))
    /\ trace s_f
       = [EvStep StepUpload; EvSSHConnect;
          EvSFTPUpload "/srv/laforge/scripts/setup.sh" "/root/setup.sh";
          EvSSHDisconnect;
          EvLog "info" "SFTP Upload Complete: %s (%s) -> %s"
            ["web01"; "203.0.113.7"; "/root/setup.sh"];
          EvStep StepExecute;
          EvLog "info" "Logging script STDERR to %s" ["/tmp/logs/setup.stderr.log"];
          EvLog "info" "Logging script STDOUT to %s" ["/tmp/logs/setup.stdout.log"];
          EvSSHConnect; EvSSHStart "/root/setup.sh"; EvSSHDisconnect;
          EvClose "debugstderrpw"; EvClose "debugstdoutpw";
          EvLog "info" "SSH Execution Complete: %s (%s) -> %s"
            ["web01"; "203.0.113.7"; "/root/setup.sh"];
          EvStep StepDelete; EvSSHConnect; EvSFTPDelete "/root/setup.sh";
          EvSSHDisconnect;
          EvLog "info" "SFTP Deletion Successful: %s (%s) -> %s"
            ["web01"; "203.0.113.7"; "/root/setup.sh"]].
Proof.
  eexists (with_trace _ (with_files _ provisioning_obliging)).
  split; [vm_compute; reflexivity | reflexivity].
Qed.

(* ===================================================================== *)
(** ** Validated paths are canonical *)
(* ===================================================================== *)

Lemma path_char_cases a :
  regexp.path_char a = true -> is_slash a = true \/ (is_slash a = false /\ name_char a = true).
Proof.
  unfold regexp.path_char, name_char. intros Ha.
  destruct (is_slash a) eqn:E; [now left|right]. split; [reflexivity|].
  now rewrite orb_false_r in Ha.
Qed.

Lemma name_char_not_dot a : name_char a = true -> a <> "."%char.
Proof. intros Ha ->. discriminate. Qed.

Lemma plain_cons a e :
  is_slash a = false -> a <> "."%char -> (e = "" \/ plain e = true) ->
  plain (String a e) = true.
Proof.
  intros Hs Hd He. unfold plain.
  rewrite HasSlash_cons, Hs. simpl orb.
  assert (strings.HasSlash e = false) as ->.
  { destruct He as [->|He]; [reflexivity | now apply plain_no_slash]. }
  assert (String.eqb (String a e) "" = false) as -> by reflexivity.
  assert (String.eqb (String a e) "." = false) as ->.
  { apply eqb_false_of_ne. intros [= -> _]. now apply Hd. }
  assert (String.eqb (String a e) ".." = false) as ->.
  { apply eqb_false_of_ne. intros [= -> _]. now apply Hd. }
  reflexivity.
Qed.

(** A string of allowed bytes, not starting with a slash, without two
    slashes in a row and not ending in one, is a first element followed by
    an absolute path of plain elements. *)
Lemma allowed_elements (n : nat) : forall r,
  (String.length r <= n)%nat ->
  r <> "" ->
  forallb regexp.path_char (list_ascii_of_string r) = true ->
  regexp.consecutiveSlashRegexp (String slash r) = false ->
  (forall a body, rev (list_ascii_of_string r) = a :: body -> is_slash a = false) ->
  exists e rest, r = e +:+ abs_path rest /\ Forall (fun x => plain x = true) (e :: rest).
Proof.
  induction n as [|n IH]; intros r Hlen Hne Hall Hcons Hlast.
  - destruct r; [congruence | simpl in Hlen; lia].
  - destruct r as [|a r']; [congruence|].
    simpl in Hall. apply andb_prop in Hall as [Ha Hall].
    assert (is_slash a = false) as Hsa.
    { change (regexp.consecutiveSlashRegexp (String slash (String a r')))
        with ((is_slash slash && is_slash a)
              || regexp.consecutiveSlashRegexp (String a r')) in Hcons.
      apply orb_false_elim in Hcons as [Hc _].
      now destruct (is_slash a). }
    destruct (path_char_cases a Ha) as [Hs|[_ Hna]]; [congruence|].
    assert (regexp.consecutiveSlashRegexp (String a r') = false) as Hcons'.
    { change (regexp.consecutiveSlashRegexp (String slash (String a r')))
        with ((is_slash slash && is_slash a)
              || regexp.consecutiveSlashRegexp (String a r')) in Hcons.
      now apply orb_false_elim in Hcons as [_ Hc]. }
    destruct r' as [|b r''].
    + exists (String a ""), []. split; [reflexivity|].
      constructor; [|constructor].
      apply plain_cons; auto using name_char_not_dot.
    + assert (Hlast' : forall x body,
                 rev (list_ascii_of_string (String b r'')) = x :: body ->
                 is_slash x = false).
      { intros x body E. simpl in Hlast.
        apply (Hlast x (body ++ [a])%list).
        simpl in E. rewrite E. reflexivity. }
      assert (forallb regexp.path_char (list_ascii_of_string r'') = true) as Hall''.
      { simpl in Hall. now apply andb_prop in Hall as [_ Hall]. }
      destruct (is_slash b) eqn:Hsb.
      * (* [a] is an element of its own *)
        assert (b = slash) as ->.
        { unfold is_slash in Hsb. now apply Ascii.eqb_eq in Hsb. }
        assert (r'' <> "") as Hne''.
        { intros ->. specialize (Hlast' slash [] eq_refl). discriminate. }
        destruct (IH r'') as (e & rest & -> & Hplain).
        { simpl in Hlen. lia. }
        { exact Hne''. }
        { exact Hall''. }
        { destruct r'' as [|x r3]; [congruence|].
          change (regexp.consecutiveSlashRegexp (String a (String slash (String x r3))))
            with ((is_slash a && is_slash slash)
                  || regexp.consecutiveSlashRegexp (String slash (String x r3)))
            in Hcons'.
          now apply orb_false_elim in Hcons' as [_ Hc]. }
        { intros x body E. apply (Hlast' x (body ++ [slash])%list).
          simpl. simpl in E. rewrite E. reflexivity. }
        exists (String a ""), (e :: rest). split.
        { rewrite abs_path_cons. reflexivity. }
        constructor; [|exact Hplain].
        apply plain_cons; auto using name_char_not_dot.
      * (* [a] goes in front of the first element of the rest *)
        destruct (IH (String b r'')) as (e & rest & E & Hplain).
        { simpl in Hlen. simpl. lia. }
        { discriminate. }
        { exact Hall. }
        { change (regexp.consecutiveSlashRegexp (String slash (String b r'')))
            with ((is_slash slash && is_slash b)
                  || regexp.consecutiveSlashRegexp (String b r'')).
          rewrite Hsb. simpl.
          change (regexp.consecutiveSlashRegexp (String a (String b r'')))
            with ((is_slash a && is_slash b)
                  || regexp.consecutiveSlashRegexp (String b r'')) in Hcons'.
          now apply orb_false_elim in Hcons' as [_ Hc]. }
        { exact Hlast'. }
        exists (String a e), rest. split.
        { rewrite E. reflexivity. }
        inversion Hplain as [|? ? He Hrest]; subst.
        constructor; [|exact Hrest].
        apply plain_cons; auto using name_char_not_dot.
Qed.

Lemma length_list_ascii_of_string s :
  length (list_ascii_of_string s) = String.length s.
Proof. induction s as [|a s IH]; simpl; congruence. Qed.

Lemma lower_alnum_not_slash a : regexp.lower_alnum a = true -> is_slash a = false.
Proof.
  intros Ha. destruct (is_slash a) eqn:E; [|reflexivity].
  unfold is_slash in E. apply Ascii.eqb_eq in E. subst a. discriminate.
Qed.

(** What the generic expression accepts, byte by byte. *)
Lemma genericPathRegexp_inv p :
  regexp.genericPathRegexp p = true ->
  exists rest last body,
    p = String slash rest
    /\ rev (list_ascii_of_string rest) = last :: body
    /\ regexp.lower_alnum last = true
    /\ (3 <= length body)%nat
    /\ forallb regexp.path_char (list_ascii_of_string rest) = true.
Proof.
  destruct p as [|a rest]; [discriminate|]. unfold regexp.genericPathRegexp.
  intros Hm. apply andb_prop in Hm as [Ha Hm].
  unfold is_slash in Ha. apply Ascii.eqb_eq in Ha. subst a.
  destruct (rev (list_ascii_of_string rest)) as [|last body] eqn:E; [discriminate|].
  apply andb_prop in Hm as [Hm Hbody]. apply andb_prop in Hm as [Hlast Hlen].
  exists rest, last, body. repeat split; auto.
  - apply Nat.leb_le in Hlen. exact Hlen.
  - apply forallb_forall. intros x Hx.
    apply in_rev in Hx. rewrite E in Hx. destruct Hx as [<-|Hx].
    + unfold regexp.path_char. now rewrite Hlast.
    + rewrite forallb_forall in Hbody. now apply Hbody.
Qed.

(** An accepted path is absolute. *)
Lemma ValidateGenericPath_abs (p : string) :
  ValidateGenericPath p = None -> path.IsAbs p = true.
Proof.
  intros Hok. apply ValidateGenericPath_ok in Hok as [Hre _].
  destruct (genericPathRegexp_inv p Hre) as (rest & _ & _ & -> & _).
  reflexivity.
Qed.

(** X1.  A path that [ValidateGenericPath] accepts is absolute, has at
    least five bytes, and is the slash-separated sequence of its non-empty
    elements, none of which is [.] or [..]: [path.Clean] leaves it as it
    is. *)
Theorem ValidateGenericPath_canonical (p : string) :
  ValidateGenericPath p = None ->
  exists elems,
    elems <> []
    /\ Forall (fun e => plain e = true) elems
    /\ p = abs_path elems
    /\ path.Clean p = p
    /\ path.IsAbs p = true
    /\ (5 <= String.length p)%nat.
Proof.
  intros Hok. apply ValidateGenericPath_ok in Hok as [Hre Hcons].
  destruct (genericPathRegexp_inv p Hre)
    as (rest & last & body & -> & Hrev & Hlast & Hlen & Hall).
  assert (rest <> "") as Hne by (intros ->; discriminate).
  destruct (allowed_elements (String.length rest) rest) as (e & l & E & Hplain); auto.
  { intros a b Hab. rewrite Hrev in Hab. injection Hab as <- _.
    now apply lower_alnum_not_slash. }
  exists (e :: l).
  assert (String slash rest = abs_path (e :: l)) as Hp.
  { rewrite abs_path_cons, E. reflexivity. }
  split; [discriminate|]. split; [exact Hplain|]. split; [exact Hp|].
  split; [|split; [reflexivity|]].
  - rewrite Hp. apply Clean_abs_path; [exact Hplain | discriminate].
  - simpl. rewrite <- length_list_ascii_of_string, <- length_rev, Hrev. simpl. lia.
Qed.

Lemma ValidateGenericPath_canonical_dmz :
  ValidateGenericPath "/envs/ctf2024/build1/teams/team-01/networks/dmz" = None
  /\ exists elems,
       elems <> []
       /\ Forall (fun e => plain e = true) elems
       /\ "/envs/ctf2024/build1/teams/team-01/networks/dmz" = abs_path elems
       /\ path.Clean "/envs/ctf2024/build1/teams/team-01/networks/dmz"
          = "/envs/ctf2024/build1/teams/team-01/networks/dmz"
       /\ path.IsAbs "/envs/ctf2024/build1/teams/team-01/networks/dmz" = true
       /\ (5 <= String.length "/envs/ctf2024/build1/teams/team-01/networks/dmz")%nat.
Proof.
  split; [reflexivity|].
  apply (ValidateGenericPath_canonical
           "/envs/ctf2024/build1/teams/team-01/networks/dmz").
  reflexivity.
Defined.

(** The shortest paths: four bytes are never enough. *)
Example ValidateGenericPath_short :
  map ValidateGenericPath ["/dmz"; "/a/b"; "/dmz1"; "/a/b1"]
  = [Some ErrPathContainsInvalidChars; Some ErrPathContainsInvalidChars; None; None].
Proof. reflexivity. Qed.

(* ===================================================================== *)
(** ** [ValidatePath] *)
(* ===================================================================== *)

Lemma strings_Split_abs p :
  path.IsAbs p = true -> exists top rest, strings.Split p = "" :: top :: rest.
Proof.
  intros Habs. apply IsAbs_spec in Habs as [rest ->].
  change (strings.Split (String slash rest)) with ("" :: strings.Split rest).
  destruct (strings.Split rest) as [|top l] eqn:E; [now apply Split_not_nil in E|].
  eauto.
Qed.

(** The type of an absolute path whose first directory is one of the four
    that [ValidatePath] knows. *)
Lemma TypeByPath_top_directory k root t p rest :
  top_directory k = Some (root, t) ->
  path.IsAbs p = true ->
  strings.Split p = "" :: root :: rest ->
  TypeByPath p = Returned t /\ IsGlobalType p = Returned true.
Proof.
  intros Hk Habs Hsplit.
  assert (TypeByPath p = Returned t) as Ht.
  { unfold TypeByPath. rewrite Habs, Hsplit. cbn [negb index lookup list_lookup].
    destruct k; try discriminate; injection Hk as <- <-; reflexivity. }
  split; [exact Ht|]. unfold IsGlobalType. rewrite Ht.
  destruct k; try discriminate; injection Hk as <- <-; reflexivity.
Qed.

Lemma ValidatePath_under_run root (Path : M string) s id :
  Path s = Returned (id, s) ->
  ValidatePath_under root Path s
  = Returned (match ValidateGenericPath id with
              | Some e => Some e
              | None =>
                  match strings.Split id !! 1%nat with
                  | Some top =>
                      if String.eqb top root then None
                      else Some (Errorf "path %s is not rooted in /%s" [id; top])
                  | None => None
                  end
              end, s).
Proof.
  intros HP. unfold ValidatePath_under. rewrite run_bind, HP.
  destruct (ValidateGenericPath id) as [e|] eqn:Hv; [reflexivity|].
  pose proof (ValidateGenericPath_abs id Hv) as Habs.
  destruct (strings_Split_abs id Habs) as (top & rest & Hsplit).
  rewrite run_bind, HP. cbn beta iota zeta.
  rewrite Hsplit. unfold index. cbn [lookup list_lookup].
  rewrite run_bind, run_lift. cbn beta iota.
  destruct (String.eqb top root); cbn [negb]; [reflexivity|].
  rewrite run_bind, HP. cbn beta iota. rewrite run_bind, run_lift. reflexivity.
Qed.



(** X2.  [ValidatePath] of a Network, DNSRecord, Command or RemoteFile
    never fails on its index: it returns, leaving the state as it is.  It
    returns nil exactly when the generic check passes and the first
    directory of the path is the one of the kind; the error of the generic
    check comes first; under another directory the error names that
    directory.  A path that passes is classified by [TypeByPath] as the
    kind of its object, a global type. *)
Theorem ValidatePath_rooted
    (k : Kind) (root : string) (t : LFType) (s : State) (l : loc) (o : Obj) :
  top_directory k = Some (root, t) ->
  heap s !! l = Some o ->
  Obj_kind o = Some k ->
  exists r,
    ValidatePath k (Some l) s = Returned (r, s)
    /\ (r = None <->
        ValidateGenericPath (Obj_ID o) = None
        /\ strings.Split (Obj_ID o) !! 1%nat = Some root)
    /\ (forall e, ValidateGenericPath (Obj_ID o) = Some e -> r = Some e)
    /\ (forall top,
          ValidateGenericPath (Obj_ID o) = None ->
          strings.Split (Obj_ID o) !! 1%nat = Some top -> top <> root ->
          r = Some (Errorf "path %s is not rooted in /%s" [Obj_ID o; top]))
    /\ (r = None ->
        TypeByPath (Obj_ID o) = Returned t /\ IsGlobalType (Obj_ID o) = Returned true).
Proof.
  intros Hk E K.
  assert (exists Path,
             ValidatePath k (Some l) = ValidatePath_under root Path
             /\ Path s = Returned (Obj_ID o, s)) as (Path & -> & HP).
  { destruct k; try discriminate; injection Hk as <- <-;
      destruct o; try discriminate; eexists; (split; [reflexivity|]);
      unfold Network_Path, DNSRecord_Path, Command_Path, RemoteFile_Path;
      run; reflexivity. }
  rewrite (ValidatePath_under_run root Path s (Obj_ID o) HP).
  eexists. split; [reflexivity|].
  destruct (ValidateGenericPath (Obj_ID o)) as [e|] eqn:Hv.
  - split; [split; [discriminate | intros [? _]; discriminate]|].
    split; [now intros ? [= <-]|]. split; [discriminate | discriminate].
  - pose proof (ValidateGenericPath_abs _ Hv) as Habs.
    destruct (strings_Split_abs _ Habs) as (top & rest & Hsplit).
    rewrite Hsplit. cbn [lookup list_lookup].
    destruct (String.eqb top root) eqn:Htop.
    + apply String.eqb_eq in Htop. subst top.
      split; [split; auto|]. split; [discriminate|].
      split; [intros ? _ [= <-] Hne; congruence|].
      intros _. apply (TypeByPath_top_directory k root t _ rest Hk Habs Hsplit).
    + apply String.eqb_neq in Htop.
      split; [split; [discriminate | intros [_ [= ->]]; congruence]|].
      split; [discriminate|].
      split; [now intros ? _ [= <-] _ | discriminate].
Qed.



Lemma ValidatePath_rooted_dmz :
  top_directory KNetwork = Some ("networks", LFTypeNetwork)
  /\ heap two_records !! 2%nat = Some (ONetwork dmz_network)
  /\ ValidatePath KNetwork (Some 2%nat) two_records = Returned (None, two_records)
  /\ TypeByPath (Network_ID dmz_network) = Returned LFTypeNetwork
  /\ IsGlobalType (Network_ID dmz_network) = Returned true.
Proof.
  destruct (ValidatePath_rooted KNetwork "networks" LFTypeNetwork two_records 2%nat
              (ONetwork dmz_network) eq_refl eq_refl eq_refl)
    as (r & Hrun & Hnil & _ & _ & Htype).
  assert (r = None) as -> by (apply Hnil; split; reflexivity).
  split; [reflexivity|]. split; [reflexivity|]. split; [exact Hrun|].
  exact (Htype eq_refl).
Defined.

(** A record kept under the directory of the networks: the error names the
    directory the path is in. *)
Example DNSRecord_ValidatePath_misplaced :
  value (ValidatePath KDNSRecord (Some 0%nat)
           (initial [(0%nat, ODNSRecord (DNSRecord_relabel "/networks/www" [] www_record))]
                    [] obliging))
  = Returned (Some (Errorf "path %s is not rooted in /%s" ["/networks/www"; "networks"])).
Proof. reflexivity. Qed.

(** The three build artifacts are checked for syntax only: a connection
    may sit anywhere. *)
Example Connection_ValidatePath_anywhere :
  value (ValidatePath KConnection (Some 0%nat)
           (initial [(0%nat, OConnection (Connection_relabel "/networks/dmz" [] web01_conn))]
                    [] obliging))
  = Returned None.
Proof. reflexivity. Qed.

(* ===================================================================== *)
(** ** The classification of the paths of a build tree *)
(* ===================================================================== *)

Lemma strip_slashes_no_slash e :
  strings.HasSlash e = false -> path.strip_slashes e = e.
Proof.
  induction e as [|a e IH]; [reflexivity|].
  rewrite HasSlash_cons. intros Hs. apply orb_false_elim in Hs as [Ha He].
  simpl. rewrite (IH He), Ha. reflexivity.
Qed.

Lemma strip_slashes_app p e :
  e <> "" -> strings.HasSlash e = false ->
  path.strip_slashes (p +:+ e) = p +:+ e.
Proof.
  intros Hne Hs. induction p as [|a p IH].
  - rewrite append_nil_l. now apply strip_slashes_no_slash.
  - rewrite append_cons. simpl. rewrite IH.
    assert (String.eqb (p +:+ e) "" = false) as ->.
    { apply eqb_false_of_ne. destruct p; [now rewrite append_nil_l | discriminate]. }
    now rewrite andb_false_r.
Qed.

Lemma plain_not_empty e : plain e = true -> e <> "".
Proof. intros He ->. discriminate. Qed.

Lemma abs_path_snoc l e : abs_path (l ++ [e]) = abs_path l +:+ String slash e.
Proof.
  rewrite abs_path_app. f_equal. simpl. rewrite append_nil_r. reflexivity.
Qed.

(** [path.Base] of a clean absolute path is its last element. *)
Lemma Base_abs_path l e :
  plain e = true -> path.Base (abs_path (l ++ [e])) = e.
Proof.
  intros He. rewrite abs_path_snoc. unfold path.Base.
  assert (Hne : abs_path l +:+ String slash e <> "").
  { destruct (abs_path l); discriminate. }
  rewrite (eqb_false_of_ne _ _ Hne).
  assert (path.strip_slashes (abs_path l +:+ String slash e)
          = abs_path l +:+ String slash e) as ->.
  { replace (String slash e) with ("/" +:+ e) by reflexivity.
    rewrite <- append_assoc. rewrite strip_slashes_app.
    - reflexivity.
    - now apply plain_not_empty.
    - now apply plain_no_slash. }
  rewrite (eqb_false_of_ne _ _ Hne).
  rewrite path_Split_last; [reflexivity | now apply plain_no_slash].
Qed.

Lemma IsAbs_abs_path e l : path.IsAbs (abs_path (e :: l)) = true.
Proof. reflexivity. Qed.

Ltac plain_list :=
  solve [repeat (constructor; [assumption || reflexivity|]); constructor].

(** The tests of [TypeByPath], on a path with the elements [l]: what
    [Dir] and [Base] return. *)
Ltac dir_base :=
  repeat match goal with
    | |- context [path.Dir (abs_path ?l)] =>
        let l' := eval cbv in (List.removelast l) in
        let e := eval cbv in (List.last l "") in
        replace (path.Dir (abs_path l)) with (abs_path l')
          by (symmetry; apply (Dir_abs_path l' e);
              [plain_list | discriminate | assumption || reflexivity])
    | |- context [path.Base (abs_path ?l)] =>
        let l' := eval cbv in (List.removelast l) in
        let e := eval cbv in (List.last l "") in
        replace (path.Base (abs_path l)) with e
          by (symmetry; apply (Base_abs_path l' e); assumption || reflexivity)
    end.

Ltac classify :=
  unfold TypeByPath;
  match goal with
  | |- context [strings.Split (abs_path ?l)] =>
      rewrite (strings_Split_abs_path l) by first [discriminate | plain_list]
  end;
  rewrite IsAbs_abs_path;
  cbn [negb index lookup list_lookup];
  dir_base;
  repeat match goal with
    | H : ?x <> ?c |- context [String.eqb ?x ?c] =>
        rewrite (eqb_false_of_ne x c H)
    end.

(** X3.  In a build tree whose environment, build, team, network and host
    names are not reserved words of the classification, every path is
    classified as the kind of object that is kept there. *)
Theorem TypeByPath_build_tree (E B T N H S : string) :
  plain E = true -> plain B = true -> plain T = true ->
  plain N = true -> plain H = true -> plain S = true ->
  E <> "envs" -> B <> "envs" -> T <> "envs" -> N <> "envs" ->
  H <> "envs" -> H <> "teams" -> H <> "networks" -> H <> "hosts" ->
  TypeByPath (abs_path ["envs"; E]) = Returned LFTypeEnvironment
  /\ TypeByPath (abs_path ["envs"; E; B]) = Returned LFTypeBuild
  /\ TypeByPath (abs_path ["envs"; E; B; "teams"; T]) = Returned LFTypeTeam
  /\ TypeByPath (abs_path ["envs"; E; B; "teams"; T; "networks"; N])
     = Returned LFTypeProvisionedNetwork
  /\ TypeByPath (abs_path ["envs"; E; B; "teams"; T; "networks"; N; "hosts"; H])
     = Returned LFTypeProvisionedHost
  /\ TypeByPath (abs_path ["envs"; E; B; "teams"; T; "networks"; N; "hosts"; H; "conn"])
     = Returned LFTypeConnection
  /\ TypeByPath (abs_path ["envs"; E; B; "teams"; T; "networks"; N; "hosts"; H; "steps"; S])
     = Returned LFTypeProvisioningStep.
Proof.
  intros PE PB PT PN PH PS HE HB HT HN H1 H2 H3 H4.
  repeat split.
  - classify. reflexivity.
  - classify. reflexivity.
  - classify. reflexivity.
  - classify. reflexivity.
  - classify. reflexivity.
  - classify. reflexivity.
  - classify. destruct (String.eqb S "conn"); reflexivity.
Qed.

Lemma TypeByPath_build_tree_ctf2024 :
  TypeByPath "/envs/ctf2024" = Returned LFTypeEnvironment
  /\ TypeByPath "/envs/ctf2024/build1" = Returned LFTypeBuild
  /\ TypeByPath "/envs/ctf2024/build1/teams/team-01" = Returned LFTypeTeam
  /\ TypeByPath "/envs/ctf2024/build1/teams/team-01/networks/dmz"
     = Returned LFTypeProvisionedNetwork
  /\ TypeByPath "/envs/ctf2024/build1/teams/team-01/networks/dmz/hosts/web01"
     = Returned LFTypeProvisionedHost
  /\ TypeByPath "/envs/ctf2024/build1/teams/team-01/networks/dmz/hosts/web01/conn"
     = Returned LFTypeConnection
  /\ TypeByPath
       "/envs/ctf2024/build1/teams/team-01/networks/dmz/hosts/web01/steps/0-recon"
     = Returned LFTypeProvisioningStep.
Proof.
  apply (TypeByPath_build_tree "ctf2024" "build1" "team-01" "dmz" "web01" "0-recon");
    (reflexivity || discriminate).
Defined.

(** Reserved words as names: the provisioned networks of a team called
    [envs] are taken for builds, and the connection of a host called
    [teams] for a team. *)
Example TypeByPath_reserved_names :
  map TypeByPath
    ["/envs/ctf2024/build1/teams/envs/networks/dmz";
     "/envs/ctf2024/build1/teams/team-01/networks/dmz/hosts/teams/conn"]
  = [Returned LFTypeBuild; Returned LFTypeTeam].
Proof. reflexivity. Qed.

(* ===================================================================== *)
(** ** [GetTeamIDFromPath] *)
(* ===================================================================== *)

Lemma strings_Join_cons x y l sep :
  strings.Join (x :: y :: l) sep = x +:+ sep +:+ strings.Join (y :: l) sep.
Proof. reflexivity. Qed.

(** Splitting at the slashes and joining with slashes gives the string
    back. *)
Lemma strings_Join_Split p : strings.Join (strings.Split p) "/" = p.
Proof.
  induction p as [|a p IH]; [reflexivity|].
  cbn [strings.Split]. destruct (is_slash a) eqn:Ha.
  - unfold is_slash in Ha. apply Ascii.eqb_eq in Ha. subst a.
    destruct (strings.Split p) as [|x xs] eqn:E; [now apply Split_not_nil in E|].
    rewrite strings_Join_cons, IH. reflexivity.
  - destruct (strings.Split p) as [|x xs] eqn:E; [now apply Split_not_nil in E|].
    rewrite <- IH. destruct xs as [|y ys]; [reflexivity|].
    rewrite !strings_Join_cons. apply append_cons.
Qed.

Lemma strings_Join_app l1 l2 sep :
  l1 <> [] -> l2 <> [] ->
  strings.Join (l1 ++ l2) sep
  = strings.Join l1 sep +:+ sep +:+ strings.Join l2 sep.
Proof.
  intros H1 H2. induction l1 as [|x l1 IH]; [congruence|].
  destruct l1 as [|y l1].
  - destruct l2 as [|z l2]; [congruence|]. reflexivity.
  - change ((x :: y :: l1) ++ l2)%list with (x :: y :: (l1 ++ l2))%list.
    rewrite !strings_Join_cons.
    change (y :: (l1 ++ l2))%list with ((y :: l1) ++ l2)%list.
    rewrite IH by discriminate. rewrite !append_assoc. reflexivity.
Qed.

Lemma strings_Split_no_slash p :
  Forall (fun e => strings.HasSlash e = false) (strings.Split p).
Proof.
  induction p as [|a p IH]; [repeat constructor|].
  cbn [strings.Split]. destruct (is_slash a) eqn:Ha.
  - constructor; [reflexivity | exact IH].
  - destruct (strings.Split p) as [|x xs]; [repeat constructor|].
    + rewrite HasSlash_cons, Ha. reflexivity.
    + inversion IH as [|? ? Hx Hxs]; subst. constructor; [|exact Hxs].
      rewrite HasSlash_cons, Ha, Hx. reflexivity.
Qed.

Lemma strings_Split_no_slash_one e :
  strings.HasSlash e = false -> strings.Split e = [e].
Proof.
  induction e as [|a e IH]; [reflexivity|].
  rewrite HasSlash_cons. intros Hs. apply orb_false_elim in Hs as [Ha He].
  cbn [strings.Split]. rewrite Ha, (IH He). reflexivity.
Qed.

(** Joining slash-free elements and splitting again gives the elements
    back. *)
Lemma strings_Split_Join l :
  l <> [] -> Forall (fun e => strings.HasSlash e = false) l ->
  strings.Split (strings.Join l "/") = l.
Proof.
  intros Hne Hl. induction l as [|x l IH]; [congruence|].
  inversion Hl as [|? ? Hx Hrest]; subst.
  destruct l as [|y l].
  - now apply strings_Split_no_slash_one.
  - rewrite strings_Join_cons.
    rewrite strings_Split_prefix by exact Hx.
    change ("/" +:+ strings.Join (y :: l) "/")
      with (String slash (strings.Join (y :: l) "/")).
    change (strings.Split (String slash (strings.Join (y :: l) "/")))
      with ("" :: strings.Split (strings.Join (y :: l) "/")).
    rewrite IH by (discriminate || exact Hrest).
    cbn [hd tl]. rewrite append_nil_r. reflexivity.
Qed.

Lemma Forall_take {A} (P : A -> Prop) n (l : list A) : Forall P l -> Forall P (take n l).
Proof.
  intros Hl. revert n. induction Hl as [|x l Hx Hl IH]; intros [|n]; simpl;
    constructor; auto.
Qed.

(** X4.  When [GetTeamIDFromPath] succeeds, the path is absolute and
    starts with [/envs/]; the ID returned is the part of the path up to,
    and without, its sixth slash (the whole path when it has five), and
    asking for the team of that ID gives it back.  When it fails, the ID
    returned is empty. *)
Theorem GetTeamIDFromPath_prefix (p id : string) (err : option error) :
  GetTeamIDFromPath p = (id, err) ->
  (err = None ->
     path.IsAbs p = true
     /\ strings.Split id = take 6 (strings.Split p)
     /\ length (strings.Split id) = 6%nat
     /\ strings.Split id !! 1%nat = Some "envs"
     /\ (exists rest, p = id +:+ rest /\ (rest = "" \/ path.IsAbs rest = true))
     /\ GetTeamIDFromPath id = (id, None))
  /\ (err <> None -> id = "").
Proof.
  unfold GetTeamIDFromPath.
  destruct (path.IsAbs p) eqn:Habs; cbn [negb];
    [|intros [= <- <-]; split; [discriminate | reflexivity]].
  destruct (length (strings.Split p) <? 6)%nat eqn:Hlen;
    [intros [= <- <-]; split; [discriminate | reflexivity]|].
  apply Nat.ltb_ge in Hlen.
  destruct (String.eqb (nth 1 (strings.Split p) "") "envs") eqn:Henvs; cbn [negb];
    [|intros [= <- <-]; split; [discriminate | reflexivity]].
  apply String.eqb_eq in Henvs.
  intros [= <- <-]. split; [intros _ | congruence].
  set (l := strings.Split p) in *.
  assert (Hno : Forall (fun e => strings.HasSlash e = false) l)
    by apply strings_Split_no_slash.
  assert (Htake : take 6 l <> []).
  { destruct l; [simpl in Hlen; lia | discriminate]. }
  assert (Hsplit : strings.Split (strings.Join (take 6 l) "/") = take 6 l).
  { apply strings_Split_Join; [exact Htake | now apply Forall_take]. }
  assert (Hl6 : length (take 6 l) = 6%nat) by (rewrite length_take; lia).
  assert (Hfirst : exists rest', l = ("" :: "envs" :: rest')%list) .
  { destruct (strings_Split_abs p Habs) as (top & rest' & E).
    fold l in E. rewrite E in Henvs. simpl in Henvs. subst top. eauto. }
  destruct Hfirst as (rest' & El).
  split; [reflexivity|]. split; [exact Hsplit|].
  split; [now rewrite Hsplit|].
  split; [rewrite Hsplit, El; reflexivity|].
  split.
  - destruct (drop 6 l) as [|x xs] eqn:Hdrop.
    + exists "". split; [|now left].
      rewrite append_nil_r. rewrite <- (strings_Join_Split p) at 1. fold l.
      rewrite <- (take_drop 6 l) at 1. rewrite Hdrop, app_nil_r. reflexivity.
    + exists ("/" +:+ strings.Join (x :: xs) "/"). split; [|now right].
      rewrite <- (strings_Join_Split p) at 1. fold l.
      rewrite <- (take_drop 6 l) at 1. rewrite Hdrop.
      apply strings_Join_app; [exact Htake | discriminate].
  - assert (path.IsAbs (strings.Join (take 6 l) "/") = true) as ->.
    { rewrite El. reflexivity. }
    assert (Hnth : nth 1 (take 6 l) "" = "envs") by (rewrite El; reflexivity).
    rewrite Hsplit, Hl6, Hnth.
    rewrite (take_ge (take 6 l)) by lia.
    reflexivity.
Qed.

Lemma GetTeamIDFromPath_prefix_web01 :
  GetTeamIDFromPath "/envs/ctf2024/build1/teams/team-01/networks/dmz/hosts/web01"
  = ("/envs/ctf2024/build1/teams/team-01", None)
  /\ strings.Split "/envs/ctf2024/build1/teams/team-01"
     = [""; "envs"; "ctf2024"; "build1"; "teams"; "team-01"]
  /\ GetTeamIDFromPath "/envs/ctf2024/build1/teams/team-01"
     = ("/envs/ctf2024/build1/teams/team-01", None).
Proof.
  destruct (GetTeamIDFromPath_prefix
              "/envs/ctf2024/build1/teams/team-01/networks/dmz/hosts/web01"
              "/envs/ctf2024/build1/teams/team-01" None eq_refl)
    as [Hok _].
  destruct (Hok eq_refl) as (_ & Hsplit & _ & _ & _ & Hagain).
  split; [reflexivity|]. split; [exact Hsplit | exact Hagain].
Defined.

(** The fourth element is not looked at, and a build has no team. *)
Example GetTeamIDFromPath_cases :
  map GetTeamIDFromPath
    ["/envs/ctf2024/build1/hosts/web01/conn"; "/envs/ctf2024/build1";
     "/networks/a/b/c/d"; "envs/ctf2024/build1/teams/team-01"]
  = [("/envs/ctf2024/build1/hosts/web01", None);
     ("", Some (errors.New
        "path does not meet minimum expected structure for team identification"));
     ("", Some (errors.New "path is not rooted inside an environment"));
     ("", Some (errors.New "not a valid absolute path ID schema"))].
Proof. reflexivity. Qed.

(* ===================================================================== *)
(** ** The paths that [SetID] builds *)
(* ===================================================================== *)

(** [path.Join] of a clean absolute path and plain elements. *)
Lemma path_Join_abs_path l rest :
  Forall (fun e => plain e = true) l -> l <> [] ->
  Forall (fun e => plain e = true) rest ->
  path.Join (abs_path l :: rest) = abs_path (l ++ rest).
Proof.
  intros Hl Hne Hrest. unfold path.Join.
  rewrite (eqb_false_of_ne _ _ (abs_path_not_empty l Hne)).
  assert (strings.Join (abs_path l :: rest) "/" = abs_path (l ++ rest)) as ->.
  { destruct rest as [|x rest]; [now rewrite app_nil_r|].
    rewrite strings_Join_cons, abs_path_app.
    rewrite (Join_abs_path (x :: rest)) by discriminate. reflexivity. }
  apply Clean_abs_path.
  - apply Forall_app. now split.
  - destruct l; [congruence | discriminate].
Qed.

Lemma HasSlash_app a b :
  strings.HasSlash (a +:+ b) = strings.HasSlash a || strings.HasSlash b.
Proof.
  induction a as [|x a IH]; [now rewrite append_nil_l|].
  rewrite append_cons, !HasSlash_cons, IH. now rewrite orb_assoc.
Qed.

Lemma pretty_N_char_not_slash d : is_slash (pretty_N_char d) = false.
Proof. unfold pretty_N_char. repeat case_match; reflexivity. Qed.

Lemma pretty_N_char_not_dot d : pretty_N_char d <> "."%char.
Proof. unfold pretty_N_char. repeat case_match; discriminate. Qed.

Lemma pretty_N_go_no_slash x s :
  strings.HasSlash (pretty_N_go x s) = strings.HasSlash s.
Proof.
  revert s. induction (N.lt_wf_0 x) as [x _ IH]; intros s.
  assert (x = 0 \/ 0 < x)%N as [->|Hx] by lia.
  - now rewrite pretty_N_go_0.
  - rewrite pretty_N_go_step by exact Hx.
    rewrite IH by (now apply N.div_lt).
    rewrite HasSlash_cons, pretty_N_char_not_slash. reflexivity.
Qed.

Lemma pretty_N_go_first x s :
  first_byte s <> "."%char -> first_byte (pretty_N_go x s) <> "."%char.
Proof.
  revert s. induction (N.lt_wf_0 x) as [x _ IH]; intros s Hs.
  assert (x = 0 \/ 0 < x)%N as [->|Hx] by lia.
  - now rewrite pretty_N_go_0.
  - rewrite pretty_N_go_step by exact Hx.
    apply IH; [now apply N.div_lt|]. apply pretty_N_char_not_dot.
Qed.

Lemma pretty_N_go_pos_first p :
  first_byte (pretty_N_go (N.pos p) "") <> "."%char.
Proof.
  rewrite pretty_N_go_step by lia.
  apply pretty_N_go_first. apply pretty_N_char_not_dot.
Qed.

Lemma int_v_no_slash z : strings.HasSlash (fmt.int_v z) = false.
Proof.
  unfold fmt.int_v, pretty, pretty_Z. destruct z as [|p|p]; [reflexivity| |].
  - unfold pretty, pretty_positive, pretty, pretty_N.
    case_decide; [reflexivity|]. now rewrite pretty_N_go_no_slash.
  - rewrite HasSlash_app. unfold pretty, pretty_positive, pretty, pretty_N.
    case_decide; [reflexivity|]. now rewrite pretty_N_go_no_slash.
Qed.

Lemma int_v_first z : first_byte (fmt.int_v z) <> "."%char.
Proof.
  unfold fmt.int_v, pretty, pretty_Z. destruct z as [|p|p]; [discriminate| |].
  - unfold pretty, pretty_positive, pretty, pretty_N.
    case_decide; [discriminate|]. apply pretty_N_go_pos_first.
  - discriminate.
Qed.

Lemma plain_first e :
  first_byte e <> "."%char -> strings.HasSlash e = false -> plain e = true.
Proof.
  destruct e as [|a e]; [intros Hf; now contradiction Hf|].
  cbn [first_byte]. rewrite HasSlash_cons. intros Hd Hs.
  apply orb_false_elim in Hs as [Ha He]. unfold plain.
  rewrite HasSlash_cons, Ha, He.
  assert (String.eqb (String a e) "" = false) as -> by reflexivity.
  assert (String.eqb (String a e) "." = false) as ->
    by (apply eqb_false_of_ne; intros [= -> _]; now apply Hd).
  assert (String.eqb (String a e) ".." = false) as ->
    by (apply eqb_false_of_ne; intros [= -> _]; now apply Hd).
  reflexivity.
Qed.

Lemma first_byte_app a b : a <> "" -> first_byte (a +:+ b) = first_byte a.
Proof. destruct a; [congruence | reflexivity]. Qed.

(** The name of a step is a plain path element, whatever the number. *)
Lemma plain_step_name number base :
  plain base = true -> plain (step_name number base) = true.
Proof.
  intros Hb. unfold step_name. apply plain_first.
  - rewrite first_byte_app.
    + apply int_v_first.
    + intros E. pose proof (int_v_first number) as Hf. rewrite E in Hf.
      now apply Hf.
  - rewrite !HasSlash_app, int_v_no_slash, (plain_no_slash base Hb). reflexivity.
Qed.

Lemma lookup_with_heap_insert s l o :
  heap (with_heap (<[l := o]> (heap s)) s) !! l = Some o.
Proof. apply lookup_insert_eq. Qed.

(** X5.  [SetID] on a connection without a path, linked to a provisioned
    host with a clean absolute path: the path becomes that of the host
    followed by [conn], nothing else in the store changes, and from then
    on [ParentLaforgeID] is the path of the host and [Base] is [conn]. *)
Theorem Connection_SetID_builds
    (s : State) (c lph : loc) (v : Connection) (ph : ProvisionedHost)
    (host : list string) :
  heap s !! c = Some (OConnection v) ->
  Connection_ID v = "" ->
  Connection_ProvisionedHost v = Some lph ->
  heap s !! lph = Some (OProvisionedHost ph) ->
  ProvisionedHost_ID ph = abs_path host ->
  Forall (fun e => plain e = true) host ->
  host <> [] ->
  let id := abs_path (host ++ ["conn"]) in
  let s1 := with_heap (<[c := OConnection (Connection_set_ID id v)]> (heap s)) s in
  Connection_SetID (Some c) s = Returned (id, s1)
  /\ Connection_ParentLaforgeID (Some c) s1 = Returned (ProvisionedHost_ID ph, s1)
  /\ Connection_Base (Some c) s1 = Returned ("conn", s1).
Proof.
  intros E Hid Hph Elph Hhost Hplain Hne id s1.
  assert (path.Join [ProvisionedHost_ID ph; "conn"] = id) as Hjoin.
  { rewrite Hhost. apply path_Join_abs_path; auto; repeat constructor. }
  assert (heap s1 !! c = Some (OConnection (Connection_set_ID id v))) as E1
    by apply lookup_with_heap_insert.
  split; [|split].
  - rewrite (Connection_SetID_unassigned s c v E Hid), Hph.
    rewrite (run_load_ProvisionedHost s lph ph Elph). cbn zeta.
    now rewrite Hjoin.
  - unfold Connection_ParentLaforgeID, Connection_Path. run.
    cbn [Connection_set_ID Connection_relabel Connection_ID].
    unfold id. rewrite Dir_abs_path; auto. now rewrite Hhost.
  - unfold Connection_Base. run.
    cbn [Connection_set_ID Connection_relabel Connection_ID].
    unfold id. now rewrite Base_abs_path.
Qed.

Lemma with_heap_insert_twice s l o1 o2 :
  with_heap (<[l := o2]> (heap (with_heap (<[l := o1]> (heap s)) s)))
            (with_heap (<[l := o1]> (heap s)) s)
  = with_heap (<[l := o2]> (heap s)) s.
Proof.
  unfold with_heap. cbn [heap files remote trace]. f_equal. apply insert_insert_eq.
Qed.

(** X6.  [SetID] on a provisioned network without a path, linked to a team
    with a clean absolute path and to a network: the path becomes that of
    the team, then [networks], then the base name of the network; an empty
    [NetworkID] becomes the path of the network and a set one is kept;
    nothing else changes.  From then on [ParentLaforgeID] is the path of
    the team and [Base] the base name of the network. *)
Theorem ProvisionedNetwork_SetID_builds
    (s : State) (p lt ln : loc) (v : ProvisionedNetwork) (t : Team) (n : Network)
    (team dir : list string) (name : string) :
  heap s !! p = Some (OProvisionedNetwork v) ->
  ProvisionedNetwork_ID v = "" ->
  ProvisionedNetwork_Team v = Some lt ->
  heap s !! lt = Some (OTeam t) ->
  Team_ID t = abs_path team ->
  Forall (fun e => plain e = true) team ->
  team <> [] ->
  ProvisionedNetwork_Network v = Some ln ->
  heap s !! ln = Some (ONetwork n) ->
  Network_ID n = abs_path (dir ++ [name]) ->
  plain name = true ->
  let id := abs_path (team ++ ["networks"; name]) in
  let nid := if String.eqb (ProvisionedNetwork_NetworkID v) ""
             then Network_ID n else ProvisionedNetwork_NetworkID v in
  let s1 := with_heap
              (<[p := OProvisionedNetwork
                        (ProvisionedNetwork_assign id (ProvisionedNetwork_Caller v) nid v)]>
                 (heap s)) s in
  ProvisionedNetwork_SetID (Some p) s = Returned (id, s1)
  /\ ProvisionedNetwork_ParentLaforgeID (Some p) s1 = Returned (Team_ID t, s1)
  /\ ProvisionedNetwork_Base (Some p) s1 = Returned (name, s1).
Proof.
  intros E Hid Ht Elt Hteam Hplain Hne Hn Eln Hnet Hname id nid s1.
  assert (path.Join [Team_ID t; "networks"; path.Base (Network_ID n)] = id) as Hjoin.
  { rewrite Hteam, Hnet, (Base_abs_path dir name Hname).
    apply path_Join_abs_path; auto; repeat constructor; exact Hname. }
  assert (heap s1 !! p
          = Some (OProvisionedNetwork
                    (ProvisionedNetwork_assign id (ProvisionedNetwork_Caller v) nid v)))
    as E1 by apply lookup_with_heap_insert.
  split; [|split].
  - unfold ProvisionedNetwork_SetID, ProvisionedNetwork_assign_ID, Team_Path, Network_Base.
    run. rewrite Hid. change (String.eqb "" "") with true. cbn iota.
    rewrite Ht, Hn. run. rewrite (run_load_Team s lt t Elt). cbn beta iota. run.
    rewrite Hjoin.
    set (v0 := ProvisionedNetwork_set_ID id v).
    set (s0 := with_heap (<[p := OProvisionedNetwork v0]> (heap s)) s).
    assert (heap s0 !! p = Some (OProvisionedNetwork v0)) as E0
      by apply lookup_with_heap_insert.
    assert (heap s0 !! ln = Some (ONetwork n)) as Eln0.
    { unfold s0. cbn [heap with_heap]. rewrite lookup_insert_ne; [exact Eln|].
      intros ->. rewrite E in Eln. discriminate. }
    unfold ProvisionedNetwork_assign_NetworkID, Network_Path. run.
    change (ProvisionedNetwork_NetworkID v0) with (ProvisionedNetwork_NetworkID v).
    unfold nid in *. unfold s1 in *.
    destruct (String.eqb (ProvisionedNetwork_NetworkID v) "") eqn:Hnid.
    + change (ProvisionedNetwork_Network v0) with (ProvisionedNetwork_Network v).
      rewrite Hn. run. unfold s0 at 1 2. rewrite with_heap_insert_twice.
      change (ProvisionedNetwork_set_NetworkID (Network_ID n) v0)
        with (ProvisionedNetwork_assign id (ProvisionedNetwork_Caller v) (Network_ID n) v).
      run. reflexivity.
    + run. reflexivity.
  - unfold ProvisionedNetwork_ParentLaforgeID, ProvisionedNetwork_LaforgeID. run.
    cbn [ProvisionedNetwork_assign ProvisionedNetwork_ID].
    unfold id. rewrite (Dir_Dir_abs_path team "networks" name); auto.
    now rewrite Hteam.
  - unfold ProvisionedNetwork_Base. run.
    cbn [ProvisionedNetwork_assign ProvisionedNetwork_ID].
    unfold id.
    change (team ++ ["networks"; name])%list with (team ++ ["networks"] ++ [name])%list.
    rewrite app_assoc. now rewrite Base_abs_path.
Qed.

(** [Base()] of a live provisioner. *)
Lemma Provisioner_Base_run s k q o :
  provisions k = true ->
  heap s !! q = Some o -> Obj_kind o = Some k ->
  Provisioner_Base (iptr k (Some q)) s = Returned (path.Base (Obj_ID o), s).
Proof.
  intros Hk E K.
  destruct k; try discriminate; destruct o; try discriminate;
    unfold Provisioner_Base, Command_Base, DNSRecord_Base, RemoteFile_Base;
    run; try reflexivity.
  unfold load_Script. rewrite run_bind, (run_load _ _ _ E). reflexivity.
Qed.

(** X7.  [SetID] on a provisioning step without a path, linked to a
    provisioned host with a clean absolute path and to a provisioner (a
    Command, DNSRecord, RemoteFile or Script): the path becomes that of
    the host, then [steps], then the step number, a dash and the base
    name of the provisioner; the field of the provisioner's type is set
    to the provisioner; nothing else changes.  From then on
    [ParentLaforgeID] is the path of the host. *)
Theorem ProvisioningStep_SetID_builds
    (s : State) (p lph q : loc) (v : ProvisioningStep) (ph : ProvisionedHost)
    (k : Kind) (o : Obj) (host dir : list string) (name : string) :
  heap s !! p = Some (OProvisioningStep v) ->
  ProvisioningStep_ID v = "" ->
  ProvisioningStep_ProvisionedHost v = Some lph ->
  heap s !! lph = Some (OProvisionedHost ph) ->
  ProvisionedHost_ID ph = abs_path host ->
  Forall (fun e => plain e = true) host ->
  host <> [] ->
  ProvisioningStep_Provisioner v = iptr k (Some q) ->
  provisions k = true ->
  heap s !! q = Some o ->
  Obj_kind o = Some k ->
  Obj_ID o = abs_path (dir ++ [name]) ->
  plain name = true ->
  let id := abs_path (host ++ ["steps"; step_name (ProvisioningStep_StepNumber v) name]) in
  let s1 := with_heap
              (<[p := OProvisioningStep
                        (ProvisioningStep_typed (ProvisioningStep_set_ID id v))]>
                 (heap s)) s in
  ProvisioningStep_SetID (Some p) s = Returned (id, s1)
  /\ ProvisioningStep_ParentLaforgeID (Some p) s1 = Returned (ProvisionedHost_ID ph, s1)
  /\ ProvisioningStep_Base (Some p) s1
     = Returned (step_name (ProvisioningStep_StepNumber v) name, s1).
Proof.
  intros E Hid Hph Elph Hhost Hplain Hne Hprov Hk Eq K Ho Hname id s1.
  pose proof (plain_step_name (ProvisioningStep_StepNumber v) name Hname) as Hstep.
  assert (path.Join [ProvisionedHost_ID ph; "steps";
                     fmt.int_v (ProvisioningStep_StepNumber v) +:+ "-"
                     +:+ path.Base (Obj_ID o)] = id) as Hjoin.
  { rewrite Hhost, Ho, (Base_abs_path dir name Hname).
    apply path_Join_abs_path; auto; repeat constructor; exact Hstep. }
  assert (heap s1 !! p
          = Some (OProvisioningStep
                    (ProvisioningStep_typed (ProvisioningStep_set_ID id v))))
    as E1 by apply lookup_with_heap_insert.
  assert (ProvisioningStep_ID (ProvisioningStep_typed (ProvisioningStep_set_ID id v)) = id)
    as Hid1 by (now rewrite ProvisioningStep_typed_ID).
  split; [|split].
  - unfold ProvisioningStep_SetID, ProvisioningStep_assign_ID, ProvisionedHost_Path.
    run. rewrite Hid. change (String.eqb "" "") with true. cbn iota.
    rewrite Hph, Hprov. run.
    rewrite (Provisioner_Base_run s k q o Hk Eq K). cbn beta iota. run.
    rewrite Hjoin.
    set (v0 := ProvisioningStep_set_ID id v).
    set (s0 := with_heap (<[p := OProvisioningStep v0]> (heap s)) s).
    assert (heap s0 !! p = Some (OProvisioningStep v0)) as E0
      by apply lookup_with_heap_insert.
    rewrite (ProvisioningStep_assign_provisioner_run s0 p v0 E0). cbn beta iota.
    unfold s0 at 1 2. rewrite with_heap_insert_twice. fold s1.
    run. now rewrite Hid1.
  - unfold ProvisioningStep_ParentLaforgeID, ProvisioningStep_LaforgeID. run.
    rewrite Hid1. unfold id.
    rewrite (Dir_Dir_abs_path host "steps" _); auto. now rewrite Hhost.
  - unfold ProvisioningStep_Base. run. rewrite Hid1. unfold id.
    change (host ++ ["steps"; step_name (ProvisioningStep_StepNumber v) name])%list
      with (host ++ ["steps"] ++ [step_name (ProvisioningStep_StepNumber v) name])%list.
    rewrite app_assoc. now rewrite Base_abs_path.
Qed.

Lemma Connection_SetID_builds_web01 :
  exists s1,
    Connection_SetID (Some 18%nat) deployed
    = Returned ("/envs/ctf2024/build1/teams/team-01/networks/dmz/hosts/web01/conn", s1)
    /\ Connection_ParentLaforgeID (Some 18%nat) s1
       = Returned ("/envs/ctf2024/build1/teams/team-01/networks/dmz/hosts/web01", s1)
    /\ Connection_Base (Some 18%nat) s1 = Returned ("conn", s1).
Proof.
  eexists.
  apply (Connection_SetID_builds deployed 18%nat 15%nat web01_ssh web01_provisioned
           web01_path);
    try reflexivity; [repeat constructor | discriminate].
Defined.

Lemma ProvisionedNetwork_SetID_builds_dmz :
  exists s1,
    ProvisionedNetwork_SetID (Some 20%nat) planned
    = Returned ("/envs/ctf2024/build1/teams/team-01/networks/dmz", s1)
    /\ ProvisionedNetwork_ParentLaforgeID (Some 20%nat) s1
       = Returned ("/envs/ctf2024/build1/teams/team-01", s1)
    /\ ProvisionedNetwork_Base (Some 20%nat) s1 = Returned ("dmz", s1).
Proof.
  eexists.
  apply (ProvisionedNetwork_SetID_builds planned 20%nat 11%nat 12%nat dmz_planned
           {| Team_ID := "/envs/ctf2024/build1/teams/team-01" |} dmz_network
           ["envs"; "ctf2024"; "build1"; "teams"; "team-01"] ["networks"] "dmz");
    try reflexivity; [repeat constructor | discriminate].
Defined.

Lemma ProvisioningStep_SetID_builds_recon :
  exists s1,
    ProvisioningStep_SetID (Some 21%nat) planned
    = Returned
        ("/envs/ctf2024/build1/teams/team-01/networks/dmz/hosts/web01/steps/0-recon-script",
         s1)
    /\ heap s1 !! 21%nat
       = Some (OProvisioningStep (ProvisioningStep_set_Command (Some 16%nat) web01_step))
    /\ ProvisioningStep_ParentLaforgeID (Some 21%nat) s1
       = Returned ("/envs/ctf2024/build1/teams/team-01/networks/dmz/hosts/web01", s1).
Proof.
  destruct (ProvisioningStep_SetID_builds planned 21%nat 15%nat 16%nat
              web01_step_planned web01_provisioned KCommand (OCommand recon_script)
              web01_path ["commands"] "recon-script")
    as (Hset & Hparent & _);
    try reflexivity; [repeat constructor | discriminate |].
  eexists. split; [exact Hset|]. split; [reflexivity | exact Hparent].
Defined.

(** A step number below zero, and a provisioner without a path of its
    own. *)
Example step_name_cases :
  [step_name (-1) "recon-script"; step_name 12 (path.Base "")] = ["-1-recon-script"; "12-."].
Proof. reflexivity. Qed.

(** Without a provisioned host, [SetID] on a connection that has no path
    yet ends in a nil dereference; with a path it returns it. *)
Example Connection_SetID_unlinked :
  value (Connection_SetID (Some 0%nat)
           (initial [(0%nat, OConnection
                               (Connection_relabel "" [] web01_unlinked))] [] obliging))
  = Panicked nil_dereference
  /\ value (Connection_SetID (Some 0%nat)
              (initial [(0%nat, OConnection web01_unlinked)] [] obliging))
     = Returned "/envs/ctf2024/build1/teams/team-01/networks/dmz/hosts/web01/conn".
Proof. split; reflexivity. Qed.

(* ===================================================================== *)
(** ** What the checksums depend on *)
(* ===================================================================== *)

Section HashedFields.

Context `{Externals}.

Lemma RemoteFile_Hash_readable s r v content :
  heap s !! r = Some (ORemoteFile v) ->
  files s !! RemoteFile_AbsPath v = Some (Regular content) ->
  RemoteFile_Hash (Some r) s
  = Returned (xxhash.Sum64String (RemoteFile_preimage v (xxhash.Sum64 content)), s).
Proof.
  intros E F. unfold RemoteFile_Hash. run.
  rewrite (RemoteFile_ResourceHash_readable s r v content E F). run. reflexivity.
Qed.

Lemma RemoteFile_preimage_fields v1 v2 source :
  hashed (ORemoteFile v1) = hashed (ORemoteFile v2) ->
  RemoteFile_preimage v1 source = RemoteFile_preimage v2 source.
Proof.
  intros [= H1 H2 H3 H4 H5 H6 _]. unfold RemoteFile_preimage.
  now rewrite H1, H2, H3, H4, H5, H6.
Qed.

Lemma RemoteFile_Hash_fields s r1 r2 v1 v2 :
  heap s !! r1 = Some (ORemoteFile v1) ->
  heap s !! r2 = Some (ORemoteFile v2) ->
  hashed (ORemoteFile v1) = hashed (ORemoteFile v2) ->
  value (RemoteFile_Hash (Some r1) s) = value (RemoteFile_Hash (Some r2) s).
Proof.
  intros E1 E2 Hh.
  assert (RemoteFile_AbsPath v1 = RemoteFile_AbsPath v2) as Hpath
    by (now injection Hh).
  destruct (files s !! RemoteFile_AbsPath v1) as [[content| |reason]|] eqn:F.
  - rewrite (RemoteFile_Hash_readable s r1 v1 content E1 F).
    rewrite Hpath in F.
    rewrite (RemoteFile_Hash_readable s r2 v2 content E2 F).
    cbn [value]. now rewrite (RemoteFile_preimage_fields v1 v2 _ Hh).
  - rewrite (RemoteFile_Hash_unreadable s r1 v1 E1) by (unfold unreadable; now rewrite F).
    rewrite Hpath in F.
    rewrite (RemoteFile_Hash_unreadable s r2 v2 E2) by (unfold unreadable; now rewrite F).
    now rewrite (RemoteFile_preimage_fields v1 v2 _ Hh).
  - rewrite (RemoteFile_Hash_unreadable s r1 v1 E1) by (unfold unreadable; now rewrite F).
    rewrite Hpath in F.
    rewrite (RemoteFile_Hash_unreadable s r2 v2 E2) by (unfold unreadable; now rewrite F).
    now rewrite (RemoteFile_preimage_fields v1 v2 _ Hh).
  - rewrite (RemoteFile_Hash_unreadable s r1 v1 E1) by (unfold unreadable; now rewrite F).
    rewrite Hpath in F.
    rewrite (RemoteFile_Hash_unreadable s r2 v2 E2) by (unfold unreadable; now rewrite F).
    now rewrite (RemoteFile_preimage_fields v1 v2 _ Hh).
Qed.

(** X8.  The checksum of an object of one of the seven kinds is
    determined by the fields that its [Hash] method prints: two objects
    of one kind in a store that agree on them have the same checksum,
    whatever their tags, conflict policies, names, descriptions, back
    references and, except for a Connection, paths. *)
Theorem Hash_reads_hashed_fields (k : Kind) (s : State) (l1 l2 : loc) (o1 o2 : Obj) :
  mergeable k = true ->
  heap s !! l1 = Some o1 ->
  heap s !! l2 = Some o2 ->
  Obj_kind o1 = Some k ->
  hashed o1 = hashed o2 ->
  value (Hash k (Some l1) s) = value (Hash k (Some l2) s).
Proof.
  intros Hk E1 E2 K Hh.
  destruct o1 as [v1|v1|v1|v1|v1|v1|v1| | | | | | | |]; try discriminate;
    destruct o2 as [v2|v2|v2|v2|v2|v2|v2| | | | | | | |]; try discriminate;
    injection K as <-; try discriminate; unfold Hash.
  - injection Hh as H1 H2 H3 H4. unfold Network_Hash. run.
    now rewrite H1, H2, H3, H4.
  - injection Hh as H1 H2 H3 H4 H5 H6. unfold DNSRecord_Hash. run.
    now rewrite H1, H2, H3, H4, H5, H6.
  - injection Hh as H1 H2 H3 H4 H5 H6 H7. unfold Command_Hash. run.
    now rewrite H1, H2, H3, H4, H5, H6, H7.
  - exact (RemoteFile_Hash_fields s l1 l2 v1 v2 E1 E2 Hh).
  - injection Hh as H1 H2 H3 H4. unfold ProvisioningStep_Hash. run.
    now rewrite H1, H2, H3, H4.
  - injection Hh as H1 H2 H3 H4 H5. unfold ProvisionedNetwork_Hash. run.
    now rewrite H1, H2, H3, H4, H5.
  - injection Hh as H1 H2 H3 H4 H5 H6.
    rewrite (Connection_Hash_value _ _ _ E1), (Connection_Hash_value _ _ _ E2).
    now rewrite H1, H2, H3, H4, H5, H6.
Qed.

(** X9.  [RemoteFile.Hash] sees a readable file by its content alone: two
    remote files that print the same fields and whose files hold the same
    bytes have the same checksum, whatever the paths of the files, and
    computing it leaves the state as it is. *)
Theorem RemoteFile_Hash_by_content
    (s : State) (r1 r2 : loc) (v1 v2 : RemoteFile) (content : list Z) :
  heap s !! r1 = Some (ORemoteFile v1) ->
  heap s !! r2 = Some (ORemoteFile v2) ->
  files s !! RemoteFile_AbsPath v1 = Some (Regular content) ->
  files s !! RemoteFile_AbsPath v2 = Some (Regular content) ->
  hashed (ORemoteFile (RemoteFile_set_AbsPath (RemoteFile_AbsPath v2) v1))
  = hashed (ORemoteFile v2) ->
  exists h,
    RemoteFile_Hash (Some r1) s = Returned (h, s)
    /\ RemoteFile_Hash (Some r2) s = Returned (h, s)
    /\ h = xxhash.Sum64String (RemoteFile_preimage v1 (xxhash.Sum64 content)).
Proof.
  intros E1 E2 F1 F2 Hh. eexists.
  rewrite (RemoteFile_Hash_readable s r1 v1 content E1 F1).
  rewrite (RemoteFile_Hash_readable s r2 v2 content E2 F2).
  split; [reflexivity|]. split; [|reflexivity].
  do 3 f_equal. symmetry.
  apply (RemoteFile_preimage_fields
           (RemoteFile_set_AbsPath (RemoteFile_AbsPath v2) v1) v2 _ Hh).
Qed.

(** X10.  [Command.Hash] sees the arguments only through their
    concatenation with commas, and the [IO] block only through the
    concatenation of its three fields, [n/a] standing for no block: two
    commands that print the same program, flags, cooldown and variables
    and agree on the two concatenations have the same checksum. *)
Theorem Command_Hash_joined
    (s : State) (c1 c2 : loc) (v1 v2 : Command) (iostr : string) :
  heap s !! c1 = Some (OCommand v1) ->
  heap s !! c2 = Some (OCommand v2) ->
  Command_Program v1 = Command_Program v2 ->
  strings.Join (Command_Args v1) "," = strings.Join (Command_Args v2) "," ->
  Command_IgnoreErrors v1 = Command_IgnoreErrors v2 ->
  Command_Cooldown v1 = Command_Cooldown v2 ->
  Command_iostr (heap s) v1 = Some iostr ->
  Command_iostr (heap s) v2 = Some iostr ->
  Command_Disabled v1 = Command_Disabled v2 ->
  Command_Vars v1 = Command_Vars v2 ->
  exists h,
    Command_Hash (Some c1) s = Returned (h, s)
    /\ Command_Hash (Some c2) s = Returned (h, s).
Proof.
  intros E1 E2 H1 H2 H3 H4 I1 I2 H6 H7. unfold Command_Hash, Command_iostr in *.
  exists (xxhash.Sum64String
            ("program=" +:+ Command_Program v2 +:+
             " args=" +:+ strings.Join (Command_Args v2) "," +:+
             " ignoreerrors=" +:+ fmt.bool_v (Command_IgnoreErrors v2) +:+
             " cooldown=" +:+ fmt.int_v (Command_Cooldown v2) +:+
             " io=" +:+ iostr +:+
             " disabled=" +:+ fmt.bool_v (Command_Disabled v2) +:+
             " vars=" +:+ fmt.map_v (Command_Vars v2))).
  run. rewrite H1, H2, H3, H4, H6, H7.
  assert (Hio : forall v,
             match Command_IO v with
             | Some l =>
                 match heap s !! l with
                 | Some (OIO w) => Some (IO_Stderr w +:+ IO_Stdin w +:+ IO_Stdout w)
                 | _ => None
                 end
             | None => Some "n/a"
             end = Some iostr ->
             match Command_IO v with
             | None => ret "n/a"
             | io => (w ← load_IO io;
                      ret (IO_Stderr w +:+ IO_Stdin w +:+ IO_Stdout w))
             end s = Returned (iostr, s)).
  { intros v Hv. destruct (Command_IO v) as [l|].
    - destruct (heap s !! l) as [[]|] eqn:L; try discriminate.
      injection Hv as <-. unfold load_IO.
      rewrite !run_bind, (run_load _ _ _ L). reflexivity.
    - injection Hv as <-. reflexivity. }
  rewrite (Hio v1 I1), (Hio v2 I2). run.
  split; reflexivity.
Qed.

End HashedFields.

Lemma Hash_reads_hashed_fields_dmz :
  dmz_retagged <> dmz_network
  /\ hashed (ONetwork dmz_network) = hashed (ONetwork dmz_retagged)
  /\ value (Hash (H := sample_externals) KNetwork (Some 2%nat) two_networks)
     = value (Hash (H := sample_externals) KNetwork (Some 3%nat) two_networks).
Proof.
  split; [discriminate|]. split; [reflexivity|].
  apply (Hash_reads_hashed_fields (H := sample_externals) KNetwork two_networks
           2%nat 3%nat (ONetwork dmz_network) (ONetwork dmz_retagged));
    reflexivity.
Defined.

Lemma RemoteFile_Hash_by_content_banners :
  RemoteFile_AbsPath banner_present <> RemoteFile_AbsPath banner_copy
  /\ exists h,
       RemoteFile_Hash (Some 0%nat) two_banners = Returned (h, two_banners)
       /\ RemoteFile_Hash (Some 1%nat) two_banners = Returned (h, two_banners).
Proof.
  split; [discriminate|].
  destruct (RemoteFile_Hash_by_content two_banners 0%nat 1%nat banner_present
              banner_copy [104; 105; 10] eq_refl eq_refl eq_refl eq_refl eq_refl)
    as (h & H1 & H2 & _).
  exists h. split; assumption.
Defined.

Lemma Command_Hash_joined_nmap :
  Command_Args recon_script_joined <> Command_Args recon_script_split
  /\ Command_IO recon_script_joined <> Command_IO recon_script_split
  /\ exists h,
       Command_Hash (Some 30%nat) two_commands = Returned (h, two_commands)
       /\ Command_Hash (Some 32%nat) two_commands = Returned (h, two_commands).
Proof.
  split; [discriminate|]. split; [discriminate|].
  apply (Command_Hash_joined two_commands 30%nat 32%nat recon_script_joined
           recon_script_split "n/a"); reflexivity.
Defined.

Section WithoutDependency.

Context `{Externals}.

(** X11.  A node without a [Dependency]: [Hash] and [CalculateChecksum]
    end in a nil dereference while the stored checksum is zero; once a
    non-zero checksum is stored, [Hash] returns it and nothing is
    looked up.  [GetChecksum] returns the stored value in both cases. *)
Theorem Metadata_Hash_without_dependency (s : State) (m : loc) (v : Metadata) :
  heap s !! m = Some (OMetadata v) ->
  Metadata_Dependency v = inil ->
  Metadata_CalculateChecksum (Some m) s = Panicked nil_dereference
  /\ (Metadata_Checksum v = 0 -> Metadata_Hash (Some m) s = Panicked nil_dereference)
  /\ (Metadata_Checksum v <> 0 ->
      Metadata_Hash (Some m) s = Returned (Metadata_Checksum v, s))
  /\ Metadata_GetChecksum (Some m) s = Returned (Metadata_Checksum v, s).
Proof.
  intros E Hd. split; [|split; [|split]].
  - rewrite (Metadata_CalculateChecksum_run s m v E), Hd. reflexivity.
  - intros Hz. rewrite (Metadata_Hash_zero s m v E Hz), Hd. reflexivity.
  - intros Hnz. exact (Metadata_Hash_kept s m v E Hnz).
  - unfold Metadata_GetChecksum. run. reflexivity.
Qed.

End WithoutDependency.

Lemma Metadata_Hash_without_dependency_orphan :
  Metadata_Hash (H := sample_externals) (Some 0%nat) orphans = Panicked nil_dereference
  /\ Metadata_Hash (H := sample_externals) (Some 1%nat) orphans = Returned (42, orphans).
Proof.
  destruct (Metadata_Hash_without_dependency (H := sample_externals) orphans 0%nat
              orphan_node eq_refl eq_refl) as (_ & Hzero & _).
  destruct (Metadata_Hash_without_dependency (H := sample_externals) orphans 1%nat
              (Metadata_set_Checksum 42 orphan_node) eq_refl eq_refl)
    as (_ & _ & Hkept & _).
  split; [exact (Hzero eq_refl) | apply Hkept; discriminate].
Defined.

(* ===================================================================== *)
(** ** Conflict policies *)
(* ===================================================================== *)

Lemma run_alloc s o :
  alloc o s
  = Returned (fresh (dom (heap s)),
              with_heap (<[fresh (dom (heap s)) := o]> (heap s)) s).
Proof. reflexivity. Qed.

Lemma fresh_unused (h : gmap loc Obj) : h !! fresh (dom h) = None.
Proof. apply not_elem_of_dom. apply is_fresh. Qed.

Lemma run_load_OnConflict s l v :
  heap s !! l = Some (OOnConflict v) -> load_OnConflict (Some l) s = Returned (v, s).
Proof. typed_load E. Qed.

(** [GetOnConflict] on a live receiver, by the field. *)
Lemma GetOnConflict_run k s l o :
  mergeable k = true ->
  heap s !! l = Some o -> Obj_kind o = Some k ->
  GetOnConflict k (Some l) s
  = read_OnConflict (Obj_OnConflict o) (appends_by_default k) s.
Proof.
  intros Hk E K.
  destruct k; try discriminate; destruct o; try discriminate;
    unfold GetOnConflict, Network_GetOnConflict, DNSRecord_GetOnConflict,
      Command_GetOnConflict, RemoteFile_GetOnConflict, ProvisioningStep_GetOnConflict,
      ProvisionedNetwork_GetOnConflict, Connection_GetOnConflict;
    run; reflexivity.
Qed.

(** [SetOnConflict] on a live receiver: a new cell, and the field. *)
Lemma SetOnConflict_run k s l o policy :
  mergeable k = true ->
  heap s !! l = Some o -> Obj_kind o = Some k ->
  SetOnConflict k (Some l) policy s
  = Returned (tt,
      with_heap (<[l := Obj_set_OnConflict (Some (fresh (dom (heap s)))) o]>
                   (<[fresh (dom (heap s)) := OOnConflict policy]> (heap s))) s).
Proof.
  intros Hk E K.
  pose proof (fresh_unused (heap s)) as Hfresh.
  assert (fresh (dom (heap s)) <> l) as Hne
    by (intros Heq; rewrite Heq in Hfresh; congruence).
  set (s0 := with_heap (<[fresh (dom (heap s)) := OOnConflict policy]> (heap s)) s).
  assert (heap s0 !! l = Some o) as E0.
  { unfold s0. cbn [heap with_heap]. now rewrite lookup_insert_ne. }
  destruct k; try discriminate; destruct o; try discriminate;
    unfold SetOnConflict, Network_SetOnConflict, DNSRecord_SetOnConflict,
      Command_SetOnConflict, RemoteFile_SetOnConflict, ProvisioningStep_SetOnConflict,
      ProvisionedNetwork_SetOnConflict, Connection_SetOnConflict;
    rewrite run_bind, run_alloc; fold s0; cbn beta iota; run;
    unfold s0; rewrite with_heap_twice; reflexivity.
Qed.

Lemma Obj_set_OnConflict_field k o p :
  mergeable k = true -> Obj_kind o = Some k ->
  Obj_OnConflict (Obj_set_OnConflict p o) = p
  /\ Obj_kind (Obj_set_OnConflict p o) = Some k
  /\ Obj_ID (Obj_set_OnConflict p o) = Obj_ID o
  /\ hashed (Obj_set_OnConflict p o) = hashed o.
Proof.
  intros Hk K.
  destruct k; try discriminate; destruct o; try discriminate; repeat split; exact K.
Qed.

(** X12.  The conflict policy of an object of one of the seven kinds.
    Without one, [GetOnConflict] returns the policy [default], which
    appends for a ProvisioningStep and a ProvisionedNetwork and does not
    for the five other kinds.  [SetOnConflict] puts the policy in a cell
    of its own, changes the field of the receiver only (its path and the
    fields its checksum is made of are kept, as is every other cell, the
    cell of the former policy included), and [GetOnConflict] then returns
    the policy that was set. *)
Theorem GetOnConflict_SetOnConflict (k : Kind) (s : State) (l : loc) (o : Obj) :
  mergeable k = true ->
  heap s !! l = Some o ->
  Obj_kind o = Some k ->
  (Obj_OnConflict o = None ->
   GetOnConflict k (Some l) s
   = Returned ({| Do := "default"; Append := appends_by_default k |}, s))
  /\ (forall policy,
        exists a o1 s1,
          SetOnConflict k (Some l) policy s = Returned (tt, s1)
          /\ heap s !! a = None
          /\ heap s1 !! a = Some (OOnConflict policy)
          /\ heap s1 !! l = Some o1
          /\ Obj_OnConflict o1 = Some a
          /\ Obj_kind o1 = Some k
          /\ Obj_ID o1 = Obj_ID o
          /\ hashed o1 = hashed o
          /\ (forall l', l' <> l -> l' <> a -> heap s1 !! l' = heap s !! l')
          /\ files s1 = files s /\ trace s1 = trace s
          /\ GetOnConflict k (Some l) s1 = Returned (policy, s1)).
Proof.
  intros Hk E K. split.
  - intros Hnil. rewrite (GetOnConflict_run k s l o Hk E K), Hnil. reflexivity.
  - intros policy.
    set (a := fresh (dom (heap s))).
    pose proof (fresh_unused (heap s)) as Hfresh. fold a in Hfresh.
    assert (a <> l) as Hne by (intros Heq; rewrite Heq in Hfresh; congruence).
    destruct (Obj_set_OnConflict_field k o (Some a) Hk K) as (Hf & K1 & Hid & Hh).
    exists a, (Obj_set_OnConflict (Some a) o).
    eexists. split; [apply (SetOnConflict_run k s l o policy Hk E K)|].
    fold a. set (s1 := with_heap _ s).
    assert (heap s1 !! l = Some (Obj_set_OnConflict (Some a) o)) as E1
      by apply lookup_insert_eq.
    assert (heap s1 !! a = Some (OOnConflict policy)) as Ea.
    { unfold s1. cbn [heap with_heap].
      rewrite lookup_insert_ne by congruence. apply lookup_insert_eq. }
    repeat split; auto.
    + intros l' H1 H2. unfold s1. cbn [heap with_heap].
      rewrite !lookup_insert_ne by congruence. reflexivity.
    + rewrite (GetOnConflict_run k s1 l _ Hk E1 K1), Hf.
      cbn [read_OnConflict]. apply (run_load_OnConflict s1 a policy Ea).
Qed.

Lemma GetOnConflict_SetOnConflict_dmz :
  GetOnConflict KNetwork (Some 2%nat) two_networks
  = Returned ({| Do := "default"; Append := false |}, two_networks)
  /\ GetOnConflict KNetwork (Some 3%nat) two_networks
     = Returned ({| Do := "overwrite"; Append := false |}, two_networks)
  /\ exists s1,
       SetOnConflict KNetwork (Some 3%nat) {| Do := "panic"; Append := false |}
         two_networks = Returned (tt, s1)
       /\ GetOnConflict KNetwork (Some 3%nat) s1
          = Returned ({| Do := "panic"; Append := false |}, s1)
       /\ heap s1 !! 9%nat
          = Some (OOnConflict {| Do := "overwrite"; Append := false |}).
Proof.
  destruct (GetOnConflict_SetOnConflict KNetwork two_networks 2%nat
              (ONetwork dmz_network) eq_refl eq_refl eq_refl) as [Hdefault _].
  destruct (GetOnConflict_SetOnConflict KNetwork two_networks 3%nat
              (ONetwork dmz_retagged) eq_refl eq_refl eq_refl) as [_ Hset].
  destruct (Hset {| Do := "panic"; Append := false |})
    as (a & o1 & s1 & Hrun & Ha & _ & _ & _ & _ & _ & _ & Hframe & _ & _ & Hget).
  split; [exact (Hdefault eq_refl)|]. split; [reflexivity|].
  exists s1. split; [exact Hrun|]. split; [exact Hget|].
  rewrite Hframe; [reflexivity | discriminate |].
  intros <-. discriminate Ha.
Defined.

(** The two build artifacts append by default. *)
Example GetOnConflict_artifact_default :
  value (GetOnConflict KProvisionedNetwork (Some 13%nat) deployed)
  = Returned {| Do := "default"; Append := true |}
  /\ value (GetOnConflict KConnection (Some 18%nat) deployed)
     = Returned {| Do := "default"; Append := false |}.
Proof. split; reflexivity. Qed.

(* ===================================================================== *)
(** ** [Network.Octet] *)
(* ===================================================================== *)

Lemma strings_Split_at_not_nil sep s : strings_Split_at sep s <> [].
Proof.
  destruct s as [|a s]; [discriminate|]. cbn [strings_Split_at].
  destruct (Ascii.eqb a sep); [discriminate|].
  destruct (strings_Split_at sep s); discriminate.
Qed.

(** One element more than there are separators. *)
Lemma strings_Split_at_length sep s :
  length (strings_Split_at sep s) = S (count_byte sep s).
Proof.
  induction s as [|a s IH]; [reflexivity|].
  cbn [strings_Split_at count_byte]. destruct (Ascii.eqb a sep).
  - cbn [length]. rewrite IH. reflexivity.
  - destruct (strings_Split_at sep s) as [|x xs] eqn:E;
      [now apply strings_Split_at_not_nil in E|].
    cbn [length] in *. rewrite IH. reflexivity.
Qed.

(** A first element without separator, then a separator. *)
Lemma strings_Split_at_first sep e rest :
  count_byte sep e = 0%nat ->
  strings_Split_at sep (e +:+ String sep rest) = e :: strings_Split_at sep rest.
Proof.
  induction e as [|a e IH]; intros He.
  - rewrite append_nil_l. cbn [strings_Split_at]. now rewrite Ascii.eqb_refl.
  - cbn [count_byte] in He. rewrite append_cons. cbn [strings_Split_at].
    destruct (Ascii.eqb a sep); [discriminate|].
    rewrite IH by exact He. reflexivity.
Qed.

(** X14.  [Octet] always returns, and changes nothing: [NO_CIDR] for an
    empty CIDR, [INVALID_CIDR] for a CIDR with fewer than three dots, and
    for a CIDR with at least three dots what stands between the second
    and the third, whatever it is. *)
Theorem Network_Octet_third (s : State) (n : loc) (v : Network) :
  heap s !! n = Some (ONetwork v) ->
  exists r,
    Network_Octet (Some n) s = Returned (r, s)
    /\ (Network_CIDR v = "" -> r = "NO_CIDR")
    /\ (Network_CIDR v <> "" -> (count_byte "." (Network_CIDR v) < 3)%nat ->
        r = "INVALID_CIDR")
    /\ (forall a b c rest,
          count_byte "." a = 0%nat -> count_byte "." b = 0%nat ->
          count_byte "." c = 0%nat ->
          Network_CIDR v = a +:+ "." +:+ b +:+ "." +:+ c +:+ "." +:+ rest ->
          r = c).
Proof.
  intros E. unfold Network_Octet. run.
  destruct (String.eqb_spec (Network_CIDR v) "") as [Hempty|Hne].
  - rewrite run_ret. eexists. split; [reflexivity|]. split; [reflexivity|].
    split; [congruence|].
    intros a b c rest _ _ _ Hc. rewrite Hempty in Hc.
    destruct a; discriminate.
  - pose proof (strings_Split_at_length "." (Network_CIDR v)) as Hlen.
    destruct (length (strings_Split_at "." (Network_CIDR v)) <=? 3)%nat eqn:Hle.
    + apply Nat.leb_le in Hle. rewrite run_ret.
      eexists. split; [reflexivity|]. split; [congruence|]. split; [reflexivity|].
      intros a b c rest Ha Hb Hc Hcidr. exfalso.
      rewrite Hcidr in Hle.
      change ("." +:+ b +:+ "." +:+ c +:+ "." +:+ rest)
        with (String "." (b +:+ String "." (c +:+ String "." rest))) in Hle.
      rewrite !strings_Split_at_first in Hle by assumption.
      pose proof (strings_Split_at_length "." rest). cbn [length] in Hle. lia.
    + apply Nat.leb_gt in Hle.
      destruct (strings_Split_at "." (Network_CIDR v)) as [|x0 [|x1 [|x2 xs]]] eqn:Hs;
        cbn [length] in Hle; try lia.
      rewrite run_lift. cbn [index lookup list_lookup].
      eexists. split; [reflexivity|]. split; [congruence|].
      split; [intros _ Hfew; cbn [length] in Hlen, Hle; lia|].
      intros a b c rest Ha Hb Hc Hcidr.
      rewrite Hcidr in Hs.
      change ("." +:+ b +:+ "." +:+ c +:+ "." +:+ rest)
        with (String "." (b +:+ String "." (c +:+ String "." rest))) in Hs.
      rewrite !strings_Split_at_first in Hs by assumption.
      now injection Hs.
Qed.

Lemma Network_Octet_third_dmz :
  Network_CIDR dmz_network = "10" +:+ "." +:+ "0" +:+ "." +:+ "1" +:+ "." +:+ "0/24"
  /\ Network_Octet (Some 2%nat) two_networks = Returned ("1", two_networks).
Proof.
  split; [reflexivity|].
  destruct (Network_Octet_third two_networks 2%nat dmz_network eq_refl)
    as (r & Hrun & _ & _ & Hthird).
  refine (eq_trans Hrun _). do 2 f_equal.
  apply (Hthird "10" "0" "1" "0/24"); reflexivity.
Defined.

(** A CIDR is not checked for digits, and a fourth dot is no harm. *)
Example Network_Octet_cases :
  map (fun cidr =>
         value (Network_Octet (Some 0%nat)
                  (initial [(0%nat, ONetwork
                                      {| Network_ID := ""; Network_Name := "";
                                         Network_CIDR := cidr;
                                         Network_VDIVisible := false;
                                         Network_Vars := ∅; Network_Tags := ∅;
                                         Network_OnConflict := None;
                                         Network_Caller := [] |})] [] obliging)))
      [""; "10.0.1"; "fd00::/8"; "10.0..1/24"; "a.b.c.d.e"]
  = map Returned ["NO_CIDR"; "INVALID_CIDR"; "INVALID_CIDR"; ""; "c"].
Proof. reflexivity. Qed.
